(** * Unrestricted AGF2: self-energy build, Fock loop and energies

    A shallow embedding of [pyscf/agf2/uagf2.py].  Python functions become
    Rocq functions into an exception monad; function locals that Python
    may leave unassigned are optional slots; NumPy arrays are a shape with
    a row-major element accessor; floating-point scalars are an abstract
    type with the operations the module uses, instantiated at the
    canonical rationals for concrete runs.  Collaborators that live in
    other modules ([aux], [chempot], [ragf2], [ao2mo], [lib]) are the
    fields of one interface record.  Timers and loggers are modelled by
    the evaluation of their arguments, which is all that can raise in
    them.  Auxiliary objects are values: an attribute assignment yields
    the updated value, and the two spins never share one object.  The
    Fock loop is modelled a second time on a store of objects, where the
    assignments to a self-energy are made in place. *)

From Stdlib Require Import List String ZArith QArith Qcanon Qcabs Bool Arith Lia Ring.
Import ListNotations.
Close Scope Qc_scope.
Close Scope Q_scope.
Open Scope nat_scope.

(** ** Python run-time: exceptions, name lookup, argument binding *)

Module Py.

Inductive type_error : Type :=
| UnexpectedKeyword (k : string)
| MultipleValues (k : string)
| TooManyPositional
| MissingArgument (p : string)
| BadIndex (what : string).

Inductive exn : Type :=
| TypeError (why : type_error)
| NameError (name : string)
| UnboundLocalError (name : string)
| AssertionError
| ValueError (msg : string)
| ZeroDivisionError.

Inductive result (A : Type) : Type :=
| Ok (a : A)
| Raise (e : exn).

Arguments Ok {A} a.
Arguments Raise {A} e.

Definition bind {A B : Type} (c : result A) (k : A -> result B) : result B :=
  match c with
  | Ok a => k a
  | Raise e => Raise e
  end.

Definition returns {A : Type} (c : result A) : bool :=
  match c with
  | Ok _ => true
  | Raise _ => false
  end.

(** Values bound to module-level names.  Functions, classes and imported
    modules are opaque objects: only their presence matters here. *)
Inductive value : Type :=
| VNone
| VInt (n : Z)
| VObject (what : string).

Definition namespace : Type := list (string * value).

Fixpoint lookup (ns : namespace) (x : string) : option value :=
  match ns with
  | [] => None
  | (y, v) :: rest => if String.eqb x y then Some v else lookup rest x
  end.

(** LOAD_GLOBAL: a name that the function never assigns is looked up in
    the module namespace (the builtins hold none of the names used here). *)
Definition load_global (globals : namespace) (x : string) : result value :=
  match lookup globals x with
  | Some v => Ok v
  | None => Raise (NameError x)
  end.

(** LOAD_FAST: a name the function assigns somewhere is a local slot, and
    reading it before any assignment raises. *)
Definition load_fast {A : Type} (x : string) (slot : option A) : result A :=
  match slot with
  | Some v => Ok v
  | None => Raise (UnboundLocalError x)
  end.

Record signature : Type := {
  required : list string;
  defaulted : list string
}.

Record call_shape : Type := {
  n_positional : nat;
  keywords : list string
}.

Definition mem (x : string) (xs : list string) : bool :=
  existsb (String.eqb x) xs.

(** Argument binding of a call to a [def] without [*args]/[**kwargs], in
    the interpreter's order: keywords are matched first, then the count
    of positional arguments, then the parameters left without a value. *)
Definition bind_arguments (s : signature) (c : call_shape) : result unit :=
  let params := required s ++ defaulted s in
  match find (fun k => negb (mem k params)) (keywords c) with
  | Some k => Raise (TypeError (UnexpectedKeyword k))
  | None =>
    match find (fun k => mem k (firstn (n_positional c) params)) (keywords c) with
    | Some k => Raise (TypeError (MultipleValues k))
    | None =>
      if List.length params <? n_positional c then Raise (TypeError TooManyPositional)
      else
        match find (fun p => negb (mem p (keywords c)))
                   (skipn (n_positional c) (required s)) with
        | Some p => Raise (TypeError (MissingArgument p))
        | None => Ok tt
        end
    end
  end.

(** [range(1, n+1)]: empty when [n] is zero or negative. *)
Definition range1 (n : Z) : list Z :=
  map Z.of_nat (seq 1 (Z.to_nat n)).

(** Builtin [max(a, b)] of two arguments under a strict order [lt]: the
    first argument is kept unless the second is greater. *)
Definition max2 {A : Type} (lt : A -> A -> bool) (a b : A) : A :=
  if lt a b then b else a.

(** Computations that thread a piece of mutable state of type [S] and may
    raise; the state reached is kept when an exception propagates. *)
Definition M (S A : Type) : Type := S -> result A * S.

Definition ret {S A : Type} (a : A) : M S A := fun s => (Ok a, s).

Definition lift {S A : Type} (c : result A) : M S A := fun s => (c, s).

Definition bindM {S A B : Type} (c : M S A) (k : A -> M S B) : M S B :=
  fun s =>
    match c s with
    | (Ok a, s') => k a s'
    | (Raise e, s') => (Raise e, s')
    end.

(** A [for] loop over [xs] whose body reports whether it executed
    [break]. *)
Fixpoint for_each {S L : Type} (xs : list Z) (body : Z -> L -> M S (bool * L))
    (l : L) : M S L :=
  match xs with
  | [] => ret l
  | x :: rest =>
    bindM (body x l) (fun r =>
      if fst r then ret (snd r) else for_each rest body (snd r))
  end.

End Py.

Import Py.

Declare Scope py_scope.
Delimit Scope py_scope with py.
Notation "x <- c ;; k" := (Py.bind c (fun x => k))
  (at level 61, c at next level, right associativity) : py_scope.
Notation "' pat <- c ;; k" := (Py.bind c (fun x => match x with pat => k end))
  (at level 61, pat pattern, c at next level, right associativity) : py_scope.
Notation "x <~ c ;; k" := (Py.bindM c (fun x => k))
  (at level 61, c at next level, right associativity) : py_scope.
Notation "' pat <~ c ;; k" := (Py.bindM c (fun x => match x with pat => k end))
  (at level 61, pat pattern, c at next level, right associativity) : py_scope.
Open Scope py_scope.

(** ** Scalars *)

(** The double-precision operations the module performs.  [rlit] reads a
    float literal, [rofZ] is the int-to-float promotion of mixed
    arithmetic, [rtrunc] is [int(x)]. *)
Class Scalar (R : Type) : Type := {
  rzero : R;
  rone : R;
  radd : R -> R -> R;
  rmul : R -> R -> R;
  rsub : R -> R -> R;
  ropp : R -> R;
  rdiv : R -> R -> R;
  rabs : R -> R;
  rltb : R -> R -> bool;
  rlit : Q -> R;
  rofZ : Z -> R;
  rtrunc : R -> Z
}.

(** Exact arithmetic: the scalar operations form a commutative ring.
    Statements about sums of products are made under this idealisation. *)
Class ExactScalar (R : Type) {SR : Scalar R} : Prop := {
  scalar_ring : ring_theory rzero rone radd rmul rsub ropp (@eq R)
}.

(** ** NumPy arrays *)

Module Np.

Record ndarray (R : Type) : Type := mk {
  shape : list nat;
  flat : nat -> R
}.

Arguments mk {R} shape flat.
Arguments shape {R} n.
Arguments flat {R} n.

Section Arrays.

Context {R : Type} {SR : Scalar R}.

Definition dim (a : ndarray R) (k : nat) : nat := nth k (shape a) 0.

Definition size (a : ndarray R) : nat := fold_right Nat.mul 1 (shape a).

(** [sum_n n f] is f(0) + ... + f(n-1), accumulated left to right. *)
Fixpoint sum_n (n : nat) (f : nat -> R) : R :=
  match n with
  | O => rzero
  | S k => radd (sum_n k f) (f k)
  end.

Definition zeros (sh : list nat) : ndarray R := mk sh (fun _ => rzero).

Definition eye (n : nat) : ndarray R :=
  mk [n; n] (fun k => if (k / n =? k mod n) then rone else rzero).

(** Element access [a[i]], [a[r, c]] and [a[x, i, j, k]]. *)
Definition get1 (a : ndarray R) (i : nat) : R := flat a i.

Definition get2 (a : ndarray R) (r c : nat) : R := flat a (r * dim a 1 + c).

Definition get4 (a : ndarray R) (x i j k : nat) : R :=
  flat a (((x * dim a 1 + i) * dim a 2 + j) * dim a 3 + k).

(** [a[:, i]] of a 4-index array: shape (d0, d2, d3). *)
Definition take_axis1 (a : ndarray R) (i : nat) : ndarray R :=
  let inner := dim a 2 * dim a 3 in
  mk [dim a 0; dim a 2; dim a 3]
     (fun k => flat a ((k / inner * dim a 1 + i) * inner + k mod inner)).

(** [a[:, :, i]] of a 4-index array: shape (d0, d1, d3). *)
Definition take_axis2 (a : ndarray R) (i : nat) : ndarray R :=
  let d1 := dim a 1 in
  let d3 := dim a 3 in
  mk [dim a 0; d1; d3]
     (fun k =>
        let x := k / (d1 * d3) in
        let j := (k / d3) mod d1 in
        let c := k mod d3 in
        flat a (((x * d1 + j) * dim a 2 + i) * d3 + c)).

(** [a.reshape(n, -1)]. *)
Definition reshape_rows (a : ndarray R) (n : nat) : ndarray R :=
  mk [n; size a / n] (flat a).

(** [a.reshape(d0, d1, d2, d3)]. *)
Definition reshape4 (a : ndarray R) (d0 d1 d2 d3 : nat) : ndarray R :=
  mk [d0; d1; d2; d3] (flat a).

(** [a.ravel()]. *)
Definition ravel (a : ndarray R) : ndarray R := mk [size a] (flat a).

(** [a.T] of a matrix. *)
Definition transpose (a : ndarray R) : ndarray R :=
  let r := dim a 0 in
  let c := dim a 1 in
  mk [c; r] (fun k => flat a (k mod r * c + k / r)).

(** Elementwise arithmetic on arrays of one shape, and with a scalar. *)
Definition map2 (f : R -> R -> R) (a b : ndarray R) : ndarray R :=
  mk (shape a) (fun k => f (flat a k) (flat b k)).

Definition add (a b : ndarray R) : ndarray R := map2 radd a b.

Definition sub (a b : ndarray R) : ndarray R := map2 rsub a b.

Definition neg (a : ndarray R) : ndarray R := mk (shape a) (fun k => ropp (flat a k)).

Definition add_scalar (a : ndarray R) (s : R) : ndarray R :=
  mk (shape a) (fun k => radd (flat a k) s).

(** [m * v[None]]: every row of the matrix [m] times the vector [v]. *)
Definition mul_rowvec (m v : ndarray R) : ndarray R :=
  mk (shape m) (fun k => rmul (flat m k) (flat v (k mod dim m 1))).

(** [lib.direct_sum('j,a->ja', u, v)]. *)
Definition direct_sum (u v : ndarray R) : ndarray R :=
  let n := dim v 0 in
  mk [dim u 0; n] (fun k => radd (flat u (k / n)) (flat v (k mod n))).

(** [lib.dot(a, b, alpha, beta, c)] = alpha * (a @ b) + beta * c. *)
Definition dot (a b : ndarray R) (alpha beta : R) (c : ndarray R) : ndarray R :=
  let n := dim b 1 in
  mk [dim a 0; n]
     (fun k =>
        radd (rmul alpha (sum_n (dim a 1) (fun l => rmul (get2 a (k / n) l) (get2 b l (k mod n)))))
             (rmul beta (flat c k))).

(** [a[:n]]: the first [n] entries along the leading axis. *)
Definition take_rows (a : ndarray R) (n : nat) : ndarray R :=
  mk (Nat.min n (dim a 0) :: tl (shape a)) (flat a).

(** [a[i]] along the leading axis. *)
Definition row (a : ndarray R) (i : nat) : ndarray R :=
  let w := fold_right Nat.mul 1 (tl (shape a)) in
  mk (tl (shape a)) (fun k => flat a (i * w + k)).

(** [np.array((a, b))] of two arrays of one shape. *)
Definition stack2 (a b : ndarray R) : ndarray R :=
  let w := size a in
  mk (2 :: shape a) (fun k => if k <? w then flat a k else flat b (k - w)).

(** [a[p0:p1] = b] on the leading axis. *)
Definition set_rows (a : ndarray R) (p0 p1 : nat) (b : ndarray R) : ndarray R :=
  let w := fold_right Nat.mul 1 (tl (shape a)) in
  mk (shape a)
     (fun k => if (p0 * w <=? k) && (k <? p1 * w) then flat b (k - p0 * w) else flat a k).

(** [np.max(np.absolute(a))]; NumPy refuses an empty array. *)
Definition max_abs (a : ndarray R) : result R :=
  match size a with
  | O => Raise (ValueError "zero-size array to reduction operation maximum")
  | S n =>
    Ok (fold_left (fun m k => Py.max2 rltb m (rabs (flat a k))) (seq 1 n) (rabs (flat a 0)))
  end.

(** [a[mask]] of a vector under a boolean mask. *)
Fixpoint mask_indices (mask : list bool) (k : nat) : list nat :=
  match mask with
  | [] => []
  | b :: rest => if b then k :: mask_indices rest (S k) else mask_indices rest (S k)
  end.

Definition select (a : ndarray R) (mask : list bool) : ndarray R :=
  let idx := mask_indices mask 0 in
  mk [List.length idx] (fun k => flat a (nth k idx 0)).

End Arrays.

End Np.

Import Np.

(** ** Data model *)

(** Auxiliary spaces.  The source asserts [type(x) is aux.GreensFunction]
    or [aux.SelfEnergy] at each entry point; the two kinds are two record
    types here, so the assertions hold by typing. *)
Record GreensFunction (R : Type) : Type := mkGF {
  gf_energy : ndarray R;
  gf_coupling : ndarray R;
  gf_chempot : R
}.

Record SelfEnergy (R : Type) : Type := mkSE {
  se_energy : ndarray R;
  se_coupling : ndarray R;
  se_chempot : R
}.

Arguments mkGF {R} gf_energy gf_coupling gf_chempot.
Arguments gf_energy {R} g.
Arguments gf_coupling {R} g.
Arguments gf_chempot {R} g.
Arguments mkSE {R} se_energy se_coupling se_chempot.
Arguments se_energy {R} s.
Arguments se_coupling {R} s.
Arguments se_chempot {R} s.

(** Modelled from the spec: [naux] of [aux.py], which is not among the
    sources; the spec calls it the number of poles. *)
Definition gf_naux {R : Type} (g : GreensFunction R) : nat := nth 0 (shape (gf_energy g)) 0.

(** Modelled from the spec: [naux] of a self-energy, as [gf_naux]. *)
Definition se_naux {R : Type} (s : SelfEnergy R) : nat := nth 0 (shape (se_energy s)) 0.

Definition se_with_chempot {R : Type} (s : SelfEnergy R) (mu : R) : SelfEnergy R :=
  mkSE (se_energy s) (se_coupling s) mu.

(** The persisted tensor store [eri.feri]: datasets by key. *)
Definition h5file (R : Type) : Type := list (string * ndarray R).

(** [_ChemistsERIs]. *)
Record _ChemistsERIs (R : Type) : Type := mkERIs {
  eri_fock : ndarray R * ndarray R;
  eri_h1e : ndarray R * ndarray R;
  eri_aa : ndarray R;
  eri_ab : ndarray R;
  eri_ba : ndarray R;
  eri_bb : ndarray R;
  eri_feri : option (h5file R)
}.

Arguments mkERIs {R} _ _ _ _ _ _ _.
Arguments eri_fock {R} _.
Arguments eri_h1e {R} _.
Arguments eri_aa {R} _.
Arguments eri_ab {R} _.
Arguments eri_ba {R} _.
Arguments eri_bb {R} _.
Arguments eri_feri {R} _.

(** The attributes of a [UAGF2] object that the functions below read. *)
Record UAGF2 (R : Type) : Type := mkUAGF2 {
  nmo : nat * nat;
  nocc : nat * nat;
  mo_energy : ndarray R * ndarray R;
  max_memory : R;
  weight_tol : R;
  conv_tol_rdm1 : R;
  conv_tol_nelec : R;
  max_cycle_outer : Z;
  max_cycle_inner : Z;
  diis_space : Z;
  diis_min_space : Z
}.

Arguments mkUAGF2 {R} _ _ _ _ _ _ _ _ _ _ _.
Arguments nmo {R} _.
Arguments nocc {R} _.
Arguments mo_energy {R} _.
Arguments max_memory {R} _.
Arguments weight_tol {R} _.
Arguments conv_tol_rdm1 {R} _.
Arguments conv_tol_nelec {R} _.
Arguments max_cycle_outer {R} _.
Arguments max_cycle_inner {R} _.
Arguments diis_space {R} _.
Arguments diis_min_space {R} _.

(** The extrapolation state of [lib.diis.DIIS]: its two size settings and
    the stacked Fock matrices seen so far. *)
Record DIIS (R : Type) : Type := mkDIIS {
  space : Z;
  min_space : Z;
  history : list (ndarray R)
}.

Arguments mkDIIS {R} _ _ _.
Arguments space {R} _.
Arguments min_space {R} _.
Arguments history {R} _.

(** The first argument of [binsearch_chempot]: a Fock matrix, or the
    tuple [(w, v)] of an eigen-decomposition already at hand. *)
Inductive fock_arg (R : Type) : Type :=
| FockMatrix (f : ndarray R)
| FockEig (w v : ndarray R).

Arguments FockMatrix {R} f.
Arguments FockEig {R} w v.

(** What [_make_qmo_eris_incore] and [_make_qmo_eris_outcore] return: the
    nested tuple for [spin = None], one pair for [spin = 0] or [1]. *)
Inductive qmo_eris (R : Type) : Type :=
| QmoAll (aa ab ba bb : ndarray R)
| QmoSpin (same cross : ndarray R).

Arguments QmoAll {R} aa ab ba bb.
Arguments QmoSpin {R} same cross.

(** ** Collaborators

    Functions of other modules, in the order the source meets them.  They
    are total and pure, except [diis_update], which also returns the new
    extrapolation state. *)
Class Collaborators (R : Type) : Type := {
  (** [getattr(__config__, 'agf2_uagf2_blkmin', None)] *)
  config_blkmin : option Z;
  (** [lib.current_memory()[0]] *)
  lib_current_memory : R;
  (** [ao2mo.incore.general(eri, (c0, c1, c2, c3), compact=False)] *)
  ao2mo_incore_general :
    ndarray R -> ndarray R * ndarray R * ndarray R * ndarray R -> ndarray R;
  (** one block [p0:p1] of the streamed transform: the gather through
      [tril2sq], [ao2mo._ao2mo.nr_e2] with the concatenated [(cj, ca)]
      and the [einsum] with [ci] *)
  ao2mo_outcore_block :
    ndarray R -> nat -> nat -> ndarray R -> ndarray R -> ndarray R -> ndarray R;
  (** [ragf2._cholesky_build(vv, vev, gf_occ, gf_vir)] *)
  ragf2_cholesky_build :
    ndarray R -> ndarray R -> GreensFunction R -> GreensFunction R -> ndarray R * ndarray R;
  (** [se.remove_uncoupled(tol=tol)], as the self-energy it leaves *)
  aux_remove_uncoupled : SelfEnergy R -> R -> SelfEnergy R;
  (** [ragf2.get_jk(agf2, eri, rdm1, with_k)] *)
  ragf2_get_jk : ndarray R -> ndarray R -> bool -> ndarray R * ndarray R;
  (** [gf.make_rdm1(occupancy=n)] *)
  aux_make_rdm1 : GreensFunction R -> Z -> ndarray R;
  (** [minimize_chempot(se, fock, nelec, x0=, occupancy=, tol=, maxiter=)[0]] *)
  chempot_minimize :
    SelfEnergy R -> ndarray R -> nat -> R -> Z -> R -> Z -> SelfEnergy R;
  (** [binsearch_chempot(fock, nphys, nelec, occupancy=)]: the chemical
      potential and the error in the number of electrons *)
  chempot_binsearch : fock_arg R -> nat -> nat -> Z -> R * R;
  (** [se.eig(fock, chempot=, out=)] *)
  aux_eig : SelfEnergy R -> ndarray R -> option R -> ndarray R * ndarray R;
  (** [diis.update(x, xerr=None)] *)
  diis_update : DIIS R -> ndarray R -> ndarray R * DIIS R;
  (** [gf.get_occupied()], [gf.get_virtual()], [aux.combine(a, b)] *)
  aux_get_occupied : GreensFunction R -> GreensFunction R;
  aux_get_virtual : GreensFunction R -> GreensFunction R;
  aux_combine : SelfEnergy R -> SelfEnergy R -> SelfEnergy R;
  (** [agf2.get_frozen_mask()] *)
  ump2_get_frozen_mask : UAGF2 R -> list bool * list bool;
  (** the Galitskii-Migdal contraction of one spin channel *)
  gm_contraction : GreensFunction R -> SelfEnergy R -> R
}.

(** ** The module [uagf2] *)

(** The names bound at module level when a function of the module runs:
    the imports, [BLKMIN], and every [def] and [class]. *)
Definition module_globals : Py.namespace :=
  map (fun x => (x, VObject x))
      ["time"; "np"; "lib"; "logger"; "__config__"; "ao2mo"; "_vhf"; "aux";
       "mpi_helper"; "ragf2"; "binsearch_chempot"; "minimize_chempot";
       "get_nocc"; "get_nmo"; "get_frozen_mask"; "BLKMIN"; "kernel";
       "build_se_part"; "get_jk"; "get_fock"; "fock_loop"; "energy_1body";
       "energy_2body"; "energy_mp2"; "UAGF2"; "_mo_energy_without_core";
       "_mo_without_core"; "_ChemistsERIs"; "_make_mo_eris_incore";
       "_make_mo_eris_outcore"; "_make_qmo_eris_incore";
       "_make_qmo_eris_outcore"]%string.

(** [def _make_qmo_eris_incore(agf2, eri, gf_occ, gf_vir, spin=None)] *)
Definition sig_make_qmo_eris_incore : Py.signature :=
  {| required := ["agf2"; "eri"; "gf_occ"; "gf_vir"]%string;
     defaulted := ["spin"]%string |}.

(** [def _make_qmo_eris_outcore(agf2, eri, gf_occ, gf_vir)] *)
Definition sig_make_qmo_eris_outcore : Py.signature :=
  {| required := ["agf2"; "eri"; "gf_occ"; "gf_vir"]%string;
     defaulted := [] |}.

(** The call [f(agf2, eri, gf_occ, gf_vir, spin=spin)] of [build_se_part]. *)
Definition call_with_spin : Py.call_shape :=
  {| n_positional := 4; keywords := ["spin"]%string |}.

(** The call [f(agf2, eri, gf_occ, gf_vir)]. *)
Definition call_positional : Py.call_shape :=
  {| n_positional := 4; keywords := [] |}.

Section Uagf2.

Context {R : Type} {SR : Scalar R} {X : Collaborators R}.

(** [BLKMIN = getattr(__config__, 'agf2_uagf2_blkmin', 1)] *)
Definition BLKMIN : Z :=
  match config_blkmin with
  | Some v => v
  | None => 1%Z
  end.

(** *** Quasi-particle integrals *)

(** [spin is None or spin == k] on a parameter. *)
Definition spin_selects (spin : option Z) (k : Z) : bool :=
  match spin with
  | None => true
  | Some s => Z.eqb s k
  end.

(** The final [if spin is None: ... elif spin == 0: ... elif spin == 1: ...]
    followed by [return qeri], common to both transforms.  The four
    tensors are local slots filled by the branches that ran. *)
Definition select_qeri (spin : option Z) (aa ab ba bb : option (ndarray R))
    : result (qmo_eris R) :=
  match spin with
  | None =>
    qaa <- load_fast "qeri_aa" aa ;;
    qab <- load_fast "qeri_ab" ab ;;
    qba <- load_fast "qeri_ba" ba ;;
    qbb <- load_fast "qeri_bb" bb ;;
    Ok (QmoAll qaa qab qba qbb)
  | Some s =>
    if Z.eqb s 0 then
      qaa <- load_fast "qeri_aa" aa ;;
      qab <- load_fast "qeri_ab" ab ;;
      Ok (QmoSpin qaa qab)
    else if Z.eqb s 1 then
      qbb <- load_fast "qeri_bb" bb ;;
      qba <- load_fast "qeri_ba" ba ;;
      Ok (QmoSpin qbb qba)
    else Raise (UnboundLocalError "qeri")
  end.

Definition _make_qmo_eris_incore (call : Py.call_shape) (agf2 : UAGF2 R)
    (eri : _ChemistsERIs R) (gf_occ gf_vir : GreensFunction R * GreensFunction R)
    (spin : option Z) : result (qmo_eris R) :=
  _ <- Py.bind_arguments sig_make_qmo_eris_incore call ;;
  let '(nmoa, nmob) := nmo agf2 in
  let cia := gf_coupling (fst gf_occ) in
  let cja := cia in
  let cib := gf_coupling (snd gf_occ) in
  let cjb := cib in
  let caa := gf_coupling (fst gf_vir) in
  let cab := gf_coupling (snd gf_vir) in
  let nia := gf_naux (fst gf_occ) in
  let nja := nia in
  let nib := gf_naux (snd gf_occ) in
  let njb := nib in
  let naa := gf_naux (fst gf_vir) in
  let nab := gf_naux (snd gf_vir) in
  let alpha :=
    if spin_selects spin 0 then
      let qeri_aa := ao2mo_incore_general (eri_aa eri) (eye nmoa, cia, cja, caa) in
      let qeri_ab := ao2mo_incore_general (eri_ab eri) (eye nmoa, cia, cjb, cab) in
      (Some (reshape4 qeri_aa nmoa nia nja naa), Some (reshape4 qeri_ab nmoa nia njb nab))
    else (None, None) in
  let beta :=
    if spin_selects spin 1 then
      let qeri_bb := ao2mo_incore_general (eri_bb eri) (eye nmob, cib, cjb, cab) in
      let qeri_ba := ao2mo_incore_general (eri_ba eri) (eye nmob, cib, cja, caa) in
      (Some (reshape4 qeri_bb nmob nib njb nab), Some (reshape4 qeri_ba nmob nib nja naa))
    else (None, None) in
  select_qeri spin (fst alpha) (snd alpha) (snd beta) (fst beta).

(** [lib.prange(0, stop, step)]: the blocks [(p0, min(p0 + step, stop))]. *)
Definition prange (stop : nat) (step : Z) : result (list (nat * nat)) :=
  if stop =? 0 then Ok []
  else if Z.eqb step 0 then Raise (ValueError "range() arg 3 must not be zero")
  else if Z.ltb step 0 then Ok []
  else
    let b := Z.to_nat step in
    Ok (map (fun k => (k * b, Nat.min (k * b + b) stop)) (seq 0 ((stop + b - 1) / b))).

(** The block size of one spin of the streamed transform:
    [int((max_memory/8e-6) / max(n**3 + n*nj*na, n*m**2*nj'*na'))], then
    [min(n, max(BLKMIN, blksize))]. *)
Definition plan_blksize (agf2 : UAGF2 R) (n m nj na nj' na' : nat) : result Z :=
  let budget := rsub (max_memory agf2) lib_current_memory in
  let cost := Nat.max (n ^ 3 + n * nj * na) (n * m ^ 2 * nj' * na') in
  if cost =? 0 then Raise ZeroDivisionError
  else
    let blksize := rtrunc (rdiv (rdiv budget (rlit (8 # 1000000))) (rofZ (Z.of_nat cost))) in
    Ok (Z.min (Z.of_nat n) (Z.max BLKMIN blksize)).

Fixpoint h5_delete (f : h5file R) (key : string) : h5file R :=
  match f with
  | [] => []
  | (k, v) :: rest => if String.eqb k key then h5_delete rest key else (k, v) :: h5_delete rest key
  end.

(** One spin of the streamed transform: two zero datasets of the final
    shapes, filled block by block over the physical-orbital axis. *)
Definition stream_spin (agf2 : UAGF2 R) (eri_same eri_cross : ndarray R)
    (n m : nat) (ci cj ca cj' ca' : ndarray R) (ni nj na nj' na' : nat)
    : result (ndarray R * ndarray R) :=
  blksize <- plan_blksize agf2 n m nj na nj' na' ;;
  blocks <- prange n blksize ;;
  Ok (fold_left
        (fun (d : ndarray R * ndarray R) (p : nat * nat) =>
           let '(p0, p1) := p in
           (set_rows (fst d) p0 p1 (ao2mo_outcore_block eri_same p0 p1 cj ca ci),
            set_rows (snd d) p0 p1 (ao2mo_outcore_block eri_cross p0 p1 cj' ca' ci)))
        blocks
        (zeros [n; ni; nj; na], zeros [n; ni; nj'; na'])).

(** [spin is None or spin == k] on a value loaded from the module
    namespace. *)
Definition value_selects (v : Py.value) (k : Z) : bool :=
  match v with
  | VNone => true
  | VInt s => Z.eqb s k
  | VObject _ => false
  end.

(** The value as the [spin] of the final selection; an object that is not
    an integer equals neither 0 nor 1, like -1. *)
Definition value_spin (v : Py.value) : option Z :=
  match v with
  | VNone => None
  | VInt s => Some s
  | VObject _ => Some (-1)%Z
  end.

(** The function has no [spin] parameter and assigns neither [spin] nor
    [nmo]: both are read from the module namespace.  [npaira] and
    [npairb], computed from [nmo], are not used afterwards.  Returns the
    tensors and the integral container with its store updated. *)
Definition _make_qmo_eris_outcore (call : Py.call_shape) (agf2 : UAGF2 R)
    (eri : _ChemistsERIs R) (gf_occ gf_vir : GreensFunction R * GreensFunction R)
    : result (qmo_eris R * _ChemistsERIs R) :=
  _ <- Py.bind_arguments sig_make_qmo_eris_outcore call ;;
  let '(nmoa, nmob) := nmo agf2 in
  _ <- Py.load_global module_globals "nmo" ;;
  let cia := gf_coupling (fst gf_occ) in
  let cja := cia in
  let cib := gf_coupling (snd gf_occ) in
  let cjb := cib in
  let caa := gf_coupling (fst gf_vir) in
  let cab := gf_coupling (snd gf_vir) in
  let nia := gf_naux (fst gf_occ) in
  let nja := nia in
  let nib := gf_naux (snd gf_occ) in
  let njb := nib in
  let naa := gf_naux (fst gf_vir) in
  let nab := gf_naux (snd gf_vir) in
  let feri :=
    match eri_feri eri with
    | None => []
    | Some f => fold_left h5_delete ["qmo/aa"; "qmo/ab"; "qmo/ba"; "qmo/bb"]%string f
    end in
  spin <- Py.load_global module_globals "spin" ;;
  alpha <-
    (if value_selects spin 0 then
       d <- stream_spin agf2 (eri_aa eri) (eri_ab eri) nmoa nmob cia cja caa cjb cab
                        nia nja naa njb nab ;;
       Ok (Some (fst d), Some (snd d))
     else Ok (None, None)) ;;
  beta <-
    (if value_selects spin 1 then
       d <- stream_spin agf2 (eri_bb eri) (eri_ba eri) nmob nmoa cib cjb cab cja caa
                        nib njb nab nja naa ;;
       Ok (Some (fst d), Some (snd d))
     else Ok (None, None)) ;;
  let store (key : string) (d : option (ndarray R)) (f : h5file R) : h5file R :=
    match d with
    | Some a => (key, a) :: f
    | None => f
    end in
  let feri := store "qmo/bb"%string (fst beta)
                (store "qmo/ba"%string (snd beta)
                   (store "qmo/ab"%string (snd alpha)
                      (store "qmo/aa"%string (fst alpha) feri))) in
  qeri <- select_qeri (value_spin spin) (fst alpha) (snd alpha) (snd beta) (fst beta) ;;
  Ok (qeri,
      mkERIs (eri_fock eri) (eri_h1e eri) (eri_aa eri) (eri_ab eri) (eri_ba eri)
             (eri_bb eri) (Some feri)).

(** *** Self-energy build *)

(** [t[ab]] for [ab = slice(None)] (alpha) or [slice(None, None, -1)]
    (beta). *)
Definition by_spin {A : Type} (spin : Z) (t : A * A) : A * A :=
  if Z.eqb spin 0 then t else (snd t, fst t).

(** One pass of the loop [for i in range(noa)] of [_build_se_part_spin]. *)
Definition moments_step (nmoa : nat) (e_occ eja_a eja_b qeri_aa qeri_ab : ndarray R)
    (acc : ndarray R * ndarray R) (i : nat) : ndarray R * ndarray R :=
  let '(vv, vev) := acc in
  let xija_aa := reshape_rows (take_axis1 qeri_aa i) nmoa in
  let xija_ab := reshape_rows (take_axis1 qeri_ab i) nmoa in
  let xjia_aa := reshape_rows (take_axis2 qeri_aa i) nmoa in
  let eija_aa := add_scalar eja_a (get1 e_occ i) in
  let eija_ab := add_scalar eja_b (get1 e_occ i) in
  let vv := dot xija_aa (transpose xija_aa) rone rone vv in
  let vv := dot xija_aa (transpose xjia_aa) (ropp rone) rone vv in
  let vv := dot xija_ab (transpose xija_ab) rone rone vv in
  let exija_aa := mul_rowvec xija_aa eija_aa in
  let exija_ab := mul_rowvec xija_ab eija_ab in
  let vev := dot exija_aa (transpose xija_aa) rone rone vev in
  let vev := dot exija_aa (transpose xjia_aa) (ropp rone) rone vev in
  let vev := dot exija_ab (transpose xija_ab) rone rone vev in
  (vv, vev).

(** The two moments [(vv, vev)] after the whole loop, from zero. *)
Definition accumulate_moments (nmoa noa : nat)
    (e_occ eja_a eja_b qeri_aa qeri_ab : ndarray R) : ndarray R * ndarray R :=
  fold_left (moments_step nmoa e_occ eja_a eja_b qeri_aa qeri_ab) (seq 0 noa)
            (zeros [nmoa; nmoa], zeros [nmoa; nmoa]).

(** [(nmoa*noa*(noa*nva+nob*nvb)) * 8/1e6] *)
Definition mem_incore (nmoa noa nva nob nvb : nat) : R :=
  rdiv (rofZ (Z.of_nat (nmoa * noa * (noa * nva + nob * nvb)) * 8)) (rlit (1000000 # 1)).

(** [qeri_aa, qeri_ab = qeri], for the arrays indexed in the loop.  The
    transform is called with [spin] 0 or 1 and answers with one pair; the
    nested tuple of [spin = None] would bind tuples, which [x[:, i]]
    refuses. *)
Definition unpack_qeri (q : qmo_eris R) : result (ndarray R * ndarray R) :=
  match q with
  | QmoSpin same cross => Ok (same, cross)
  | QmoAll _ _ _ _ => Raise (TypeError (BadIndex "tuple indices must be integers or slices"))
  end.

(** Lines 82-92 and 103-120 of [_build_se_part_spin]: the two moment
    matrices of one spin from the quasi-particle tensors of that spin. *)
Definition spin_moments (agf2 : UAGF2 R)
    (gf_occ gf_vir : GreensFunction R * GreensFunction R) (spin : Z)
    (qeri_aa qeri_ab : ndarray R) : ndarray R * ndarray R :=
  let '(nmoa, nmob) := by_spin spin (nmo agf2) in
  let '(gfo_a, gfo_b) := by_spin spin gf_occ in
  let '(gfv_a, gfv_b) := by_spin spin gf_vir in
  let noa := gf_naux gfo_a in
  let eja_a := ravel (direct_sum (gf_energy gfo_a) (neg (gf_energy gfv_a))) in
  let eja_b := ravel (direct_sum (gf_energy gfo_b) (neg (gf_energy gfv_b))) in
  accumulate_moments nmoa noa (gf_energy gfo_a) eja_a eja_b qeri_aa qeri_ab.

(** Lines 94-96 of [_build_se_part_spin]: the test
    [mem_incore + mem_now < agf2.max_memory]. *)
Definition incore_fits (agf2 : UAGF2 R)
    (gf_occ gf_vir : GreensFunction R * GreensFunction R) (spin : Z) : bool :=
  let '(nmoa, nmob) := by_spin spin (nmo agf2) in
  let '(gfo_a, gfo_b) := by_spin spin gf_occ in
  let '(gfv_a, gfv_b) := by_spin spin gf_vir in
  let noa := gf_naux gfo_a in
  let nob := gf_naux gfo_b in
  let nva := gf_naux gfv_a in
  let nvb := gf_naux gfv_b in
  let mem_now := lib_current_memory in
  rltb (radd (mem_incore nmoa noa nva nob nvb) mem_now) (max_memory agf2).

Definition _build_se_part_spin (agf2 : UAGF2 R) (eri : _ChemistsERIs R)
    (gf_occ gf_vir : GreensFunction R * GreensFunction R) (spin : Z)
    : result (SelfEnergy R) :=
  let tol := weight_tol agf2 in
  let '(gfo_a, gfo_b) := by_spin spin gf_occ in
  let '(gfv_a, gfv_b) := by_spin spin gf_vir in
  qeri <-
    (if incore_fits agf2 gf_occ gf_vir spin
     then _make_qmo_eris_incore call_with_spin agf2 eri gf_occ gf_vir (Some spin)
     else
       r <- _make_qmo_eris_outcore call_with_spin agf2 eri gf_occ gf_vir ;;
       Ok (fst r)) ;;
  '(qeri_aa, qeri_ab) <- unpack_qeri qeri ;;
  let '(vv, vev) := spin_moments agf2 gf_occ gf_vir spin qeri_aa qeri_ab in
  let '(e, c) := ragf2_cholesky_build vv vev gfo_a gfv_a in
  let se := mkSE e c (gf_chempot gfo_a) in
  Ok (aux_remove_uncoupled se tol).

Definition build_se_part (agf2 : UAGF2 R) (eri : _ChemistsERIs R)
    (gf_occ gf_vir : GreensFunction R * GreensFunction R)
    : result (SelfEnergy R * SelfEnergy R) :=
  se_a <- _build_se_part_spin agf2 eri gf_occ gf_vir 0 ;;
  se_b <- _build_se_part_spin agf2 eri gf_occ gf_vir 1 ;;
  Ok (se_a, se_b).

(** [UAGF2.build_se(eri, gf)], both arguments given. *)
Definition build_se (agf2 : UAGF2 R) (eri : _ChemistsERIs R)
    (gf : GreensFunction R * GreensFunction R) : result (SelfEnergy R * SelfEnergy R) :=
  let gf_occ := (aux_get_occupied (fst gf), aux_get_occupied (snd gf)) in
  let gf_vir := (aux_get_virtual (fst gf), aux_get_virtual (snd gf)) in
  se_occ <- build_se_part agf2 eri gf_occ gf_vir ;;
  se_vir <- build_se_part agf2 eri gf_vir gf_occ ;;
  Ok (aux_combine (fst se_occ) (fst se_vir), aux_combine (snd se_occ) (snd se_vir)).

(** *** Fock matrix *)

(** [UAGF2.make_rdm1(gf)], [gf] given. *)
Definition make_rdm1 (gf : GreensFunction R * GreensFunction R) : ndarray R * ndarray R :=
  (aux_make_rdm1 (fst gf) 1, aux_make_rdm1 (snd gf) 1).

Definition get_fock (agf2 : UAGF2 R) (eri : _ChemistsERIs R)
    (gf : option (GreensFunction R * GreensFunction R))
    (rdm1 : option (ndarray R * ndarray R)) : result (ndarray R * ndarray R) :=
  let rdm1 :=
    match gf with
    | Some g => Some (make_rdm1 g)
    | None => rdm1
    end in
  match rdm1 with
  | None => Raise AssertionError
  | Some rdm1 =>
    let '(vj_aa, vk_aa) := ragf2_get_jk (eri_aa eri) (fst rdm1) true in
    let '(vj_bb, vk_bb) := ragf2_get_jk (eri_bb eri) (snd rdm1) true in
    let vj_ab := fst (ragf2_get_jk (eri_ab eri) (snd rdm1) false) in
    let vj_ba := fst (ragf2_get_jk (eri_ba eri) (fst rdm1) false) in
    let fock_a := sub (add (add (fst (eri_h1e eri)) vj_aa) vj_ab) vk_aa in
    let fock_b := sub (add (add (snd (eri_h1e eri)) vj_bb) vj_ba) vk_bb in
    Ok (fock_a, fock_b)
  end.

(** The method [UAGF2.get_fock(eri, gf, rdm1)], [eri] given. *)
Definition UAGF2_get_fock (agf2 : UAGF2 R) (eri : _ChemistsERIs R)
    (gf : option (GreensFunction R * GreensFunction R))
    (rdm1 : option (ndarray R * ndarray R)) : result (ndarray R * ndarray R) :=
  get_fock agf2 eri gf rdm1.

(** *** Fock loop *)

(** The local variables of [fock_loop] that outlive one statement.  The
    six error measures, the two previous density matrices and the inner
    loop counter have no value until a statement assigns them. *)
Record locals : Type := mkLocals {
  l_sea : SelfEnergy R;
  l_seb : SelfEnergy R;
  l_gf : GreensFunction R * GreensFunction R;
  l_focka : ndarray R;
  l_fockb : ndarray R;
  l_nerra : option R;
  l_nerrb : option R;
  l_nerr : option R;
  l_derra : option R;
  l_derrb : option R;
  l_derr : option R;
  l_rdm1a_prev : option (ndarray R);
  l_rdm1b_prev : option (ndarray R);
  l_niter2 : option Z;
  l_converged : bool
}.

(** The combined error measures are the maxima of the per-spin measures
    whenever they have a value. *)
Definition measures_agree (l : locals) : Prop :=
  (forall e, l_nerr l = Some e ->
     exists a b, l_nerra l = Some a /\ l_nerrb l = Some b /\ e = Py.max2 rltb a b)
  /\ (forall e, l_derr l = Some e ->
        exists a b, l_derra l = Some a /\ l_derrb l = Some b /\ e = Py.max2 rltb a b).

(** [diis.update(np.array((focka, fockb)), xerr=None)] on the solver's own
    extrapolation object. *)
Definition diis_step (focka fockb : ndarray R) : Py.M (DIIS R) (ndarray R * ndarray R) :=
  fun d =>
    let '(x, d') := diis_update d (stack2 focka fockb) in
    (Ok (row x 0, row x 1), d').

(** The body of [for niter2 in range(1, agf2.max_cycle_inner+1)]. *)
Definition inner_body (agf2 : UAGF2 R) (eri : _ChemistsERIs R) (niter2 : Z) (l : locals)
    : Py.M (DIIS R) (bool * locals) :=
  let '(nalph, nbeta) := nocc agf2 in
  let '(nmoa, nmob) := nmo agf2 in
  let '(wa, va) := aux_eig (l_sea l) (l_focka l) (Some (rlit 0)) in
  let '(wb, vb) := aux_eig (l_seb l) (l_fockb l) (Some (rlit 0)) in
  let '(mua, nerra) := chempot_binsearch (FockEig wa va) nmoa nalph 1 in
  let sea := se_with_chempot (l_sea l) mua in
  let '(mub, nerrb) := chempot_binsearch (FockEig wb vb) nmob nbeta 1 in
  let seb := se_with_chempot (l_seb l) mub in
  let nerr := Py.max2 rltb nerra nerrb in
  let '(wa, va) := aux_eig sea (l_focka l) None in
  let '(wb, vb) := aux_eig seb (l_fockb l) None in
  let gfa := mkGF wa (take_rows va nmoa) (se_chempot sea) in
  let gfb := mkGF wb (take_rows vb nmob) (se_chempot seb) in
  let gf := (gfa, gfb) in
  f <~ Py.lift (UAGF2_get_fock agf2 eri (Some gf) None) ;;
  let '(rdm1a, rdm1b) := make_rdm1 gf in
  f <~ diis_step (fst f) (snd f) ;;
  let '(focka, fockb) := f in
  let l1 := mkLocals sea seb gf focka fockb (Some nerra) (Some nerrb) (Some nerr)
                     (l_derra l) (l_derrb l) (l_derr l)
                     (l_rdm1a_prev l) (l_rdm1b_prev l) (Some niter2) (l_converged l) in
  let remember (l2 : locals) : locals :=
    mkLocals (l_sea l2) (l_seb l2) (l_gf l2) (l_focka l2) (l_fockb l2)
             (l_nerra l2) (l_nerrb l2) (l_nerr l2) (l_derra l2) (l_derrb l2) (l_derr l2)
             (Some rdm1a) (Some rdm1b) (l_niter2 l2) (l_converged l2) in
  if Z.ltb 1 niter2 then
    rdm1a_prev <~ Py.lift (load_fast "rdm1a_prev" (l_rdm1a_prev l1)) ;;
    derra <~ Py.lift (max_abs (sub rdm1a rdm1a_prev)) ;;
    rdm1b_prev <~ Py.lift (load_fast "rdm1b_prev" (l_rdm1b_prev l1)) ;;
    derrb <~ Py.lift (max_abs (sub rdm1b rdm1b_prev)) ;;
    let derr := Py.max2 rltb derra derrb in
    let l2 := mkLocals sea seb gf focka fockb (Some nerra) (Some nerrb) (Some nerr)
                       (Some derra) (Some derrb) (Some derr)
                       (l_rdm1a_prev l) (l_rdm1b_prev l) (Some niter2) (l_converged l) in
    if rltb derr (conv_tol_rdm1 agf2) then Py.ret (true, l2)
    else Py.ret (false, remember l2)
  else Py.ret (false, remember l1).

(** The body of [for niter1 in range(1, agf2.max_cycle_outer+1)].  The
    arguments of [log.debug1] are evaluated before the call, in order. *)
Definition outer_body (agf2 : UAGF2 R) (eri : _ChemistsERIs R) (niter1 : Z) (l : locals)
    : Py.M (DIIS R) (bool * locals) :=
  let '(nalph, nbeta) := nocc agf2 in
  let tol := conv_tol_nelec agf2 in
  let maxiter := max_cycle_inner agf2 in
  let sea := chempot_minimize (l_sea l) (l_focka l) nalph (se_chempot (l_sea l)) 1 tol maxiter in
  let seb := chempot_minimize (l_seb l) (l_fockb l) nbeta (se_chempot (l_seb l)) 1 tol maxiter in
  let l0 := mkLocals sea seb (l_gf l) (l_focka l) (l_fockb l)
                     (l_nerra l) (l_nerrb l) (l_nerr l) (l_derra l) (l_derrb l) (l_derr l)
                     (l_rdm1a_prev l) (l_rdm1b_prev l) (l_niter2 l) (l_converged l) in
  l1 <~ Py.for_each (Py.range1 (max_cycle_inner agf2)) (inner_body agf2 eri) l0 ;;
  _ <~ Py.lift (load_fast "niter2" (l_niter2 l1)) ;;
  nerr <~ Py.lift (load_fast "nerr" (l_nerr l1)) ;;
  derr <~ Py.lift (load_fast "derr" (l_derr l1)) ;;
  if rltb derr (conv_tol_rdm1 agf2) && rltb (rabs nerr) (conv_tol_nelec agf2) then
    Py.ret (true,
            mkLocals (l_sea l1) (l_seb l1) (l_gf l1) (l_focka l1) (l_fockb l1)
                     (l_nerra l1) (l_nerrb l1) (l_nerr l1) (l_derra l1) (l_derrb l1)
                     (l_derr l1) (l_rdm1a_prev l1) (l_rdm1b_prev l1) (l_niter2 l1) true)
  else Py.ret (false, l1).

(** The locals when the outer loop is entered: the arguments, the first
    Fock matrices, [converged = False], and nothing else assigned. *)
Definition locals_at_entry (gf : GreensFunction R * GreensFunction R)
    (se : SelfEnergy R * SelfEnergy R) (f : ndarray R * ndarray R) : locals :=
  let '(focka, fockb) := f in
  let '(sea, seb) := se in
  mkLocals sea seb gf focka fockb None None None None None None None None None false.

(** [fock_loop] from the first [get_fock] call to the end of the outer
    loop, run on the extrapolation object of this call. *)
Definition fock_loop_cycles (agf2 : UAGF2 R) (eri : _ChemistsERIs R)
    (gf : GreensFunction R * GreensFunction R) (se : SelfEnergy R * SelfEnergy R)
    (get_fock_arg : option (_ChemistsERIs R -> GreensFunction R * GreensFunction R ->
                            result (ndarray R * ndarray R)))
    : Py.M (DIIS R) locals :=
  let get_fock :=
    match get_fock_arg with
    | Some f => f
    | None => fun e g => UAGF2_get_fock agf2 e (Some g) None
    end in
  f <~ Py.lift (get_fock eri gf) ;;
  let l0 := locals_at_entry gf se f in
  Py.for_each (Py.range1 (max_cycle_outer agf2)) (outer_body agf2 eri) l0.

(** [fock_loop] up to its [return] statement: the cycles, then the
    arguments of the two final [log.info] calls; the locals at the
    [return]. *)
Definition fock_loop_locals (agf2 : UAGF2 R) (eri : _ChemistsERIs R)
    (gf : GreensFunction R * GreensFunction R) (se : SelfEnergy R * SelfEnergy R)
    (get_fock_arg : option (_ChemistsERIs R -> GreensFunction R * GreensFunction R ->
                            result (ndarray R * ndarray R)))
    : Py.M (DIIS R) locals :=
  l <~ fock_loop_cycles agf2 eri gf se get_fock_arg ;;
  _ <~ Py.lift (load_fast "nerra" (l_nerra l)) ;;
  _ <~ Py.lift (load_fast "derra" (l_derra l)) ;;
  _ <~ Py.lift (load_fast "nerrb" (l_nerrb l)) ;;
  _ <~ Py.lift (load_fast "derrb" (l_derrb l)) ;;
  Py.ret l.

(** The tuple [gf, se, converged] returned from the final locals. *)
Definition fock_loop_return (l : locals)
    : GreensFunction R * GreensFunction R * (SelfEnergy R * SelfEnergy R) * bool :=
  (l_gf l, (l_sea l, l_seb l), l_converged l).

(** The extrapolation objects alive in the process, oldest first. *)
Definition world : Type := list (DIIS R).

(** [lib.diis.DIIS(agf2)] followed by the two attribute assignments: a new
    object with no history. *)
Definition DIIS_new (agf2 : UAGF2 R) : DIIS R :=
  mkDIIS (diis_space agf2) (diis_min_space agf2) [].

(** [fock_loop(agf2, eri, gf, se, get_fock=...)] in a process whose
    extrapolation objects are [w]: the result of the call, and the objects
    after it. *)
Definition fock_loop (agf2 : UAGF2 R) (eri : _ChemistsERIs R)
    (gf : GreensFunction R * GreensFunction R) (se : SelfEnergy R * SelfEnergy R)
    (get_fock_arg : option (_ChemistsERIs R -> GreensFunction R * GreensFunction R ->
                            result (ndarray R * ndarray R)))
    (w : world)
    : result (GreensFunction R * GreensFunction R * (SelfEnergy R * SelfEnergy R) * bool)
      * world :=
  let '(r, d) := fock_loop_locals agf2 eri gf se get_fock_arg (DIIS_new agf2) in
  (l <- r ;; Ok (fock_loop_return l), w ++ [d]).

(** *** Energies *)

(** Modelled from the spec: [ragf2.energy_2body], which is not among the
    sources.  The spec describes it as the external same-spin moment
    contraction over a Green's function and a self-energy. *)
Definition ragf2_energy_2body (gf : GreensFunction R) (se : SelfEnergy R) : R :=
  gm_contraction gf se.

(** Modelled from the spec: [ragf2.energy_mp2], which is not among the
    sources.  The spec describes the seed energy as the identical
    contraction on the initial self-energy, worth half of the general
    two-body energy by the one-/two-body partition. *)
Definition ragf2_energy_mp2 (gf : GreensFunction R) (se : SelfEnergy R) : R :=
  rmul (gm_contraction gf se) (rlit (1 # 2)).

Definition energy_2body (agf2 : UAGF2 R) (gf : GreensFunction R * GreensFunction R)
    (se : SelfEnergy R * SelfEnergy R) : R :=
  let e2b_a := ragf2_energy_2body (fst gf) (fst se) in
  let e2b_b := ragf2_energy_2body (snd gf) (snd se) in
  rmul (radd e2b_a e2b_b) (rlit (1 # 2)).

Definition energy_mp2 (agf2 : UAGF2 R) (gf : GreensFunction R * GreensFunction R)
    (se : SelfEnergy R * SelfEnergy R) : R :=
  let emp2_a := ragf2_energy_mp2 (fst gf) (fst se) in
  let emp2_b := ragf2_energy_mp2 (snd gf) (snd se) in
  rmul (radd emp2_a emp2_b) (rlit (1 # 2)).

(** *** Initial auxiliaries *)

Definition _mo_energy_without_core (agf2 : UAGF2 R) (mo_energy : ndarray R * ndarray R)
    : ndarray R * ndarray R :=
  let '(maska, maskb) := ump2_get_frozen_mask agf2 in
  (select (fst mo_energy) maska, select (snd mo_energy) maskb).

(** [UAGF2.init_aux(eri, with_se)], [eri] given. *)
Definition init_aux (agf2 : UAGF2 R) (eri : _ChemistsERIs R) (with_se : bool)
    : result (GreensFunction R * GreensFunction R * option (SelfEnergy R * SelfEnergy R)) :=
  let '(focka, fockb) := eri_fock eri in
  let '(nmoa, nmob) := nmo agf2 in
  let '(nocca, noccb) := nocc agf2 in
  let mo_e := _mo_energy_without_core agf2 (mo_energy agf2) in
  let cpt_a := fst (chempot_binsearch (FockMatrix focka) nmoa nocca 1) in
  let cpt_b := snd (chempot_binsearch (FockMatrix fockb) nmob noccb 1) in
  let gf_a := mkGF (fst mo_e) (eye nmoa) cpt_a in
  let gf_b := mkGF (snd mo_e) (eye nmob) cpt_b in
  let gf := (gf_a, gf_b) in
  if with_se then
    se <- build_se agf2 eri gf ;;
    Ok (gf, Some se)
  else Ok (gf, None).

End Uagf2.

(** ** The moment formulas of the specification

    Written from the text of the specification, for comparison with
    [spin_moments]: sums over the hole index [i] and the pole pairs
    [(j, a)] of products of entries of the quasi-particle tensors. *)

Section MomentFormulas.

Context {R : Type} {SR : Scalar R}.

(** Sum over the pairs of an occupied pole [j < nj] and a virtual pole
    [a < na]. *)
Definition pole_sum (nj na : nat) (f : nat -> nat -> R) : R :=
  sum_n nj (fun j => sum_n na (fun a => f j a)).

(** The combined pole energy of the configuration [(i, j, a)]. *)
Definition pole_energy (e_i e_j e_a : R) : R := rsub (radd e_i e_j) e_a.

(** The contribution of the hole [i] to the zeroth moment: direct term,
    minus the exchange term with the two occupied axes of one factor
    swapped, plus the cross-spin direct term. *)
Definition hole_term_V (noa nva nob nvb : nat) (q_same q_cross : ndarray R) (x y i : nat)
    : R :=
  radd
    (rsub
       (pole_sum noa nva (fun j a => rmul (get4 q_same x i j a) (get4 q_same y i j a)))
       (pole_sum noa nva (fun j a => rmul (get4 q_same x i j a) (get4 q_same y j i a))))
    (pole_sum nob nvb (fun j a => rmul (get4 q_cross x i j a) (get4 q_cross y i j a))).

(** Zeroth moment: the sum over the same-spin holes. *)
Definition moment_V (noa nva nob nvb : nat) (q_same q_cross : ndarray R) (x y : nat) : R :=
  sum_n noa (hole_term_V noa nva nob nvb q_same q_cross x y).

(** The contribution of the hole [i] to the first moment: the same three
    terms, the block weighted by the combined pole energy before the
    product. *)
Definition hole_term_VE (noa nva nob nvb : nat) (e_oa e_va e_ob e_vb : ndarray R)
    (q_same q_cross : ndarray R) (x y i : nat) : R :=
  let w_same j a := pole_energy (get1 e_oa i) (get1 e_oa j) (get1 e_va a) in
  let w_cross j a := pole_energy (get1 e_oa i) (get1 e_ob j) (get1 e_vb a) in
  radd
    (rsub
       (pole_sum noa nva (fun j a =>
          rmul (rmul (get4 q_same x i j a) (w_same j a)) (get4 q_same y i j a)))
       (pole_sum noa nva (fun j a =>
          rmul (rmul (get4 q_same x i j a) (w_same j a)) (get4 q_same y j i a))))
    (pole_sum nob nvb (fun j a =>
       rmul (rmul (get4 q_cross x i j a) (w_cross j a)) (get4 q_cross y i j a))).

(** First moment: the sum over the same-spin holes. *)
Definition moment_VE (noa nva nob nvb : nat) (e_oa e_va e_ob e_vb : ndarray R)
    (q_same q_cross : ndarray R) (x y : nat) : R :=
  sum_n noa (hole_term_VE noa nva nob nvb e_oa e_va e_ob e_vb q_same q_cross x y).

End MomentFormulas.

(** ** Exact rational scalars *)

Definition Qc_ltb (a b : Qc) : bool :=
  match Qccompare a b with
  | Lt => true
  | _ => false
  end.

Definition Qc_eqb (a b : Qc) : bool :=
  match Qccompare a b with
  | Eq => true
  | _ => false
  end.

#[global] Instance Qc_scalar : Scalar Qc := {|
  rzero := Q2Qc 0;
  rone := Q2Qc 1;
  radd := Qcplus;
  rmul := Qcmult;
  rsub := Qcminus;
  ropp := Qcopp;
  rdiv := Qcdiv;
  rabs := Qcabs;
  rltb := Qc_ltb;
  rlit := Q2Qc;
  rofZ := fun z => Q2Qc (inject_Z z);
  rtrunc := fun x => Z.quot (Qnum (this x)) (Zpos (Qden (this x)))
|}.

#[global] Instance Qc_exact : ExactScalar Qc := {| scalar_ring := Qcrt |}.

(** ** A two-orbital system with vanishing two-electron integrals

    Concrete collaborators over the rationals, for running the functions
    above.  Each channel has two physical orbitals and one electron.  The
    two-electron integrals vanish, so Coulomb and exchange matrices are
    zero and the Fock matrix is the core Hamiltonian.  The alpha
    self-energy has one pole coupled to the first orbital; the beta
    self-energy has one uncoupled pole. *)

Module Toy.

(** An array from its entries, stored once. *)
Definition of_list (sh : list nat) (entries : list Q) : ndarray Qc :=
  let l := map Q2Qc entries in
  Np.mk sh (fun k => nth k l (Q2Qc 0)).

(** The entries of an array, in storage order. *)
Definition entries (a : ndarray Qc) : list Qc :=
  map (flat a) (seq 0 (size a)).

(** An array evaluated once and stored. *)
Definition stored (a : ndarray Qc) : ndarray Qc :=
  let l := entries a in
  Np.mk (shape a) (fun k => nth k l (Q2Qc 0)).

Fixpoint same_shape (s t : list nat) : bool :=
  match s, t with
  | [], [] => true
  | n :: s', m :: t' => (n =? m) && same_shape s' t'
  | _, _ => false
  end.

Definition same_array (a b : ndarray Qc) : bool :=
  same_shape (shape a) (shape b)
  && forallb (fun k => Qc_eqb (flat a k) (flat b k)) (seq 0 (size a)).

(** The alpha extended Hamiltonian of the run below and its
    eigen-decomposition: eigenvalues -1, 0, 1 with orthonormal
    eigenvectors (2,-2,1)/3, (1,2,2)/3, (2,1,-2)/3 as columns. *)
Definition H_alpha : ndarray Qc :=
  of_list [3; 3] [0; 2 # 3; -2 # 3;
                  2 # 3; -1 # 3; 0;
                  -2 # 3; 0; 1 # 3]%Q.

Definition w_alpha : ndarray Qc := of_list [3] [-1; 0; 1]%Q.

Definition v_alpha : ndarray Qc :=
  of_list [3; 3] [2 # 3; 1 # 3; 2 # 3;
                  -2 # 3; 2 # 3; 1 # 3;
                  1 # 3; 2 # 3; -2 # 3]%Q.

Definition is_diagonal (h : ndarray Qc) : bool :=
  let n := dim h 0 in
  forallb (fun k => (k / n =? k mod n) || Qc_eqb (flat h k) (Q2Qc 0)) (seq 0 (n * n)).

(** [np.linalg.eigh] on the matrices met here: a diagonal matrix with
    ascending diagonal is its own decomposition, and [H_alpha] is
    tabulated. *)
Definition eigh (h : ndarray Qc) : ndarray Qc * ndarray Qc :=
  if same_array h H_alpha then (w_alpha, v_alpha)
  else
    let n := dim h 0 in
    (stored (Np.mk [n] (fun k => get2 h k k)), eye n).

(** The extended Hamiltonian of a self-energy: the physical matrix, the
    couplings, and the pole energies less [chempot] on the diagonal. *)
Definition get_array (se : SelfEnergy Qc) (phys : ndarray Qc) (chempot : Qc) : ndarray Qc :=
  let n := dim phys 0 in
  let m := se_naux se in
  stored (Np.mk [n + m; n + m] (fun k =>
    let r := k / (n + m) in
    let c := k mod (n + m) in
    if (r <? n) && (c <? n) then get2 phys r c
    else if r <? n then get2 (se_coupling se) r (c - n)
    else if c <? n then get2 (se_coupling se) c (r - n)
    else if r =? c then Qcminus (get1 (se_energy se) (r - n)) chempot
    else Q2Qc 0)).

(** [se.eig]: the energies are shifted by the [chempot] argument, which
    defaults to zero. *)
Definition eig (se : SelfEnergy Qc) (phys : ndarray Qc) (chempot : option Qc)
    : ndarray Qc * ndarray Qc :=
  eigh (get_array se phys (match chempot with Some mu => mu | None => Q2Qc 0 end)).

(** The state of the search over eigenvectors: the electron counts before
    and after the current one, its index, and whether the target count
    has been bracketed. *)
Record search : Type := mkSearch {
  sum0 : Qc;
  sum1 : Qc;
  at_index : nat;
  bracketed : bool
}.

Definition Qc_of_nat (n : nat) : Qc := Q2Qc (inject_Z (Z.of_nat n)).

Definition search_step (v : ndarray Qc) (nphys nelec : nat) (occupancy : Z)
    (s : search) (i : nat) : search :=
  if bracketed s then s
  else
    let n := Qcmult (Q2Qc (inject_Z occupancy))
                    (sum_n nphys (fun p => Qcmult (get2 v p i) (get2 v p i))) in
    let s0 := sum1 s in
    let s1 := Qcplus (sum1 s) n in
    let target := Qc_of_nat nelec in
    mkSearch s0 s1 i
             ((0 <? i) && negb (Qc_ltb target s0) && negb (Qc_ltb s1 target)).

(** Modelled from the spec: the chemical-potential search of
    [chempot.py], which is not among the sources.  Eigenvectors are
    occupied in ascending order until the physical electron count
    brackets the target; the nearer count fixes the highest occupied
    state, the chemical potential is midway to the next eigenvalue, and
    the error is the occupied count minus the target. *)
Definition binsearch (f : fock_arg Qc) (nphys nelec : nat) (occupancy : Z) : Qc * Qc :=
  let '(w, v) :=
    match f with
    | FockMatrix m => eigh m
    | FockEig w v => (w, v)
    end in
  let s := fold_left (search_step v nphys nelec occupancy) (seq 0 (dim v 1))
                     (mkSearch (Q2Qc 0) (Q2Qc 0) 0 false) in
  let target := Qc_of_nat nelec in
  let below := Qcminus (sum0 s) target in
  let above := Qcminus (sum1 s) target in
  let '(homo, error) :=
    if Qc_ltb (Qcabs below) (Qcabs above) then (at_index s - 1, below)
    else (at_index s, above) in
  (Qcmult (Q2Qc (1 # 2)) (Qcplus (get1 w (S homo)) (get1 w homo)), error).

(** Columns [k] of the poles with [keep (energy k) = true]. *)
Definition poles (keep : Qc -> bool) (g : GreensFunction Qc) : GreensFunction Qc :=
  let n := gf_naux g in
  let idx := filter (fun k => keep (get1 (gf_energy g) k)) (seq 0 n) in
  let m := List.length idx in
  mkGF (stored (Np.mk [m] (fun k => get1 (gf_energy g) (nth k idx 0))))
       (stored (Np.mk [dim (gf_coupling g) 0; m]
                      (fun k => get2 (gf_coupling g) (k / m) (nth (k mod m) idx 0))))
       (gf_chempot g).

Definition get_occupied (g : GreensFunction Qc) : GreensFunction Qc :=
  poles (fun e => Qc_ltb e (gf_chempot g)) g.

Definition get_virtual (g : GreensFunction Qc) : GreensFunction Qc :=
  poles (fun e => negb (Qc_ltb e (gf_chempot g))) g.

(** [gf.make_rdm1]: the occupied couplings times their transpose. *)
Definition gf_make_rdm1 (g : GreensFunction Qc) (occupancy : Z) : ndarray Qc :=
  let o := get_occupied g in
  let c := gf_coupling o in
  let n := dim c 0 in
  stored (Np.mk [n; n] (fun k =>
    Qcmult (Q2Qc (inject_Z occupancy))
           (sum_n (gf_naux o) (fun l => Qcmult (get2 c (k / n) l) (get2 c (k mod n) l))))).

(** Join of two self-energies: the poles of the first, then of the
    second. *)
Definition combine (a b : SelfEnergy Qc) : SelfEnergy Qc :=
  let na := se_naux a in
  let nb := se_naux b in
  let n := dim (se_coupling a) 0 in
  mkSE (Np.mk [na + nb] (fun k =>
          if k <? na then get1 (se_energy a) k else get1 (se_energy b) (k - na)))
       (Np.mk [n; na + nb] (fun k =>
          let r := k / (na + nb) in
          let c := k mod (na + nb) in
          if c <? na then get2 (se_coupling a) r c else get2 (se_coupling b) r (c - na)))
       (se_chempot a).

(** The Galitskii-Migdal sum over occupied Green's-function poles [l] and
    virtual self-energy poles [k]: twice the squared overlap of their
    couplings over the energy difference. *)
Definition galitskii_migdal (g : GreensFunction Qc) (s : SelfEnergy Qc) : Qc :=
  let o := get_occupied g in
  let nphys := dim (gf_coupling o) 0 in
  Qcmult (Q2Qc 2)
    (sum_n (gf_naux o) (fun l =>
       sum_n (se_naux s) (fun k =>
         if Qc_ltb (get1 (se_energy s) k) (se_chempot s) then Q2Qc 0
         else
           let overlap :=
             sum_n nphys (fun x => Qcmult (get2 (se_coupling s) x k) (get2 (gf_coupling o) x l)) in
           Qcdiv (Qcmult overlap overlap)
                 (Qcminus (get1 (gf_energy o) l) (get1 (se_energy s) k))))).

#[global] Instance collaborators : Collaborators Qc := {|
  config_blkmin := None;
  lib_current_memory := Q2Qc 100;
  ao2mo_incore_general := fun _ c =>
    let '(c0, c1, c2, c3) := c in
    zeros [dim c0 1 * dim c1 1; dim c2 1 * dim c3 1];
  ao2mo_outcore_block := fun _ p0 p1 cj ca ci =>
    zeros [p1 - p0; dim ci 1; dim cj 1; dim ca 1];
  ragf2_cholesky_build := fun vv _ _ _ => (zeros [0], zeros [dim vv 0; 0]);
  aux_remove_uncoupled := fun se _ => se;
  ragf2_get_jk := fun _ rdm1 _ => (zeros (shape rdm1), zeros (shape rdm1));
  aux_make_rdm1 := gf_make_rdm1;
  chempot_minimize := fun se _ _ _ _ _ _ => se;
  chempot_binsearch := binsearch;
  aux_eig := eig;
  diis_update := fun d x => (x, mkDIIS (space d) (min_space d) (x :: history d));
  aux_get_occupied := get_occupied;
  aux_get_virtual := get_virtual;
  aux_combine := combine;
  ump2_get_frozen_mask := fun agf2 => (repeat true (fst (nmo agf2)), repeat true (snd (nmo agf2)));
  gm_contraction := galitskii_migdal
|}.

(** Core Hamiltonians: the physical block of [H_alpha], and a diagonal
    beta matrix. *)
Definition h1e_a : ndarray Qc := of_list [2; 2] [0; 2 # 3; 2 # 3; -1 # 3]%Q.

Definition h1e_b : ndarray Qc := of_list [2; 2] [-1; 0; 0; 1 # 2]%Q.

Definition no_integrals : ndarray Qc := zeros [3; 3].

Definition eri : _ChemistsERIs Qc :=
  mkERIs (h1e_a, h1e_b) (h1e_a, h1e_b) no_integrals no_integrals no_integrals no_integrals None.

Definition se_a : SelfEnergy Qc :=
  mkSE (of_list [1] [1 # 3]%Q) (of_list [2; 1] [-2 # 3; 0]%Q) (Q2Qc 0).

Definition se_b : SelfEnergy Qc :=
  mkSE (of_list [1] [1]%Q) (of_list [2; 1] [0; 0]%Q) (Q2Qc 0).

Definition gf_a : GreensFunction Qc :=
  mkGF (of_list [2] [-1 # 3; 0]%Q) (eye 2) (Q2Qc (-1 # 6)).

Definition gf_b : GreensFunction Qc :=
  mkGF (of_list [2] [-1; 1 # 2]%Q) (eye 2) (Q2Qc (-1 # 4)).

(** A solver configuration: 1000 MB of memory, tolerances 1e-6, and the
    given iteration limits. *)
Definition agf2 (outer inner : Z) : UAGF2 Qc :=
  mkUAGF2 (2, 2) (1, 1) (of_list [2] [-1 # 3; 0]%Q, of_list [2] [-1; 1 # 2]%Q)
          (Q2Qc 1000) (Q2Qc (1 # 100000000000))
          (Q2Qc (1 # 1000000)) (Q2Qc (1 # 1000000)) outer inner 6 1.

(** The same system with both channels equal to the beta channel. *)
Definition eri_symmetric : _ChemistsERIs Qc :=
  mkERIs (h1e_b, h1e_b) (h1e_b, h1e_b) no_integrals no_integrals no_integrals no_integrals None.

(** The first system with no memory left: 50 MB allowed, 100 MB in use. *)
Definition agf2_no_memory : UAGF2 Qc :=
  mkUAGF2 (2, 2) (1, 1) (of_list [2] [-1 # 3; 0]%Q, of_list [2] [-1; 1 # 2]%Q)
          (Q2Qc 50) (Q2Qc (1 # 100000000000))
          (Q2Qc (1 # 1000000)) (Q2Qc (1 # 1000000)) 20 50 6 1.

Definition agf2_symmetric : UAGF2 Qc :=
  mkUAGF2 (2, 2) (1, 1) (of_list [2] [-1; 1 # 2]%Q, of_list [2] [-1; 1 # 2]%Q)
          (Q2Qc 1000) (Q2Qc (1 # 100000000000))
          (Q2Qc (1 # 1000000)) (Q2Qc (1 # 1000000)) 20 50 6 1.

(** Auxiliaries and quasi-particle tensors for one pass through the
    moment loop: two occupied and two virtual alpha poles, one occupied
    and two virtual beta poles; tensor entries 1, 2, 3, ... in storage
    order. *)
Definition occ_a : GreensFunction Qc :=
  mkGF (of_list [2] [-2; -1]%Q) (of_list [2; 2] [1; 0; 0; 1]%Q) (Q2Qc 0).

Definition vir_a : GreensFunction Qc :=
  mkGF (of_list [2] [1; 3]%Q) (of_list [2; 2] [1; 0; 0; 1]%Q) (Q2Qc 0).

Definition occ_b : GreensFunction Qc :=
  mkGF (of_list [1] [-3 # 2]%Q) (of_list [2; 1] [1; 0]%Q) (Q2Qc 0).

Definition vir_b : GreensFunction Qc :=
  mkGF (of_list [2] [1 # 2; 2]%Q) (of_list [2; 2] [1; 0; 0; 1]%Q) (Q2Qc 0).

Definition counting (sh : list nat) : ndarray Qc :=
  Np.mk sh (fun k => Q2Qc (inject_Z (Z.of_nat (S k)))).

Definition q_same : ndarray Qc := counting [2; 2; 2; 2].

Definition q_cross : ndarray Qc := counting [2; 2; 1; 2].

End Toy.

(** ** More of the module

    Definitions for the parts of [uagf2] beyond the self-energy build and
    the Fock loop, and for the statements about them. *)

Section LoopStates.

Context {R : Type} {SR : Scalar R} {X : Collaborators R}.

(** The Fock matrices computed at the entry of [fock_loop], by the
    [get_fock] argument or by the method of the object. *)
Definition entry_fock (agf2 : UAGF2 R)
    (get_fock_arg : option (_ChemistsERIs R -> GreensFunction R * GreensFunction R ->
                            result (ndarray R * ndarray R)))
    (eri : _ChemistsERIs R) (gf : GreensFunction R * GreensFunction R)
    : result (ndarray R * ndarray R) :=
  match get_fock_arg with
  | Some f => f eri gf
  | None => UAGF2_get_fock agf2 eri (Some gf) None
  end.

(** Both previous density matrices are assigned. *)
Definition previous_assigned (l : @locals R) : Prop :=
  l_rdm1a_prev l <> None /\ l_rdm1b_prev l <> None.

(** Everything [log.debug1] reads after the inner loop is assigned, and
    so are the previous density matrices. *)
Definition pass_complete (l : @locals R) : Prop :=
  previous_assigned l /\ l_nerr l <> None /\ l_niter2 l <> None /\ l_derr l <> None.

(** The Green's function and the self-energy of each spin carry the same
    chemical potential. *)
Definition chempots_agree (l : @locals R) : Prop :=
  gf_chempot (fst (l_gf l)) = se_chempot (l_sea l)
  /\ gf_chempot (snd (l_gf l)) = se_chempot (l_seb l).

(** The only exception [np.max] raises. *)
Definition is_value_error (e : Py.exn) : Prop := exists msg, e = ValueError msg.

End LoopStates.

(** *** Spin exchange *)

Definition swap {A : Type} (p : A * A) : A * A := (snd p, fst p).

(** The integral container with the labels alpha and beta exchanged. *)
Definition exchange_spins_eri {R : Type} (e : _ChemistsERIs R) : _ChemistsERIs R :=
  mkERIs (swap (eri_fock e)) (swap (eri_h1e e)) (eri_bb e) (eri_ba e) (eri_ab e) (eri_aa e)
         (eri_feri e).

(** The solver object with the labels alpha and beta exchanged. *)
Definition exchange_spins_agf2 {R : Type} (a : UAGF2 R) : UAGF2 R :=
  mkUAGF2 (swap (nmo a)) (swap (nocc a)) (swap (mo_energy a)) (max_memory a) (weight_tol a)
          (conv_tol_rdm1 a) (conv_tol_nelec a) (max_cycle_outer a) (max_cycle_inner a)
          (diis_space a) (diis_min_space a).

Definition map_result {A B : Type} (f : A -> B) (c : result A) : result B :=
  match c with
  | Ok a => Ok (f a)
  | Raise e => Raise e
  end.

(** *** Further exceptions *)

(** Exceptions met outside the self-energy build and the Fock loop, next
    to those of [Py.exn]. *)
Module PyMore.

Inductive exn : Type :=
| Base (e : Py.exn)
| AttributeError (obj attr : string)
| IndexError (msg : string).

Inductive outcome (A : Type) : Type :=
| Return (a : A)
| Throw (e : exn).

Arguments Return {A} a.
Arguments Throw {A} e.

Definition and_then {A B : Type} (c : outcome A) (k : A -> outcome B) : outcome B :=
  match c with
  | Return a => k a
  | Throw e => Throw e
  end.

Definition of_result {A : Type} (c : Py.result A) : outcome A :=
  match c with
  | Ok a => Return a
  | Raise e => Throw (Base e)
  end.

Definition returned {A : Type} (c : outcome A) : bool :=
  match c with
  | Return _ => true
  | Throw _ => false
  end.

(** Builtin [min(a, b)] of two arguments: the first argument is kept
    unless the second is smaller. *)
Definition min2 {A : Type} (lt : A -> A -> bool) (a b : A) : A :=
  if lt b a then b else a.

(** A slice bound [i] on an axis of length [n]: a negative bound counts
    from the end, and every bound is clipped to the axis. *)
Definition slice_bound (n : nat) (i : Z) : nat :=
  if Z.ltb i 0 then Z.to_nat (Z.max 0 (i + Z.of_nat n))
  else Z.to_nat (Z.min i (Z.of_nat n)).

End PyMore.

Import PyMore.

Notation "x <-- c ;; k" := (PyMore.and_then c (fun x => k))
  (at level 61, c at next level, right associativity) : py_scope.
Notation "' pat <-- c ;; k" := (PyMore.and_then c (fun x => match x with pat => k end))
  (at level 61, pat pattern, c at next level, right associativity) : py_scope.

(** The attributes of the module [numpy] among the names that [uagf2]
    reads from it. *)
Definition numpy_attributes : list string :=
  ["zeros"; "array"; "max"; "absolute"; "sum"; "eye"; "dot"; "transpose"; "asarray";
   "concatenate"]%string.

(** [np.<name>]: the attribute lookup on the module. *)
Definition np_attribute (name : string) : outcome unit :=
  if Py.mem name numpy_attributes then Return tt
  else Throw (AttributeError "numpy" name).

(** *** Further array operations *)

Section MoreArrays.

Context {R : Type} {SR : Scalar R}.

(** [np.sum(a)] *)
Definition np_sum (a : ndarray R) : R := sum_n (size a) (flat a).

(** [a * b], elementwise. *)
Definition mul (a b : ndarray R) : ndarray R := map2 rmul a b.

(** [np.dot(a, b)] of two matrices. *)
Definition np_dot (a b : ndarray R) : result (ndarray R) :=
  if dim a 1 =? dim b 0 then
    let n := dim b 1 in
    Ok (Np.mk [dim a 0; n]
          (fun k => sum_n (dim a 1) (fun l => rmul (get2 a (k / n) l) (get2 b l (k mod n)))))
  else Raise (ValueError "shapes not aligned").

(** [a.diagonal()] of a matrix. *)
Definition diagonal (a : ndarray R) : ndarray R :=
  Np.mk [Nat.min (dim a 0) (dim a 1)] (fun k => get2 a k k).

(** [a[:, mask]] of a matrix under a boolean mask, which NumPy requires
    to have the length of the axis. *)
Definition select_columns (a : ndarray R) (mask : list bool) : outcome (ndarray R) :=
  if List.length mask =? dim a 1 then
    let idx := mask_indices mask 0 in
    let m := List.length idx in
    Return (Np.mk [dim a 0; m] (fun k => get2 a (k / m) (nth (k mod m) idx 0)))
  else Throw (IndexError "boolean index did not match indexed array").

(** [a.min()]; NumPy refuses an empty array. *)
Definition min_all (a : ndarray R) : result R :=
  match size a with
  | O => Raise (ValueError "zero-size array to reduction operation minimum")
  | S n => Ok (fold_left (fun m k => PyMore.min2 rltb m (flat a k)) (seq 1 n) (flat a 0))
  end.

(** [abs(e[:nocc, None] - e[None, nocc:])] of a vector [e]: the table of
    the distances between the first [nocc] entries and the others. *)
Definition gap_table (e : ndarray R) (nocc : nat) : ndarray R :=
  let no := Nat.min nocc (dim e 0) in
  let nv := dim e 0 - no in
  Np.mk [no; nv] (fun k => rabs (rsub (flat e (k / nv)) (flat e (no + k mod nv)))).

(** [a[p0:p1]] of a vector, the bounds already clipped. *)
Definition slice1 (a : ndarray R) (p0 p1 : nat) : ndarray R :=
  Np.mk [p1 - p0] (fun k => flat a (p0 + k)).

(** [a[:, c0:c1]] of a matrix, the bounds already clipped. *)
Definition slice_columns (a : ndarray R) (c0 c1 : nat) : ndarray R :=
  let w := c1 - c0 in
  Np.mk [dim a 0; w] (fun k => get2 a (k / w) (c0 + k mod w)).

(** [list(a)]: the entries of a vector, the rows of a matrix. *)
Definition entries_list (a : ndarray R) : list R := map (flat a) (seq 0 (dim a 0)).

Definition rows_list (a : ndarray R) : list (ndarray R) := map (row a) (seq 0 (dim a 0)).

Fixpoint shape_eqb (s t : list nat) : bool :=
  match s, t with
  | [], [] => true
  | n :: s', m :: t' => (n =? m) && shape_eqb s' t'
  | _, _ => false
  end.

End MoreArrays.

(** *** Further collaborators *)

(** The mean-field object [agf2._scf]: the attributes and methods that
    the integral transformation reads.  The density and Fock matrices of
    an unrestricted mean field are arrays with the spin as leading axis. *)
Record SCF (R : Type) : Type := mkSCF {
  (** [_scf._eri] *)
  scf_eri : option (ndarray R);
  (** [_scf.e_tot] *)
  scf_e_tot : R;
  (** [_scf.make_rdm1(mo_coeff, mo_occ)] *)
  scf_make_rdm1 : ndarray R * ndarray R -> ndarray R * ndarray R -> ndarray R;
  (** [_scf.get_hcore()] *)
  scf_get_hcore : ndarray R;
  (** [_scf.get_veff(mol, dm)] *)
  scf_get_veff : ndarray R -> ndarray R;
  (** [_scf.get_fock(vhf=, dm=)] *)
  scf_get_fock : ndarray R -> ndarray R -> ndarray R
}.

Arguments mkSCF {R} _ _ _ _ _ _.
Arguments scf_eri {R} _.
Arguments scf_e_tot {R} _.
Arguments scf_make_rdm1 {R} _ _ _.
Arguments scf_get_hcore {R} _.
Arguments scf_get_veff {R} _ _.
Arguments scf_get_fock {R} _ _ _.

(** The attributes of a [UAGF2] object read by the integral
    transformation only. *)
Record UAGF2_orbitals (R : Type) : Type := mkOrbitals {
  agf2_scf : SCF R;
  agf2_mo_coeff : ndarray R * ndarray R;
  agf2_mo_occ : ndarray R * ndarray R
}.

Arguments mkOrbitals {R} _ _ _.
Arguments agf2_scf {R} _.
Arguments agf2_mo_coeff {R} _.
Arguments agf2_mo_occ {R} _.

(** Functions of other modules met outside the self-energy build and the
    Fock loop.  The integral transformations of [ao2mo] may raise. *)
Class MoreCollaborators (R : Type) : Type := {
  (** [agf2.energy_nuc()] *)
  ragf2_energy_nuc : R;
  (** [aux.combine(a, b)] of two Green's functions *)
  aux_combine_gf : GreensFunction R -> GreensFunction R -> GreensFunction R;
  (** [se.get_greens_function(fock)] *)
  aux_get_greens_function : SelfEnergy R -> ndarray R -> GreensFunction R;
  (** [ao2mo.incore.full(eri, mo)] *)
  ao2mo_incore_full : option (ndarray R) -> ndarray R -> outcome (ndarray R);
  (** [ao2mo.addons.restore('s4', eri, nmo)] *)
  ao2mo_restore_s4 : ndarray R -> nat -> outcome (ndarray R);
  (** [ao2mo.incore.general(eri, (c0, c1, c2, c3))] *)
  ao2mo_incore_general_pairs :
    option (ndarray R) -> ndarray R * ndarray R * ndarray R * ndarray R -> outcome (ndarray R);
  (** [ao2mo.outcore.full(mol, mo, feri, dataname=)], as the dataset
      written *)
  ao2mo_outcore_full : ndarray R -> outcome (ndarray R);
  (** [ao2mo.outcore.general(mol, (c0, c1, c2, c3), feri, dataname=)] *)
  ao2mo_outcore_general :
    ndarray R * ndarray R * ndarray R * ndarray R -> outcome (ndarray R)
}.

Section Energies.

Context {R : Type} {SR : Scalar R} {X : Collaborators R} {Y : MoreCollaborators R}.

Definition energy_1body (agf2 : UAGF2 R) (eri : _ChemistsERIs R)
    (gf : GreensFunction R * GreensFunction R) : result R :=
  let rdm1 := make_rdm1 gf in
  fock <- UAGF2_get_fock agf2 eri (Some gf) None ;;
  let e1b_a :=
    rmul (rlit (1 # 2)) (np_sum (mul (fst rdm1) (add (fst (eri_h1e eri)) (fst fock)))) in
  let e1b_b :=
    rmul (rlit (1 # 2)) (np_sum (mul (snd rdm1) (add (snd (eri_h1e eri)) (snd fock)))) in
  let e1b := radd e1b_a e1b_b in
  Ok (radd e1b ragf2_energy_nuc).

End Energies.

(** *** Green's functions and excitations *)

Section Excitations.

Context {R : Type} {SR : Scalar R} {X : Collaborators R} {Y : MoreCollaborators R}.


(** [UAGF2.get_ip(gf, nroots)] *)
Definition get_ip (agf2 : UAGF2 R) (gf : GreensFunction R * GreensFunction R) (nroots : Z)
    : list R * list (ndarray R) :=
  let gf_occ := aux_combine_gf (aux_get_occupied (fst gf)) (aux_get_occupied (snd gf)) in
  let energy := gf_energy gf_occ in
  let coupling := gf_coupling gf_occ in
  let e_ip :=
    rev (entries_list (neg (slice1 energy (slice_bound (dim energy 0) (- nroots))
                                   (dim energy 0)))) in
  let v_ip :=
    rev (rows_list (slice_columns coupling (slice_bound (dim coupling 1) (- nroots))
                                  (dim coupling 1))) in
  (e_ip, v_ip).

(** [UAGF2.get_ea(gf, nroots)] *)
Definition get_ea (agf2 : UAGF2 R) (gf : GreensFunction R * GreensFunction R) (nroots : Z)
    : list R * list (ndarray R) :=
  let gf_vir := aux_combine_gf (aux_get_virtual (fst gf)) (aux_get_virtual (snd gf)) in
  let energy := gf_energy gf_vir in
  let coupling := gf_coupling gf_vir in
  let e_ea := entries_list (slice1 energy 0 (slice_bound (dim energy 0) nroots)) in
  let v_ea :=
    rows_list (transpose (slice_columns coupling 0 (slice_bound (dim coupling 1) nroots))) in
  (e_ea, v_ea).

End Excitations.

(** *** Molecular-orbital integrals *)

Section MoIntegrals.

Context {R : Type} {SR : Scalar R} {X : Collaborators R} {Y : MoreCollaborators R}.

Definition _mo_without_core (agf2 : UAGF2 R) (mo_coeff : ndarray R * ndarray R)
    : outcome (ndarray R * ndarray R) :=
  let '(maska, maskb) := ump2_get_frozen_mask agf2 in
  mo_a <-- select_columns (fst mo_coeff) maska ;;
  mo_b <-- select_columns (snd mo_coeff) maskb ;;
  Return (mo_a, mo_b).

(** What [_common_init_] stores on the integral container. *)
Record common_eris : Type := mkCommon {
  ce_mo_coeff : ndarray R * ndarray R;
  ce_h1e : ndarray R * ndarray R;
  ce_fock : ndarray R * ndarray R;
  ce_e_hf : R;
  ce_nocc : nat * nat
}.

(** [np.dot(np.dot(c.conj().T, m), c)]; the orbitals are real, so that
    [conj] changes nothing. *)
Definition to_mo_basis (c m : ndarray R) : result (ndarray R) :=
  t <- np_dot (transpose c) m ;;
  np_dot t c.

(** [_ChemistsERIs._common_init_(agf2, mo_coeff)] on a new container.
    Returns what it stores and the gaps passed to [logger.warn]. *)
Definition _common_init_ (agf2 : UAGF2 R) (orbitals : UAGF2_orbitals R)
    (mo_coeff : option (ndarray R * ndarray R)) : outcome (common_eris * list R) :=
  let mo_coeff :=
    match mo_coeff with
    | None => agf2_mo_coeff orbitals
    | Some c => c
    end in
  mo_coeff <-- _mo_without_core agf2 mo_coeff ;;
  let scf := agf2_scf orbitals in
  let dm := scf_make_rdm1 scf (agf2_mo_coeff orbitals) (agf2_mo_occ orbitals) in
  let h1e_ao := scf_get_hcore scf in
  let vhf := scf_get_veff scf dm in
  let fock_ao := scf_get_fock scf vhf dm in
  h1e_a <-- of_result (to_mo_basis (fst mo_coeff) h1e_ao) ;;
  h1e_b <-- of_result (to_mo_basis (snd mo_coeff) h1e_ao) ;;
  fock_a <-- of_result (to_mo_basis (fst mo_coeff) (row fock_ao 0)) ;;
  fock_b <-- of_result (to_mo_basis (snd mo_coeff) (row fock_ao 1)) ;;
  let e_hf := scf_e_tot scf in
  let '(nocca, noccb) := nocc agf2 in
  let mo_e := (diagonal fock_a, diagonal fock_b) in
  gap_a <-- of_result (min_all (gap_table (fst mo_e) nocca)) ;;
  gap_b <-- of_result (min_all (gap_table (snd mo_e) noccb)) ;;
  let gap := PyMore.min2 rltb gap_a gap_b in
  let warnings := if rltb gap (rlit (1 # 100000)) then [gap] else [] in
  Return (mkCommon mo_coeff (h1e_a, h1e_b) (fock_a, fock_b) e_hf (nocc agf2), warnings).

(** [_make_mo_eris_incore(agf2, mo_coeff)]: the container and the
    warnings logged. *)
Definition _make_mo_eris_incore (agf2 : UAGF2 R) (orbitals : UAGF2_orbitals R)
    (mo_coeff : option (ndarray R * ndarray R)) : outcome (_ChemistsERIs R * list R) :=
  '(eris, warnings) <-- _common_init_ agf2 orbitals mo_coeff ;;
  let '(moa, mob) := ce_mo_coeff eris in
  let nmoa := dim moa 1 in
  let nmob := dim mob 1 in
  let _eri := scf_eri (agf2_scf orbitals) in
  eri_aa <-- ao2mo_incore_full _eri moa ;;
  eri_bb <-- ao2mo_incore_full _eri mob ;;
  eri_aa <-- ao2mo_restore_s4 eri_aa nmoa ;;
  eri_bb <-- ao2mo_restore_s4 eri_bb nmob ;;
  eri_ab <-- ao2mo_incore_general_pairs _eri (moa, moa, mob, mob) ;;
  if shape_eqb (shape eri_ab) [nmoa * (nmob + 1) / 2; nmob * (nmob + 1) / 2] then
    let eri_ba := transpose eri_ab in
    Return (mkERIs (ce_fock eris) (ce_h1e eris) eri_aa eri_ab eri_ba eri_bb None, warnings)
  else Throw (Base AssertionError).

(** [_make_mo_eris_outcore(agf2, mo_coeff)].  The four datasets are
    read back from the store into attributes of the container;
    [eri_aa], [eri_ab], [eri_ba] and [eri_bb] are never local names, so
    that the tuple of line 727 reads them from the module namespace. *)
Definition _make_mo_eris_outcore (agf2 : UAGF2 R) (orbitals : UAGF2_orbitals R)
    (mo_coeff : option (ndarray R * ndarray R)) : outcome (_ChemistsERIs R * list R) :=
  '(eris, warnings) <-- _common_init_ agf2 orbitals mo_coeff ;;
  _ <-- np_attribute "asarary" ;;
  let moa := fst (ce_mo_coeff eris) in
  _ <-- np_attribute "asarray" ;;
  let mob := snd (ce_mo_coeff eris) in
  let feri : h5file R := [] in
  aa <-- ao2mo_outcore_full moa ;;
  let feri := ("mo/aa"%string, aa) :: feri in
  bb <-- ao2mo_outcore_full mob ;;
  let feri := ("mo/bb"%string, bb) :: feri in
  ab <-- ao2mo_outcore_general (moa, moa, mob, mob) ;;
  let feri := ("mo/ab"%string, ab) :: feri in
  ba <-- ao2mo_outcore_general (mob, mob, moa, moa) ;;
  let feri := ("mo/ba"%string, ba) :: feri in
  let eri_aa := aa in
  let eri_ab := ab in
  let eri_ba := ba in
  let eri_bb := bb in
  _ <-- of_result (Py.load_global module_globals "eri_aa") ;;
  _ <-- of_result (Py.load_global module_globals "eri_ab") ;;
  _ <-- of_result (Py.load_global module_globals "eri_ba") ;;
  _ <-- of_result (Py.load_global module_globals "eri_bb") ;;
  Return (mkERIs (ce_fock eris) (ce_h1e eris) eri_aa eri_ab eri_ba eri_bb (Some feri),
          warnings).

(** [max(self.nmo)] *)
Definition max_nmo (agf2 : UAGF2 R) : nat :=
  Py.max2 Nat.ltb (fst (nmo agf2)) (snd (nmo agf2)).

(** The test of [UAGF2.ao2mo]:
    [_scf._eri is not None and mem_incore + mem_now < max_memory]. *)
Definition ao2mo_incore_chosen (agf2 : UAGF2 R) (orbitals : UAGF2_orbitals R) : bool :=
  let nmo := max_nmo agf2 in
  let mem_incore :=
    rdiv (rofZ (Z.of_nat ((nmo * (nmo + 1) / 2) ^ 2) * 8)) (rlit (1000000 # 1)) in
  let mem_now := lib_current_memory in
  match scf_eri (agf2_scf orbitals) with
  | Some _ => rltb (radd mem_incore mem_now) (max_memory agf2)
  | None => false
  end.

(** [UAGF2.ao2mo()]; the parameter [mo_coeff] is not passed on. *)
Definition ao2mo (agf2 : UAGF2 R) (orbitals : UAGF2_orbitals R)
    (mo_coeff : option (ndarray R * ndarray R)) : outcome (_ChemistsERIs R * list R) :=
  if ao2mo_incore_chosen agf2 orbitals then _make_mo_eris_incore agf2 orbitals None
  else _make_mo_eris_outcore agf2 orbitals None.

End MoIntegrals.

(** *** A mean field for the toy system *)

Module ToyOrbitals.

Definition npair (n : nat) : nat := n * (n + 1) / 2.

(** Join of two Green's functions: the poles of the first, then of the
    second. *)
Definition combine_gf (a b : GreensFunction Qc) : GreensFunction Qc :=
  let na := dim (gf_energy a) 0 in
  let nb := dim (gf_energy b) 0 in
  let n := dim (gf_coupling a) 0 in
  mkGF (Toy.stored (Np.mk [na + nb] (fun k =>
          if k <? na then get1 (gf_energy a) k else get1 (gf_energy b) (k - na))))
       (Toy.stored (Np.mk [n; na + nb] (fun k =>
          let r := k / (na + nb) in
          let c := k mod (na + nb) in
          if c <? na then get2 (gf_coupling a) r c else get2 (gf_coupling b) r (c - na))))
       (gf_chempot a).

(** The Green's function of a self-energy: the eigenpairs of its extended
    Hamiltonian, the couplings being the physical rows of the
    eigenvectors. *)
Definition get_greens_function (se : SelfEnergy Qc) (fock : ndarray Qc) : GreensFunction Qc :=
  let '(w, v) := Toy.eig se fock None in
  mkGF w (take_rows v (dim fock 0)) (se_chempot se).

#[global] Instance more_collaborators : MoreCollaborators Qc := {|
  ragf2_energy_nuc := Q2Qc (7 # 10);
  aux_combine_gf := combine_gf;
  aux_get_greens_function := get_greens_function;
  ao2mo_incore_full := fun eri mo =>
    match eri with
    | Some _ => Return (zeros [npair (dim mo 1); npair (dim mo 1)])
    | None => Throw (Base (TypeError (BadIndex "NoneType")))
    end;
  ao2mo_restore_s4 := fun eri _ => Return eri;
  ao2mo_incore_general_pairs := fun eri c =>
    let '(c0, c1, c2, c3) := c in
    match eri with
    | Some _ => Return (zeros [npair (dim c0 1); npair (dim c2 1)])
    | None => Throw (Base (TypeError (BadIndex "NoneType")))
    end;
  ao2mo_outcore_full := fun mo => Return (zeros [npair (dim mo 1); npair (dim mo 1)]);
  ao2mo_outcore_general := fun c =>
    let '(c0, c1, c2, c3) := c in
    Return (zeros [npair (dim c0 1); npair (dim c2 1)])
|}.

(** A converged mean field of the second toy channel: orthonormal
    orbitals, the Fock matrix equal to the core Hamiltonian. *)
Definition scf (eri : option (ndarray Qc)) : SCF Qc :=
  mkSCF eri (Q2Qc (-1)) (fun _ _ => zeros [2; 2; 2]) Toy.h1e_b (fun _ => zeros [2; 2; 2])
        (fun _ _ => stack2 Toy.h1e_b Toy.h1e_b).

Definition orbitals (eri : option (ndarray Qc)) : UAGF2_orbitals Qc :=
  mkOrbitals (scf eri) (eye 2, eye 2)
             (Toy.of_list [2] [1; 0]%Q, Toy.of_list [2] [1; 0]%Q).

Definition ao_integrals : ndarray Qc := zeros [3; 3].

End ToyOrbitals.

(** *** The Fock loop on a store of objects

    [fock_loop] receives its two self-energies as objects: it binds [sea]
    and [seb] to them, rebinds both names to what [minimize_chempot]
    returns, assigns to the attribute [chempot] of the objects so named,
    and keeps its extrapolation object in the local name [diis].  Here the
    self-energy and extrapolation objects live in a store and the locals
    hold their addresses.  Green's functions, integrals and arrays are
    never assigned to by [fock_loop] and stay values. *)

Section SolverStore.

Context {R : Type} {SR : Scalar R} {X : Collaborators R}.

(** The map [f] with the entry at [a] replaced. *)
Definition upd {A : Type} (f : nat -> A) (a : nat) (v : A) : nat -> A :=
  fun b => if b =? a then v else f b.

(** The objects of the process by address.  Addresses below
    [se_allocated] and [diis_allocated] name the objects created so
    far. *)
Record store : Type := mkStore {
  self_energies : nat -> SelfEnergy R;
  se_allocated : nat;
  extrapolations : nat -> DIIS R;
  diis_allocated : nat
}.

(** Reading the object at an address. *)
Definition get_se (a : nat) : Py.M store (SelfEnergy R) :=
  fun h => (Ok (self_energies h a), h).

(** Replacing the attributes of the object at an address. *)
Definition set_se (a : nat) (s : SelfEnergy R) : Py.M store unit :=
  fun h =>
    (Ok tt,
     mkStore (upd (self_energies h) a s) (se_allocated h) (extrapolations h)
             (diis_allocated h)).

(** A new self-energy object. *)
Definition new_se (s : SelfEnergy R) : Py.M store nat :=
  fun h =>
    (Ok (se_allocated h),
     mkStore (upd (self_energies h) (se_allocated h) s) (S (se_allocated h))
             (extrapolations h) (diis_allocated h)).

Definition get_diis (a : nat) : Py.M store (DIIS R) :=
  fun h => (Ok (extrapolations h a), h).

Definition set_diis (a : nat) (d : DIIS R) : Py.M store unit :=
  fun h =>
    (Ok tt,
     mkStore (self_energies h) (se_allocated h) (upd (extrapolations h) a d)
             (diis_allocated h)).

(** A new extrapolation object. *)
Definition new_diis (d : DIIS R) : Py.M store nat :=
  fun h =>
    (Ok (diis_allocated h),
     mkStore (self_energies h) (se_allocated h)
             (upd (extrapolations h) (diis_allocated h) d) (S (diis_allocated h))).

(** [se.chempot = mu] on the object at [a]. *)
Definition set_chempot (a : nat) (mu : R) : Py.M store unit :=
  s <~ get_se a ;;
  set_se a (se_with_chempot s mu).

(** [minimize_chempot(se, fock, nelec, x0=se.chempot, occupancy=1, tol=,
    maxiter=)[0]] on the object at [a].  The module [chempot] is not among
    the sources: with [in_place] the function updates the object it was
    given and returns it, without it the function returns a new object
    and leaves its argument as it was. *)
Definition minimize_chempot_on_store (in_place : bool) (a : nat) (fock : ndarray R)
    (nelec : nat) (tol : R) (maxiter : Z) : Py.M store nat :=
  s <~ get_se a ;;
  let s' := chempot_minimize s fock nelec (se_chempot s) 1 tol maxiter in
  if in_place then
    _ <~ set_se a s' ;;
    Py.ret a
  else new_se s'.

(** The local variables of [fock_loop] that outlive one statement, [sea]
    and [seb] being the addresses of the objects the names are bound
    to. *)
Record slots : Type := mkSlots {
  s_sea : nat;
  s_seb : nat;
  s_gf : GreensFunction R * GreensFunction R;
  s_focka : ndarray R;
  s_fockb : ndarray R;
  s_nerra : option R;
  s_nerrb : option R;
  s_nerr : option R;
  s_derra : option R;
  s_derrb : option R;
  s_derr : option R;
  s_rdm1a_prev : option (ndarray R);
  s_rdm1b_prev : option (ndarray R);
  s_niter2 : option Z;
  s_converged : bool
}.

(** [diis.update(np.array((focka, fockb)), xerr=None)] on the object at
    [diis]. *)
Definition diis_step_on_store (diis : nat) (focka fockb : ndarray R)
    : Py.M store (ndarray R * ndarray R) :=
  d <~ get_diis diis ;;
  let '(x, d') := diis_update d (stack2 focka fockb) in
  _ <~ set_diis diis d' ;;
  Py.ret (row x 0, row x 1).

(** The body of [for niter2 in range(1, agf2.max_cycle_inner+1)],
    statement by statement. *)
Definition inner_body_on_store (agf2 : UAGF2 R) (eri : _ChemistsERIs R) (diis : nat)
    (niter2 : Z) (l : slots) : Py.M store (bool * slots) :=
  let '(nalph, nbeta) := nocc agf2 in
  let '(nmoa, nmob) := nmo agf2 in
  sea <~ get_se (s_sea l) ;;
  let '(wa, va) := aux_eig sea (s_focka l) (Some (rlit 0)) in
  seb <~ get_se (s_seb l) ;;
  let '(wb, vb) := aux_eig seb (s_fockb l) (Some (rlit 0)) in
  let '(mua, nerra) := chempot_binsearch (FockEig wa va) nmoa nalph 1 in
  _ <~ set_chempot (s_sea l) mua ;;
  let '(mub, nerrb) := chempot_binsearch (FockEig wb vb) nmob nbeta 1 in
  _ <~ set_chempot (s_seb l) mub ;;
  let nerr := Py.max2 rltb nerra nerrb in
  sea <~ get_se (s_sea l) ;;
  let '(wa, va) := aux_eig sea (s_focka l) None in
  seb <~ get_se (s_seb l) ;;
  let '(wb, vb) := aux_eig seb (s_fockb l) None in
  sea <~ get_se (s_sea l) ;;
  let gfa := mkGF wa (take_rows va nmoa) (se_chempot sea) in
  seb <~ get_se (s_seb l) ;;
  let gfb := mkGF wb (take_rows vb nmob) (se_chempot seb) in
  let gf := (gfa, gfb) in
  f <~ Py.lift (UAGF2_get_fock agf2 eri (Some gf) None) ;;
  let '(rdm1a, rdm1b) := make_rdm1 gf in
  f <~ diis_step_on_store diis (fst f) (snd f) ;;
  let '(focka, fockb) := f in
  let l1 := mkSlots (s_sea l) (s_seb l) gf focka fockb (Some nerra) (Some nerrb) (Some nerr)
                    (s_derra l) (s_derrb l) (s_derr l)
                    (s_rdm1a_prev l) (s_rdm1b_prev l) (Some niter2) (s_converged l) in
  let remember (l2 : slots) : slots :=
    mkSlots (s_sea l2) (s_seb l2) (s_gf l2) (s_focka l2) (s_fockb l2)
            (s_nerra l2) (s_nerrb l2) (s_nerr l2) (s_derra l2) (s_derrb l2) (s_derr l2)
            (Some rdm1a) (Some rdm1b) (s_niter2 l2) (s_converged l2) in
  if Z.ltb 1 niter2 then
    rdm1a_prev <~ Py.lift (load_fast "rdm1a_prev" (s_rdm1a_prev l1)) ;;
    derra <~ Py.lift (max_abs (sub rdm1a rdm1a_prev)) ;;
    rdm1b_prev <~ Py.lift (load_fast "rdm1b_prev" (s_rdm1b_prev l1)) ;;
    derrb <~ Py.lift (max_abs (sub rdm1b rdm1b_prev)) ;;
    let derr := Py.max2 rltb derra derrb in
    let l2 := mkSlots (s_sea l) (s_seb l) gf focka fockb (Some nerra) (Some nerrb) (Some nerr)
                      (Some derra) (Some derrb) (Some derr)
                      (s_rdm1a_prev l) (s_rdm1b_prev l) (Some niter2) (s_converged l) in
    if rltb derr (conv_tol_rdm1 agf2) then Py.ret (true, l2)
    else Py.ret (false, remember l2)
  else Py.ret (false, remember l1).

(** The body of [for niter1 in range(1, agf2.max_cycle_outer+1)]. *)
Definition outer_body_on_store (in_place : bool) (agf2 : UAGF2 R) (eri : _ChemistsERIs R)
    (diis : nat) (niter1 : Z) (l : slots) : Py.M store (bool * slots) :=
  let '(nalph, nbeta) := nocc agf2 in
  let tol := conv_tol_nelec agf2 in
  let maxiter := max_cycle_inner agf2 in
  sea <~ minimize_chempot_on_store in_place (s_sea l) (s_focka l) nalph tol maxiter ;;
  seb <~ minimize_chempot_on_store in_place (s_seb l) (s_fockb l) nbeta tol maxiter ;;
  let l0 := mkSlots sea seb (s_gf l) (s_focka l) (s_fockb l)
                    (s_nerra l) (s_nerrb l) (s_nerr l) (s_derra l) (s_derrb l) (s_derr l)
                    (s_rdm1a_prev l) (s_rdm1b_prev l) (s_niter2 l) (s_converged l) in
  l1 <~ Py.for_each (Py.range1 (max_cycle_inner agf2)) (inner_body_on_store agf2 eri diis) l0 ;;
  _ <~ Py.lift (load_fast "niter2" (s_niter2 l1)) ;;
  nerr <~ Py.lift (load_fast "nerr" (s_nerr l1)) ;;
  derr <~ Py.lift (load_fast "derr" (s_derr l1)) ;;
  if rltb derr (conv_tol_rdm1 agf2) && rltb (rabs nerr) (conv_tol_nelec agf2) then
    Py.ret (true,
            mkSlots (s_sea l1) (s_seb l1) (s_gf l1) (s_focka l1) (s_fockb l1)
                    (s_nerra l1) (s_nerrb l1) (s_nerr l1) (s_derra l1) (s_derrb l1)
                    (s_derr l1) (s_rdm1a_prev l1) (s_rdm1b_prev l1) (s_niter2 l1) true)
  else Py.ret (false, l1).

(** [fock_loop(agf2, eri, gf, se, get_fock=...)], [se] being the
    addresses of the two self-energy objects passed: the extrapolation
    object is created, the first Fock matrices are computed, the loops
    run, the two final [log.info] calls read their arguments, and the
    tuple [gf, se, converged] is returned with the addresses bound to
    [sea] and [seb] at that point. *)
Definition fock_loop_on_store (in_place : bool) (agf2 : UAGF2 R) (eri : _ChemistsERIs R)
    (gf : GreensFunction R * GreensFunction R) (se : nat * nat)
    (get_fock_arg : option (_ChemistsERIs R -> GreensFunction R * GreensFunction R ->
                            result (ndarray R * ndarray R)))
    : Py.M store (GreensFunction R * GreensFunction R * (nat * nat) * bool) :=
  let get_fock :=
    match get_fock_arg with
    | Some f => f
    | None => fun e g => UAGF2_get_fock agf2 e (Some g) None
    end in
  diis <~ new_diis (DIIS_new agf2) ;;
  f <~ Py.lift (get_fock eri gf) ;;
  let '(focka, fockb) := f in
  let '(sea, seb) := se in
  let l0 := mkSlots sea seb gf focka fockb None None None None None None None None None
                    false in
  l <~ Py.for_each (Py.range1 (max_cycle_outer agf2)) (outer_body_on_store in_place agf2 eri diis)
                   l0 ;;
  _ <~ Py.lift (load_fast "nerra" (s_nerra l)) ;;
  _ <~ Py.lift (load_fast "derra" (s_derra l)) ;;
  _ <~ Py.lift (load_fast "nerrb" (s_nerrb l)) ;;
  _ <~ Py.lift (load_fast "derrb" (s_derrb l)) ;;
  Py.ret (s_gf l, (s_sea l, s_seb l), s_converged l).

(** What the caller finds in the tuple returned: the Green's functions,
    the attributes of the two self-energy objects, and the flag. *)
Definition observed
    (run : result (GreensFunction R * GreensFunction R * (nat * nat) * bool) * store)
    : result (GreensFunction R * GreensFunction R * (SelfEnergy R * SelfEnergy R) * bool) :=
  x <- fst run ;;
  let '(gf, (sea, seb), converged) := x in
  Ok (gf, (self_energies (snd run) sea, self_energies (snd run) seb), converged).

(** The store [h'] after a call made in the store [h] with the
    self-energy objects at [sea] and [seb]: the extrapolation objects of
    [h] are as they were and one has been created; of the self-energy
    objects of [h], only the two passed may have changed. *)
Definition call_footprint (h : store) (sea seb : nat) (h' : store) : Prop :=
  diis_allocated h' = S (diis_allocated h)
  /\ (forall a, a < diis_allocated h -> extrapolations h' a = extrapolations h a)
  /\ se_allocated h <= se_allocated h'
  /\ (forall a, a < se_allocated h -> a <> sea -> a <> seb ->
        self_energies h' a = self_energies h a).

End SolverStore.

(** *** Stores for the toy system *)

Module ToyStores.

(** A process in which earlier calls have left three extrapolation
    objects with a history; the self-energies of the toy system are the
    objects 0 and 1. *)
Definition first : @store Qc :=
  mkStore (fun a => if a =? 0 then Toy.se_a else Toy.se_b) 2
          (fun _ => mkDIIS 6 1 [Toy.h1e_a]) 3.

(** Another process: no extrapolation object yet, and the same two
    self-energies at the addresses 5 and 2 among seven objects. *)
Definition second : @store Qc :=
  mkStore (fun a => if a =? 5 then Toy.se_a else if a =? 2 then Toy.se_b else Toy.se_a) 7
          (fun _ => mkDIIS 6 1 []) 0.

End ToyStores.

(** ** Properties of the Python run-time model *)

Lemma bind_Ok {A B : Type} (c : result A) (k : A -> result B) (b : B) :
  (x <- c ;; k x) = Ok b -> exists a, c = Ok a /\ k a = Ok b.
Proof.
  destruct c as [a | e]; simpl; intros H.
  - exists a. split; [reflexivity | exact H].
  - discriminate H.
Qed.

(** The module namespace binds neither [nmo] nor [spin]. *)
Lemma nmo_is_not_global : Py.load_global module_globals "nmo" = Raise (NameError "nmo").
Proof. reflexivity. Qed.

Lemma spin_is_not_global : Py.load_global module_globals "spin" = Raise (NameError "spin").
Proof. reflexivity. Qed.

(** The keyword [spin] is accepted by the materialized transform and
    refused by the streamed one. *)
Lemma incore_accepts_spin :
  Py.bind_arguments sig_make_qmo_eris_incore call_with_spin = Ok tt.
Proof. reflexivity. Qed.

Lemma outcore_refuses_spin :
  Py.bind_arguments sig_make_qmo_eris_outcore call_with_spin
  = Raise (TypeError (UnexpectedKeyword "spin")).
Proof. reflexivity. Qed.

(** ** Properties of the transforms and of the self-energy build *)

Section TransformProperties.

Context {R : Type} {SR : Scalar R} {X : Collaborators R}.

(** The streamed transform raises however it is called: argument binding
    fails, or the first statement that reads [nmo] does. *)
Lemma outcore_raises (call : Py.call_shape) (agf2 : UAGF2 R) (eri : _ChemistsERIs R)
    (gf_occ gf_vir : GreensFunction R * GreensFunction R) :
  Py.returns (_make_qmo_eris_outcore call agf2 eri gf_occ gf_vir) = false.
Proof.
  unfold _make_qmo_eris_outcore.
  destruct (Py.bind_arguments sig_make_qmo_eris_outcore call) as [[] | e];
    cbn [Py.bind].
  - destruct (nmo agf2) as [nmoa nmob]. rewrite nmo_is_not_global. reflexivity.
  - reflexivity.
Qed.

(** The materialized transform returns one pair of tensors for [spin] 0
    and 1, of the shapes the moment loop expects. *)
Lemma incore_returns (agf2 : UAGF2 R) (eri : _ChemistsERIs R)
    (gf_occ gf_vir : GreensFunction R * GreensFunction R) (spin : Z) :
  spin = 0%Z \/ spin = 1%Z ->
  exists q_same q_cross,
    _make_qmo_eris_incore call_with_spin agf2 eri gf_occ gf_vir (Some spin)
    = Ok (QmoSpin q_same q_cross)
    /\ shape q_same
       = [fst (by_spin spin (nmo agf2)); gf_naux (fst (by_spin spin gf_occ));
          gf_naux (fst (by_spin spin gf_occ)); gf_naux (fst (by_spin spin gf_vir))]
    /\ shape q_cross
       = [fst (by_spin spin (nmo agf2)); gf_naux (fst (by_spin spin gf_occ));
          gf_naux (snd (by_spin spin gf_occ)); gf_naux (snd (by_spin spin gf_vir))].
Proof.
  intros [-> | ->]; unfold _make_qmo_eris_incore; rewrite incore_accepts_spin; simpl;
    destruct (nmo agf2) as [nmoa nmob]; simpl;
    eexists; eexists; (split; [reflexivity | split; reflexivity]).
Qed.

(** One spin of the build returns when the materialized transform is
    selected. *)
Lemma build_spin_incore_returns (agf2 : UAGF2 R) (eri : _ChemistsERIs R)
    (gf_occ gf_vir : GreensFunction R * GreensFunction R) (spin : Z) :
  spin = 0%Z \/ spin = 1%Z ->
  incore_fits agf2 gf_occ gf_vir spin = true ->
  Py.returns (_build_se_part_spin agf2 eri gf_occ gf_vir spin) = true.
Proof.
  intros Hspin Hfits.
  destruct (incore_returns agf2 eri gf_occ gf_vir spin Hspin) as (qs & qc & Hq & _ & _).
  unfold _build_se_part_spin. rewrite Hfits, Hq.
  destruct (by_spin spin gf_occ) as [gfo_a gfo_b].
  destruct (by_spin spin gf_vir) as [gfv_a gfv_b].
  cbn [Py.bind unpack_qeri].
  destruct (spin_moments agf2 gf_occ gf_vir spin qs qc) as [vv vev].
  destruct (ragf2_cholesky_build vv vev gfo_a gfv_a) as [e c].
  reflexivity.
Qed.

(** One spin of the build raises when the streamed transform is
    selected: the call passes a keyword the function does not take. *)
Lemma build_spin_outcore_raises (agf2 : UAGF2 R) (eri : _ChemistsERIs R)
    (gf_occ gf_vir : GreensFunction R * GreensFunction R) (spin : Z) :
  incore_fits agf2 gf_occ gf_vir spin = false ->
  _build_se_part_spin agf2 eri gf_occ gf_vir spin
  = Raise (TypeError (UnexpectedKeyword "spin")).
Proof.
  intros Hfits. unfold _build_se_part_spin. rewrite Hfits.
  destruct (by_spin spin gf_occ) as [gfo_a gfo_b].
  destruct (by_spin spin gf_vir) as [gfv_a gfv_b].
  unfold _make_qmo_eris_outcore. rewrite outcore_refuses_spin. reflexivity.
Qed.

(** C1: the streamed and the materialized transform should produce the
    same quasi-particle tensors.  In the source the streamed transform
    produces none: called as [build_se_part] calls it, it refuses the
    keyword [spin]; called with its four parameters, it stops at the
    unbound name [nmo].  The materialized transform returns for both
    spins. *)
Theorem outcore_yields_no_tensor (agf2 : UAGF2 R) (eri : _ChemistsERIs R)
    (gf_occ gf_vir : GreensFunction R * GreensFunction R) :
  _make_qmo_eris_outcore call_with_spin agf2 eri gf_occ gf_vir
  = Raise (TypeError (UnexpectedKeyword "spin"))
  /\ _make_qmo_eris_outcore call_positional agf2 eri gf_occ gf_vir
     = Raise (NameError "nmo")
  /\ Py.returns (_make_qmo_eris_incore call_with_spin agf2 eri gf_occ gf_vir (Some 0%Z))
     = true
  /\ Py.returns (_make_qmo_eris_incore call_with_spin agf2 eri gf_occ gf_vir (Some 1%Z))
     = true.
Proof.
  split; [ | split; [ | split ] ].
  - unfold _make_qmo_eris_outcore. rewrite outcore_refuses_spin. reflexivity.
  - unfold _make_qmo_eris_outcore.
    change (Py.bind_arguments sig_make_qmo_eris_outcore call_positional) with (Ok tt).
    cbn [Py.bind]. destruct (nmo agf2) as [nmoa nmob].
    rewrite nmo_is_not_global. reflexivity.
  - destruct (incore_returns agf2 eri gf_occ gf_vir 0%Z (or_introl eq_refl))
      as (qs & qc & Hq & _). rewrite Hq. reflexivity.
  - destruct (incore_returns agf2 eri gf_occ gf_vir 1%Z (or_intror eq_refl))
      as (qs & qc & Hq & _). rewrite Hq. reflexivity.
Qed.

(** C3: exceeding the memory budget should switch to the streamed
    transform and complete.  In the source the switch is made and the
    build then fails: as soon as the memory test fails for one spin,
    [build_se_part] raises [TypeError]. *)
Theorem build_se_part_over_budget_raises (agf2 : UAGF2 R) (eri : _ChemistsERIs R)
    (gf_occ gf_vir : GreensFunction R * GreensFunction R) :
  incore_fits agf2 gf_occ gf_vir 0 = false \/ incore_fits agf2 gf_occ gf_vir 1 = false ->
  build_se_part agf2 eri gf_occ gf_vir = Raise (TypeError (UnexpectedKeyword "spin")).
Proof.
  intros H. unfold build_se_part.
  destruct (incore_fits agf2 gf_occ gf_vir 0) eqn:H0.
  - destruct H as [H | H1]; [discriminate H | ].
    pose proof (build_spin_incore_returns agf2 eri gf_occ gf_vir 0%Z
                  (or_introl eq_refl) H0) as Hret.
    destruct (_build_se_part_spin agf2 eri gf_occ gf_vir 0) as [se_a | e];
      [ | discriminate Hret].
    cbn [Py.bind]. rewrite (build_spin_outcore_raises agf2 eri gf_occ gf_vir 1%Z H1).
    reflexivity.
  - rewrite (build_spin_outcore_raises agf2 eri gf_occ gf_vir 0%Z H0). reflexivity.
Qed.

End TransformProperties.

(** With 50 MB allowed and 100 MB in use the toy build takes the streamed
    path and raises. *)
Lemma build_se_part_over_budget_witness :
  build_se_part Toy.agf2_no_memory Toy.eri
                (Toy.get_occupied Toy.gf_a, Toy.get_occupied Toy.gf_b)
                (Toy.get_virtual Toy.gf_a, Toy.get_virtual Toy.gf_b)
  = Raise (TypeError (UnexpectedKeyword "spin")).
Proof.
  apply build_se_part_over_budget_raises. left. vm_compute. reflexivity.
Defined.

(** ** Properties of the Fock matrix, the energies and the initial
    auxiliaries *)

Section FockProperties.

Context {R : Type} {SR : Scalar R} {X : Collaborators R}.

(** C10: when both a Green's function and a density matrix are passed to
    [get_fock], the density matrix is recomputed from the Green's function
    and the one passed is ignored: the result is that of the call with the
    Green's function alone, and that of the call with the density matrix
    of the Green's function alone. *)
Theorem get_fock_gf_takes_precedence (agf2 : UAGF2 R) (eri : _ChemistsERIs R)
    (gf : GreensFunction R * GreensFunction R) (rdm1 : ndarray R * ndarray R) :
  get_fock agf2 eri (Some gf) (Some rdm1) = get_fock agf2 eri (Some gf) None
  /\ get_fock agf2 eri (Some gf) (Some rdm1) = get_fock agf2 eri None (Some (make_rdm1 gf)).
Proof.
  unfold get_fock. split; reflexivity.
Qed.

(** [get_fock] returns whenever a Green's function is passed. *)
Lemma get_fock_gf_returns (agf2 : UAGF2 R) (eri : _ChemistsERIs R)
    (gf : GreensFunction R * GreensFunction R) (rdm1 : option (ndarray R * ndarray R)) :
  exists f, get_fock agf2 eri (Some gf) rdm1 = Ok f.
Proof.
  unfold get_fock.
  destruct (ragf2_get_jk (eri_aa eri) (fst (make_rdm1 gf)) true) as [vj_aa vk_aa].
  destruct (ragf2_get_jk (eri_bb eri) (snd (make_rdm1 gf)) true) as [vj_bb vk_bb].
  eexists. reflexivity.
Qed.

(** Without either argument the assertion [rdm1 is not None] fails. *)
Lemma get_fock_needs_an_argument (agf2 : UAGF2 R) (eri : _ChemistsERIs R) :
  get_fock agf2 eri None None = Raise AssertionError.
Proof. reflexivity. Qed.

(** X3: the chemical potentials that [init_aux] stores: component 0 of
    the search for alpha, component 1 of the search for beta. *)
Lemma init_aux_chempots (agf2 : UAGF2 R) (eri : _ChemistsERIs R) (with_se : bool)
    (gf : GreensFunction R * GreensFunction R) (se : option (SelfEnergy R * SelfEnergy R)) :
  init_aux agf2 eri with_se = Ok (gf, se) ->
  gf_chempot (fst gf)
  = fst (chempot_binsearch (FockMatrix (fst (eri_fock eri))) (fst (nmo agf2))
                           (fst (nocc agf2)) 1)
  /\ gf_chempot (snd gf)
     = snd (chempot_binsearch (FockMatrix (snd (eri_fock eri))) (snd (nmo agf2))
                              (snd (nocc agf2)) 1).
Proof.
  unfold init_aux.
  destruct (eri_fock eri) as [focka fockb].
  destruct (nmo agf2) as [nmoa nmob].
  destruct (nocc agf2) as [nocca noccb].
  destruct with_se.
  - intros H. apply bind_Ok in H. destruct H as (s & _ & H).
    injection H as <- _. split; reflexivity.
  - intros H. injection H as <- _. split; reflexivity.
Qed.

Section Exact.

Context {EX : ExactScalar R}.

Add Ring scalar_ring_instance : (@scalar_ring R SR EX).

(** C6: the seed two-body energy [energy_mp2] is one half of the general
    two-body energy [energy_2body] on the same Green's function and
    self-energy, with the per-spin energies of [ragf2] as the
    specification describes them and exact arithmetic. *)
Theorem energy_mp2_is_half_energy_2body (agf2 : UAGF2 R)
    (gf : GreensFunction R * GreensFunction R) (se : SelfEnergy R * SelfEnergy R) :
  energy_mp2 agf2 gf se = rmul (rlit (1 # 2)) (energy_2body agf2 gf se).
Proof.
  unfold energy_mp2, energy_2body, ragf2_energy_mp2, ragf2_energy_2body.
  cbv zeta. ring.
Qed.

End Exact.

End FockProperties.

(** On the toy system the two energies are -1/3 and -2/3. *)
Lemma energy_mp2_is_half_energy_2body_witness :
  energy_mp2 (Toy.agf2 20 50) (Toy.gf_a, Toy.gf_b) (Toy.se_a, Toy.se_b)
  = rmul (rlit (1 # 2))
         (energy_2body (Toy.agf2 20 50) (Toy.gf_a, Toy.gf_b) (Toy.se_a, Toy.se_b)).
Proof.
  apply (energy_mp2_is_half_energy_2body (R := Qc)).
Defined.

Example toy_energies :
  energy_2body (Toy.agf2 20 50) (Toy.gf_a, Toy.gf_b) (Toy.se_a, Toy.se_b) = Q2Qc (-2 # 3)
  /\ energy_mp2 (Toy.agf2 20 50) (Toy.gf_a, Toy.gf_b) (Toy.se_a, Toy.se_b) = Q2Qc (-1 # 3).
Proof.
  split; apply Qc_is_canon; vm_compute; reflexivity.
Qed.

(** C9: for a system with identical alpha and beta channels, [init_aux]
    should give both Green's functions the chemical potential found by
    the search.  On the toy system with two equal channels the search
    returns the chemical potential -1/4 and the error 0; the alpha
    Green's function gets -1/4 and the beta Green's function gets 0, the
    error component. *)
Theorem init_aux_beta_chempot_is_search_error :
  Toy.binsearch (FockMatrix Toy.h1e_b) 2 1 1 = (Q2Qc (-1 # 4), Q2Qc 0)
  /\ exists gf_a gf_b,
       init_aux Toy.agf2_symmetric Toy.eri_symmetric false = Ok ((gf_a, gf_b), None)
       /\ gf_chempot gf_a = Q2Qc (-1 # 4)
       /\ gf_chempot gf_b = Q2Qc 0
       /\ gf_chempot gf_a <> gf_chempot gf_b.
Proof.
  assert (Hsearch : Toy.binsearch (FockMatrix Toy.h1e_b) 2 1 1 = (Q2Qc (-1 # 4), Q2Qc 0)).
  { apply injective_projections; apply Qc_is_canon; vm_compute; reflexivity. }
  split; [exact Hsearch | ].
  eexists. eexists. split; [reflexivity | ].
  cbn [gf_chempot].
  change (chempot_binsearch (FockMatrix Toy.h1e_b) 2 1 1)
    with (Toy.binsearch (FockMatrix Toy.h1e_b) 2 1 1).
  rewrite Hsearch. cbn [fst snd].
  split; [reflexivity | split; [reflexivity | ] ].
  intros H. apply (f_equal (fun x => Qnum (this x))) in H. vm_compute in H. discriminate H.
Qed.

(** ** Properties of loops *)

Section Loops.

Context {S L : Type}.

Lemma range1_positive (n : Z) :
  (0 < n)%Z -> exists rest, Py.range1 n = 1%Z :: rest.
Proof.
  intros Hn. unfold Py.range1.
  destruct (Z.to_nat n) as [ | k] eqn:Hk; [lia | ].
  simpl. eexists. reflexivity.
Qed.

Lemma range1_nonpositive (n : Z) : (n <= 0)%Z -> Py.range1 n = [].
Proof.
  intros Hn. unfold Py.range1.
  replace (Z.to_nat n) with 0 by lia. reflexivity.
Qed.

(** A loop that returns went through bodies that returned: with an
    invariant [P] kept by the passes that do not break and a property [Q]
    established by every pass, the final locals satisfy [Q] when the
    loop ran at least once. *)
Lemma for_each_last (P Q : L -> Prop) (body : Z -> L -> Py.M S (bool * L)) :
  (forall x l s brk l' s',
     P l -> body x l s = (Ok (brk, l'), s') -> Q l' /\ (brk = false -> P l')) ->
  forall xs l s l' s',
    xs <> [] -> P l -> Py.for_each xs body l s = (Ok l', s') -> Q l'.
Proof.
  intros Hbody xs. induction xs as [ | x rest IH]; intros l s l' s' Hne HP Hrun.
  - contradiction.
  - simpl in Hrun. unfold Py.bindM in Hrun.
    destruct (body x l s) as [[[brk l1] | e] s1] eqn:Hb; [ | discriminate Hrun].
    destruct (Hbody x l s brk l1 s1 HP Hb) as [HQ HP1].
    simpl in Hrun. destruct brk.
    + unfold Py.ret in Hrun. injection Hrun as <- _. exact HQ.
    + destruct rest as [ | y rest'].
      * simpl in Hrun. unfold Py.ret in Hrun. injection Hrun as <- _. exact HQ.
      * apply (IH l1 s1 l' s'); [discriminate | apply HP1; reflexivity | exact Hrun].
Qed.

(** An invariant kept by every pass holds when the loop returns. *)
Lemma for_each_invariant (P : L -> Prop) (body : Z -> L -> Py.M S (bool * L)) :
  (forall x l s brk l' s', P l -> body x l s = (Ok (brk, l'), s') -> P l') ->
  forall xs l s l' s', P l -> Py.for_each xs body l s = (Ok l', s') -> P l'.
Proof.
  intros Hbody xs. induction xs as [ | x rest IH]; intros l s l' s' HP Hrun.
  - simpl in Hrun. unfold Py.ret in Hrun. injection Hrun as <- _. exact HP.
  - simpl in Hrun. unfold Py.bindM in Hrun.
    destruct (body x l s) as [[[brk l1] | e] s1] eqn:Hb; [ | discriminate Hrun].
    pose proof (Hbody x l s brk l1 s1 HP Hb) as HP1.
    simpl in Hrun. destruct brk.
    + unfold Py.ret in Hrun. injection Hrun as <- _. exact HP1.
    + apply (IH l1 s1 l' s' HP1 Hrun).
Qed.

End Loops.

(** ** Properties of the Fock loop *)

Section SolverProperties.

Context {R : Type} {SR : Scalar R} {X : Collaborators R}.

(** One pass of the inner loop.  It assigns the three electron-count
    errors and the counter; it assigns the three density-matrix changes
    only from the second pass on, and it can only raise there. *)
Lemma inner_body_cases (agf2 : UAGF2 R) (eri : _ChemistsERIs R) (n : Z) (l : locals)
    (d : DIIS R) :
  match inner_body agf2 eri n l d with
  | (Ok (brk, l'), _) =>
    (exists a b, l_nerra l' = Some a /\ l_nerrb l' = Some b
                 /\ l_nerr l' = Some (Py.max2 rltb a b))
    /\ l_niter2 l' = Some n
    /\ l_converged l' = l_converged l
    /\ ((1 <? n)%Z = false ->
        brk = false /\ l_derr l' = l_derr l /\ l_derra l' = l_derra l
        /\ l_derrb l' = l_derrb l)
    /\ ((1 <? n)%Z = true ->
        exists a b, l_derra l' = Some a /\ l_derrb l' = Some b
                    /\ l_derr l' = Some (Py.max2 rltb a b)
                    /\ brk = rltb (Py.max2 rltb a b) (conv_tol_rdm1 agf2))
  | (Raise _, _) => (1 <? n)%Z = true
  end.
Proof.
  unfold inner_body.
  destruct (nocc agf2) as [nalph nbeta].
  destruct (nmo agf2) as [nmoa nmob].
  destruct (aux_eig (l_sea l) (l_focka l) (Some (rlit 0))) as [wa va].
  destruct (aux_eig (l_seb l) (l_fockb l) (Some (rlit 0))) as [wb vb].
  destruct (chempot_binsearch (FockEig wa va) nmoa nalph 1) as [mua nerra].
  destruct (chempot_binsearch (FockEig wb vb) nmob nbeta 1) as [mub nerrb].
  destruct (aux_eig (se_with_chempot (l_sea l) mua) (l_focka l) None) as [wa' va'].
  destruct (aux_eig (se_with_chempot (l_seb l) mub) (l_fockb l) None) as [wb' vb'].
  match goal with |- context [UAGF2_get_fock agf2 eri (Some ?g) None] =>
    destruct (get_fock_gf_returns agf2 eri g None) as [f Hf];
    unfold UAGF2_get_fock; rewrite Hf; set (gf' := g) end.
  destruct (make_rdm1 gf') as [rdm1a rdm1b].
  unfold Py.bindM at 1. unfold Py.lift at 1.
  unfold Py.bindM at 1. unfold diis_step.
  destruct (diis_update d (stack2 (fst f) (snd f))) as [x d'].
  destruct (1 <? n)%Z.
  - cbn [l_rdm1a_prev l_rdm1b_prev].
    unfold Py.bindM, Py.lift.
    destruct (l_rdm1a_prev l) as [pa | ]; cbn [load_fast]; [ | reflexivity].
    destruct (max_abs (sub rdm1a pa)) as [derra | e]; [ | reflexivity].
    destruct (l_rdm1b_prev l) as [pb | ]; cbn [load_fast]; [ | reflexivity].
    destruct (max_abs (sub rdm1b pb)) as [derrb | e]; [ | reflexivity].
    destruct (rltb (Py.max2 rltb derra derrb) (conv_tol_rdm1 agf2)) eqn:Hb;
      unfold Py.ret; cbn.
    + split; [eauto | ]. split; [reflexivity | ]. split; [reflexivity | ].
      split; [discriminate | ]. intros _. exists derra, derrb. rewrite Hb. auto.
    + split; [eauto | ]. split; [reflexivity | ]. split; [reflexivity | ].
      split; [discriminate | ]. intros _. exists derra, derrb. rewrite Hb. auto.
  - unfold Py.ret; cbn.
    split; [eauto | ]. split; [reflexivity | ]. split; [reflexivity | ].
    split; [auto | discriminate].
Qed.

(** A pass of the inner loop that returns keeps the measures in
    agreement, leaves [converged] alone and leaves the electron-count
    error assigned. *)
Lemma inner_body_keeps (agf2 : UAGF2 R) (eri : _ChemistsERIs R) (n : Z) (l l' : locals)
    (d d' : DIIS R) (brk : bool) :
  measures_agree l /\ l_converged l = false ->
  inner_body agf2 eri n l d = (Ok (brk, l'), d') ->
  measures_agree l' /\ l_converged l' = false.
Proof.
  intros [[Hn Hd] Hc] Hrun.
  pose proof (inner_body_cases agf2 eri n l d) as H. rewrite Hrun in H.
  destruct H as ((a & b & Ha & Hb & Hab) & _ & Hconv & Hfirst & Hlater).
  split; [split | congruence].
  - intros e He. exists a, b. rewrite Hab in He. injection He as <-. auto.
  - intros e He. destruct (1 <? n)%Z.
    + destruct (Hlater eq_refl) as (a' & b' & Ha' & Hb' & Hab' & _).
      exists a', b'. rewrite Hab' in He. injection He as <-. auto.
    + destruct (Hfirst eq_refl) as (_ & H1 & H2 & H3).
      rewrite H1 in He. rewrite H2, H3. apply Hd. exact He.
Qed.

(** One pass of the outer loop that returns has read the combined
    measures, so all six measures are assigned; it reports a break
    exactly when it sets [converged], and then both tests have passed. *)
Lemma outer_body_cases (agf2 : UAGF2 R) (eri : _ChemistsERIs R) (n : Z) (l l' : locals)
    (d d' : DIIS R) (brk : bool) :
  measures_agree l /\ l_converged l = false ->
  outer_body agf2 eri n l d = (Ok (brk, l'), d') ->
  measures_agree l'
  /\ l_converged l' = brk
  /\ exists nerr derr,
       l_nerr l' = Some nerr /\ l_derr l' = Some derr
       /\ brk = rltb derr (conv_tol_rdm1 agf2) && rltb (rabs nerr) (conv_tol_nelec agf2).
Proof.
  intros Hl Hrun. unfold outer_body in Hrun.
  destruct (nocc agf2) as [nalph nbeta].
  unfold Py.bindM at 1 in Hrun.
  match type of Hrun with context [Py.for_each ?xs ?body ?l0 d] =>
    destruct (Py.for_each xs body l0 d) as [[l1 | e] d1] eqn:Hinner;
      [ | discriminate Hrun];
    assert (H1 : measures_agree l1 /\ l_converged l1 = false)
      by (apply (for_each_invariant
                   (fun l => measures_agree l /\ l_converged l = false) body
                   (fun x l s brk l' s' => inner_body_keeps agf2 eri x l l' s s' brk)
                   xs l0 d l1 d1); [exact Hl | exact Hinner])
  end.
  destruct H1 as [[Hn Hd] Hc].
  unfold Py.bindM, Py.lift in Hrun.
  destruct (l_niter2 l1) as [k | ]; cbn [load_fast] in Hrun; [ | discriminate Hrun].
  destruct (l_nerr l1) as [nerr | ] eqn:Hnerr; cbn [load_fast] in Hrun;
    [ | discriminate Hrun].
  destruct (l_derr l1) as [derr | ] eqn:Hderr; cbn [load_fast] in Hrun;
    [ | discriminate Hrun].
  destruct (Hn nerr eq_refl) as (a & b & Ha & Hb & Hab).
  destruct (Hd derr eq_refl) as (a' & b' & Ha' & Hb' & Hab').
  destruct (rltb derr (conv_tol_rdm1 agf2) && rltb (rabs nerr) (conv_tol_nelec agf2))
    eqn:Htest; unfold Py.ret in Hrun; injection Hrun as <- <- <-.
  - split; [split | split; [reflexivity | ] ].
    + intros e He. cbn in He. injection He as <-. cbn. eauto.
    + intros e He. cbn in He. injection He as <-. cbn. eauto.
    + exists nerr, derr. cbn. auto.
  - split; [split | split; [exact Hc | ] ].
    + intros e He. rewrite Hnerr in He. injection He as <-. eauto.
    + intros e He. rewrite Hderr in He. injection He as <-. eauto.
    + exists nerr, derr. auto.
Qed.

Lemma locals_at_entry_unassigned (gf : GreensFunction R * GreensFunction R)
    (se : SelfEnergy R * SelfEnergy R) (f : ndarray R * ndarray R) :
  l_nerra (locals_at_entry gf se f) = None
  /\ l_nerr (locals_at_entry gf se f) = None
  /\ l_derr (locals_at_entry gf se f) = None
  /\ l_converged (locals_at_entry gf se f) = false.
Proof.
  destruct f as [focka fockb]. destruct se as [sea seb]. repeat split.
Qed.

Lemma locals_at_entry_agree (gf : GreensFunction R * GreensFunction R)
    (se : SelfEnergy R * SelfEnergy R) (f : ndarray R * ndarray R) :
  measures_agree (locals_at_entry gf se f) /\ l_converged (locals_at_entry gf se f) = false.
Proof.
  destruct (locals_at_entry_unassigned gf se f) as (_ & Hn & Hd & Hc).
  split; [split | exact Hc]; intros e He; congruence.
Qed.

(** When the cycles return after at least one outer pass, all six
    measures are assigned, and [converged] is the outcome of the two
    tests on the combined measures. *)
Lemma cycles_returned (agf2 : UAGF2 R) (eri : _ChemistsERIs R)
    (gf : GreensFunction R * GreensFunction R) (se : SelfEnergy R * SelfEnergy R)
    (get_fock_arg : option (_ChemistsERIs R -> GreensFunction R * GreensFunction R ->
                            result (ndarray R * ndarray R)))
    (d0 d : DIIS R) (l : locals) :
  (0 < max_cycle_outer agf2)%Z ->
  fock_loop_cycles agf2 eri gf se get_fock_arg d0 = (Ok l, d) ->
  measures_agree l
  /\ exists nerr derr,
       l_nerr l = Some nerr /\ l_derr l = Some derr
       /\ l_converged l
          = rltb derr (conv_tol_rdm1 agf2) && rltb (rabs nerr) (conv_tol_nelec agf2).
Proof.
  intros Hpos Hrun. unfold fock_loop_cycles in Hrun.
  unfold Py.bindM at 1 in Hrun. unfold Py.lift at 1 in Hrun.
  match type of Hrun with context [match ?c with Ok _ => _ | Raise _ => _ end] =>
    destruct c as [f | e]; [ | discriminate Hrun] end.
  destruct (range1_positive (max_cycle_outer agf2) Hpos) as [rest Hrange].
  rewrite Hrange in Hrun.
  apply (for_each_last
           (fun l => measures_agree l /\ l_converged l = false)
           (fun l => measures_agree l
                     /\ exists nerr derr,
                          l_nerr l = Some nerr /\ l_derr l = Some derr
                          /\ l_converged l
                             = rltb derr (conv_tol_rdm1 agf2)
                               && rltb (rabs nerr) (conv_tol_nelec agf2))
           (outer_body agf2 eri))
    with (xs := 1%Z :: rest) (l := locals_at_entry gf se f) (s := d0) (s' := d).
  - intros x l0 s brk l1 s1 HP Hb.
    destruct (outer_body_cases agf2 eri x l0 l1 s s1 brk HP Hb)
      as (Hagree & Hconv & nerr & derr & Hn & Hd & Htest).
    split.
    + split; [exact Hagree | ]. exists nerr, derr. rewrite Hconv. auto.
    + intros ->. auto.
  - discriminate.
  - apply locals_at_entry_agree.
  - exact Hrun.
Qed.

(** X1: once the cycles have returned after at least one outer pass, the
    final [log.info] calls find their arguments and [fock_loop] returns
    normally, with the last Green's functions and self-energies and the
    flag, which is [False] when no pass met both tolerances. *)
Lemma fock_loop_returns_after_cycles (agf2 : UAGF2 R) (eri : _ChemistsERIs R)
    (gf : GreensFunction R * GreensFunction R) (se : SelfEnergy R * SelfEnergy R)
    (get_fock_arg : option (_ChemistsERIs R -> GreensFunction R * GreensFunction R ->
                            result (ndarray R * ndarray R)))
    (w : world) (d : DIIS R) (l : locals) :
  (0 < max_cycle_outer agf2)%Z ->
  fock_loop_cycles agf2 eri gf se get_fock_arg (DIIS_new agf2) = (Ok l, d) ->
  fock_loop agf2 eri gf se get_fock_arg w
  = (Ok (l_gf l, (l_sea l, l_seb l), l_converged l), w ++ [d]).
Proof.
  intros Hpos Hrun.
  destruct (cycles_returned agf2 eri gf se get_fock_arg _ d l Hpos Hrun)
    as ((Hn & Hd) & nerr & derr & Hnerr & Hderr & _).
  destruct (Hn nerr Hnerr) as (a & b & Ha & Hb & _).
  destruct (Hd derr Hderr) as (a' & b' & Ha' & Hb' & _).
  unfold fock_loop, fock_loop_locals.
  unfold Py.bindM at 1. rewrite Hrun.
  unfold Py.bindM, Py.lift. rewrite Ha, Ha', Hb, Hb'. reflexivity.
Qed.

(** With one inner pass per outer pass, the density-matrix change is
    still unassigned when [log.debug1] reads it. *)
Lemma outer_body_one_inner_cycle (agf2 : UAGF2 R) (eri : _ChemistsERIs R) (n : Z)
    (l : locals) (d : DIIS R) :
  max_cycle_inner agf2 = 1%Z ->
  l_derr l = None ->
  fst (outer_body agf2 eri n l d) = Raise (UnboundLocalError "derr").
Proof.
  intros Hinner Hderr. unfold outer_body. rewrite Hinner.
  destruct (nocc agf2) as [nalph nbeta].
  change (Py.range1 1) with [1%Z].
  unfold Py.bindM at 1. cbn [Py.for_each]. unfold Py.bindM at 1.
  match goal with |- context [inner_body agf2 eri 1 ?l0 d] =>
    pose proof (inner_body_cases agf2 eri 1 l0 d) as H;
    destruct (inner_body agf2 eri 1 l0 d) as [[[brk l1] | e] d1];
      [ | discriminate H];
    destruct H as ((a & b & _ & _ & Hnerr) & Hiter & _ & Hfirst & _);
    destruct (Hfirst eq_refl) as (-> & Hd1 & _)
  end.
  cbn [fst snd]. unfold Py.ret at 1.
  unfold Py.bindM, Py.lift. rewrite Hiter, Hnerr, Hd1. cbn [l_derr]. rewrite Hderr.
  reflexivity.
Qed.

(** C8: the density-matrix change read after the inner loop should have
    a value on the first outer pass also when the inner loop makes one
    pass.  In the source it has none: with [max_cycle_inner = 1] and at
    least one outer pass, [fock_loop] raises [UnboundLocalError] for
    [derr]. *)
Theorem fock_loop_one_inner_cycle_raises (agf2 : UAGF2 R) (eri : _ChemistsERIs R)
    (gf : GreensFunction R * GreensFunction R) (se : SelfEnergy R * SelfEnergy R)
    (w : world) :
  max_cycle_inner agf2 = 1%Z ->
  (0 < max_cycle_outer agf2)%Z ->
  fst (fock_loop agf2 eri gf se None w) = Raise (UnboundLocalError "derr").
Proof.
  intros Hinner Hpos.
  unfold fock_loop, fock_loop_locals, fock_loop_cycles.
  destruct (get_fock_gf_returns agf2 eri gf None) as [f Hf].
  unfold UAGF2_get_fock. rewrite Hf.
  destruct (range1_positive (max_cycle_outer agf2) Hpos) as [rest ->].
  unfold Py.bindM at 1. unfold Py.bindM at 1. unfold Py.lift at 1.
  cbn [Py.for_each]. unfold Py.bindM at 1.
  destruct (locals_at_entry_unassigned gf se f) as (_ & _ & Hderr & _).
  pose proof (outer_body_one_inner_cycle agf2 eri 1 (locals_at_entry gf se f)
                (DIIS_new agf2) Hinner Hderr) as Hraise.
  destruct (outer_body agf2 eri 1 (locals_at_entry gf se f) (DIIS_new agf2))
    as [[r | e] d1]; cbn [fst] in Hraise; [discriminate Hraise | ].
  injection Hraise as ->. reflexivity.
Qed.

(** C5: exhausting the outer passes without convergence should return
    normally with [converged = False].  In the source this holds only
    when there is at least one outer pass
    ([fock_loop_returns_after_cycles]); with [max_cycle_outer <= 0] the
    loop is exhausted at once and the final [log.info] raises
    [UnboundLocalError] for [nerra]. *)
Theorem fock_loop_no_outer_cycle_raises (agf2 : UAGF2 R) (eri : _ChemistsERIs R)
    (gf : GreensFunction R * GreensFunction R) (se : SelfEnergy R * SelfEnergy R)
    (w : world) :
  (max_cycle_outer agf2 <= 0)%Z ->
  fst (fock_loop agf2 eri gf se None w) = Raise (UnboundLocalError "nerra").
Proof.
  intros Hnone.
  unfold fock_loop, fock_loop_locals, fock_loop_cycles.
  destruct (get_fock_gf_returns agf2 eri gf None) as [f Hf].
  unfold UAGF2_get_fock. rewrite Hf.
  rewrite (range1_nonpositive _ Hnone).
  unfold Py.bindM at 1. unfold Py.bindM at 1. unfold Py.lift at 1.
  cbn [Py.for_each]. unfold Py.ret at 1.
  destruct (locals_at_entry_unassigned gf se f) as (Hnerra & _).
  unfold Py.bindM, Py.lift. rewrite Hnerra. reflexivity.
Qed.

(** X2: what [converged = True] guarantees: the absolute value of the
    larger of the two signed electron-count errors is below the
    tolerance. *)
Lemma converged_bounds_the_larger_error (agf2 : UAGF2 R) (eri : _ChemistsERIs R)
    (gf : GreensFunction R * GreensFunction R) (se : SelfEnergy R * SelfEnergy R)
    (get_fock_arg : option (_ChemistsERIs R -> GreensFunction R * GreensFunction R ->
                            result (ndarray R * ndarray R)))
    (d0 d : DIIS R) (l : locals) :
  fock_loop_locals agf2 eri gf se get_fock_arg d0 = (Ok l, d) ->
  l_converged l = true ->
  exists nerra nerrb,
    l_nerra l = Some nerra /\ l_nerrb l = Some nerrb
    /\ rltb (rabs (Py.max2 rltb nerra nerrb)) (conv_tol_nelec agf2) = true.
Proof.
  intros Hrun Hconv. unfold fock_loop_locals in Hrun.
  unfold Py.bindM at 1 in Hrun.
  destruct (fock_loop_cycles agf2 eri gf se get_fock_arg d0) as [[l1 | e] d1] eqn:Hcyc;
    [ | discriminate Hrun].
  assert (Hl : l1 = l).
  { unfold Py.bindM, Py.lift, Py.ret in Hrun.
    destruct (load_fast "nerra" (l_nerra l1)); [ | discriminate Hrun].
    destruct (load_fast "derra" (l_derra l1)); [ | discriminate Hrun].
    destruct (load_fast "nerrb" (l_nerrb l1)); [ | discriminate Hrun].
    destruct (load_fast "derrb" (l_derrb l1)); [ | discriminate Hrun].
    injection Hrun as -> _. reflexivity. }
  subst l1.
  destruct (Z_lt_le_dec 0 (max_cycle_outer agf2)) as [Hpos | Hnone].
  - destruct (cycles_returned agf2 eri gf se get_fock_arg d0 d1 l Hpos Hcyc)
      as ((Hn & _) & nerr & derr & Hnerr & _ & Htest).
    destruct (Hn nerr Hnerr) as (a & b & Ha & Hb & ->).
    exists a, b. split; [exact Ha | split; [exact Hb | ] ].
    rewrite Hconv in Htest. symmetry in Htest.
    apply andb_true_iff in Htest. apply Htest.
  - unfold fock_loop_cycles in Hcyc. rewrite (range1_nonpositive _ Hnone) in Hcyc.
    unfold Py.bindM, Py.lift in Hcyc.
    match type of Hcyc with context [match ?c with Ok _ => _ | Raise _ => _ end] =>
      destruct c as [f | e]; [ | discriminate Hcyc] end.
    cbn [Py.for_each] in Hcyc. unfold Py.ret in Hcyc. injection Hcyc as <- _.
    destruct (locals_at_entry_unassigned gf se f) as (_ & _ & _ & Hc). congruence.
Qed.

End SolverProperties.

(** With twenty outer passes and one inner pass the toy run raises. *)
Lemma fock_loop_one_inner_cycle_witness :
  fst (fock_loop (Toy.agf2 20 1) Toy.eri (Toy.gf_a, Toy.gf_b) (Toy.se_a, Toy.se_b) None [])
  = Raise (UnboundLocalError "derr").
Proof.
  apply (fock_loop_one_inner_cycle_raises (Toy.agf2 20 1)).
  - reflexivity.
  - reflexivity.
Defined.

(** With no outer pass the toy run raises. *)
Lemma fock_loop_no_outer_cycle_witness :
  fst (fock_loop (Toy.agf2 0 50) Toy.eri (Toy.gf_a, Toy.gf_b) (Toy.se_a, Toy.se_b) None [])
  = Raise (UnboundLocalError "nerra").
Proof.
  apply (fock_loop_no_outer_cycle_raises (Toy.agf2 0 50)).
  cbn. discriminate.
Defined.

(** ** The toy run *)

(** The tabulated decomposition is one: H v = v diag(w) and the
    eigenvectors are orthonormal, entry by entry. *)
Lemma toy_eigh_decomposes :
  forallb
    (fun k =>
       Qc_eqb (sum_n 3 (fun m =>
                 Qcmult (get2 Toy.H_alpha (k / 3) m) (get2 Toy.v_alpha m (k mod 3))))
              (Qcmult (get2 Toy.v_alpha (k / 3) (k mod 3)) (get1 Toy.w_alpha (k mod 3)))
       && Qc_eqb (sum_n 3 (fun m =>
                    Qcmult (get2 Toy.v_alpha m (k / 3)) (get2 Toy.v_alpha m (k mod 3))))
                 (if k / 3 =? k mod 3 then Q2Qc 1 else Q2Qc 0))
    (seq 0 9)
  = true.
Proof. vm_compute. reflexivity. Qed.

(** The alpha extended Hamiltonian of the run is the tabulated matrix. *)
Lemma toy_alpha_hamiltonian :
  Toy.same_array (Toy.get_array Toy.se_a Toy.h1e_a (Q2Qc 0)) Toy.H_alpha = true.
Proof. vm_compute. reflexivity. Qed.

(** C2: [converged = True] should bound the electron-count error of
    each spin by [conv_tol_nelec].  On the toy system the loop converges
    in its first outer pass with the alpha error -1/9 and the beta error
    0: their maximum 0 passes the test, and the alpha error is not within
    the tolerance 1e-6. *)
Theorem fock_loop_converged_despite_alpha_error :
  match fock_loop_locals (Toy.agf2 20 50) Toy.eri (Toy.gf_a, Toy.gf_b)
                         (Toy.se_a, Toy.se_b) None (DIIS_new (Toy.agf2 20 50)) with
  | (Ok l, _) =>
    snd (fock_loop_return l) = true
    /\ option_map this (l_nerra l) = Some (-1 # 9)%Q
    /\ option_map this (l_nerrb l) = Some 0%Q
    /\ option_map (fun e => rltb (rabs e) (conv_tol_nelec (Toy.agf2 20 50))) (l_nerra l)
       = Some false
  | (Raise _, _) => False
  end.
Proof.
  vm_compute. repeat split.
Qed.

(** ** Properties of the moment accumulation *)

Lemma flat_index (x l n : nat) :
  l < n -> (x * n + l) / n = x /\ (x * n + l) mod n = l.
Proof.
  intros Hl. split.
  - symmetry. apply Nat.div_unique with l; lia.
  - symmetry. apply Nat.mod_unique with x; lia.
Qed.

Lemma rows_of_slice (d0 n : nat) : 0 < d0 -> d0 * (n * 1) / d0 = n.
Proof.
  intros H. rewrite Nat.mul_1_r, Nat.mul_comm. apply Nat.div_mul. lia.
Qed.

Section MomentProperties.

Context {R : Type} {SR : Scalar R} {EX : ExactScalar R}.

Add Ring scalar_ring_moments : (@scalar_ring R SR EX).

Lemma sum_n_ext (n : nat) (f g : nat -> R) :
  (forall k, k < n -> f k = g k) -> sum_n n f = sum_n n g.
Proof.
  induction n as [ | n IH]; intros H; simpl.
  - reflexivity.
  - rewrite IH by (intros k Hk; apply H; lia). rewrite H by lia. reflexivity.
Qed.

Lemma sum_n_app (n m : nat) (f : nat -> R) :
  sum_n (n + m) f = radd (sum_n n f) (sum_n m (fun k => f (n + k))).
Proof.
  induction m as [ | m IH].
  - rewrite Nat.add_0_r. simpl. ring.
  - rewrite Nat.add_succ_r. simpl. rewrite IH. ring.
Qed.

(** A sum over the flattened pole pairs [l = j * m + a] is the double
    sum over [j] and [a]. *)
Lemma sum_n_flatten (n m : nat) (f : nat -> nat -> R) :
  sum_n (n * m) (fun k => f (k / m) (k mod m)) = pole_sum n m f.
Proof.
  unfold pole_sum. induction n as [ | n IH].
  - reflexivity.
  - replace (S n * m) with (n * m + m) by lia.
    rewrite sum_n_app, IH. simpl. f_equal.
    apply sum_n_ext. intros k Hk.
    destruct (flat_index n k m Hk) as [-> ->]. reflexivity.
Qed.

(** The number of columns of [q[:, i].reshape(d0, -1)] and of
    [q[:, :, i].reshape(d0, -1)]. *)
Lemma take_axis1_columns (q : ndarray R) (d0 d1 d2 d3 i : nat) :
  shape q = [d0; d1; d2; d3] -> 0 < d0 ->
  dim (reshape_rows (take_axis1 q i) d0) 1 = d2 * d3.
Proof.
  intros Hq Hd0. unfold reshape_rows, take_axis1, dim, size. rewrite Hq.
  cbn [nth shape fold_right].
  replace (d0 * (d2 * (d3 * 1))) with (d0 * ((d2 * d3) * 1)) by lia.
  apply rows_of_slice. exact Hd0.
Qed.

Lemma take_axis2_columns (q : ndarray R) (d0 d1 d2 d3 i : nat) :
  shape q = [d0; d1; d2; d3] -> 0 < d0 ->
  dim (reshape_rows (take_axis2 q i) d0) 1 = d1 * d3.
Proof.
  intros Hq Hd0. unfold reshape_rows, take_axis2, dim, size. rewrite Hq.
  cbn [nth shape fold_right].
  replace (d0 * (d1 * (d3 * 1))) with (d0 * ((d1 * d3) * 1)) by lia.
  apply rows_of_slice. exact Hd0.
Qed.

Lemma get4_of_flat (q : ndarray R) (d0 d1 d2 d3 x i l : nat) :
  shape q = [d0; d1; d2; d3] ->
  get4 q x i (l / d3) (l mod d3) = flat q ((x * d1 + i) * (d2 * d3) + l).
Proof.
  intros Hq. unfold get4, dim. rewrite Hq. cbn [nth]. f_equal.
  pose proof (Nat.div_mod_eq l d3). nia.
Qed.

(** Entry [x, l] of [q[:, i].reshape(d0, -1)] as an entry of [q]. *)
Lemma direct_block_entry (q : ndarray R) (d0 d1 d2 d3 i x l : nat) :
  shape q = [d0; d1; d2; d3] -> 0 < d0 -> l < d2 * d3 ->
  get2 (reshape_rows (take_axis1 q i) d0) x l = get4 q x i (l / d3) (l mod d3).
Proof.
  intros Hq Hd0 Hl.
  rewrite (get4_of_flat q d0 d1 d2 d3 x i l Hq).
  unfold get2. rewrite (take_axis1_columns q d0 d1 d2 d3 i Hq Hd0).
  unfold reshape_rows, take_axis1, dim. rewrite Hq. cbn [nth shape flat].
  destruct (flat_index x l (d2 * d3) Hl) as [-> ->]. reflexivity.
Qed.

(** Entry [y, l] of [q[:, :, i].reshape(d0, -1)] as an entry of [q]. *)
Lemma exchange_block_entry (q : ndarray R) (d0 d1 d2 d3 i y l : nat) :
  shape q = [d0; d1; d2; d3] -> 0 < d0 -> l < d1 * d3 ->
  get2 (reshape_rows (take_axis2 q i) d0) y l = get4 q y (l / d3) i (l mod d3).
Proof.
  intros Hq Hd0 Hl.
  unfold get2 at 1. rewrite (take_axis2_columns q d0 d1 d2 d3 i Hq Hd0).
  unfold get4, reshape_rows, take_axis2, dim. rewrite Hq. cbn [nth shape flat].
  assert (Hlow : l mod d3 < d3) by (apply Nat.mod_upper_bound; nia).
  assert (Hj : l / d3 < d1) by (apply Nat.Div0.div_lt_upper_bound; lia).
  assert (Hk : y * (d1 * d3) + l = (y * d1 + l / d3) * d3 + l mod d3).
  { pose proof (Nat.div_mod_eq l d3). nia. }
  destruct (flat_index y l (d1 * d3) Hl) as [-> _].
  rewrite Hk.
  destruct (flat_index (y * d1 + l / d3) (l mod d3) d3 Hlow) as [-> ->].
  destruct (flat_index y (l / d3) d1 Hj) as [_ ->]. reflexivity.
Qed.

(** Entry [l, y] of the transpose. *)
Lemma transpose_entry (m : ndarray R) (l y : nat) :
  y < dim m 0 -> get2 (transpose m) l y = get2 m y l.
Proof.
  intros Hy. unfold get2. change (dim (transpose m) 1) with (dim m 0).
  unfold transpose. cbn [flat].
  destruct (flat_index l y (dim m 0) Hy) as [-> ->]. reflexivity.
Qed.

(** Entry [x, y] of [lib.dot(a, b, alpha, beta, c)]. *)
Lemma dot_entry (a b c : ndarray R) (alpha beta : R) (x y : nat) :
  y < dim b 1 -> dim c 1 = dim b 1 ->
  get2 (dot a b alpha beta c) x y
  = radd (rmul alpha (sum_n (dim a 1) (fun l => rmul (get2 a x l) (get2 b l y))))
         (rmul beta (get2 c x y)).
Proof.
  intros Hy Hc. unfold get2 at 1. change (dim (dot a b alpha beta c) 1) with (dim b 1).
  unfold dot. cbn [flat].
  destruct (flat_index x y (dim b 1) Hy) as [-> ->].
  unfold get2. rewrite Hc. reflexivity.
Qed.

(** Entry [x, l] of a block weighted by a row vector. *)
Lemma weighted_entry (m v : ndarray R) (x l : nat) :
  l < dim m 1 -> get2 (mul_rowvec m v) x l = rmul (get2 m x l) (flat v l).
Proof.
  intros Hl. unfold get2. change (dim (mul_rowvec m v) 1) with (dim m 1).
  unfold mul_rowvec. cbn [flat].
  destruct (flat_index x l (dim m 1) Hl) as [_ ->]. reflexivity.
Qed.

(** The weight of the pole pair [l] for the hole of energy [e_i]. *)
Lemma pole_weight (e_i : R) (e_o e_v : ndarray R) (l : nat) :
  flat (add_scalar (ravel (direct_sum e_o (neg e_v))) e_i) l
  = pole_energy e_i (get1 e_o (l / dim e_v 0)) (get1 e_v (l mod dim e_v 0)).
Proof.
  unfold pole_energy, get1, add_scalar, ravel, direct_sum, neg, dim.
  cbn [flat shape]. ring.
Qed.

(** A product of a block with the transpose of a block, both with one
    row per physical orbital and one column per pole pair, is a sum over
    the pole pairs. *)
Lemma contract_rows (n m : nat) (a b : ndarray R) (x y : nat) (g : nat -> nat -> R) :
  dim a 1 = n * m -> y < dim b 0 ->
  (forall l, l < n * m -> rmul (get2 a x l) (get2 b y l) = g (l / m) (l mod m)) ->
  sum_n (dim a 1) (fun l => rmul (get2 a x l) (get2 (transpose b) l y)) = pole_sum n m g.
Proof.
  intros Ha Hy Hg. rewrite Ha, <- sum_n_flatten. apply sum_n_ext. intros l Hl.
  rewrite (transpose_entry b l y Hy). apply Hg. exact Hl.
Qed.

(** One pass of the moment loop adds the contribution of its hole to
    every entry of both moments. *)
Lemma moments_step_entries (nmoa noa nva nob nvb : nat)
    (e_oa e_va e_ob e_vb q_same q_cross vv vev : ndarray R) (i x y : nat) :
  shape q_same = [nmoa; noa; noa; nva] ->
  shape q_cross = [nmoa; noa; nob; nvb] ->
  dim e_va 0 = nva -> dim e_vb 0 = nvb ->
  dim vv 1 = nmoa -> dim vev 1 = nmoa ->
  x < nmoa -> y < nmoa ->
  let r := moments_step nmoa e_oa (ravel (direct_sum e_oa (neg e_va)))
                        (ravel (direct_sum e_ob (neg e_vb))) q_same q_cross (vv, vev) i in
  get2 (fst r) x y
  = radd (get2 vv x y) (hole_term_V noa nva nob nvb q_same q_cross x y i)
  /\ get2 (snd r) x y
     = radd (get2 vev x y)
            (hole_term_VE noa nva nob nvb e_oa e_va e_ob e_vb q_same q_cross x y i).
Proof.
  intros Hs Hc Hva Hvb Hvv Hvev Hx Hy. assert (H0 : 0 < nmoa) by lia.
  cbv zeta. unfold moments_step. cbn [fst snd].
  set (A := reshape_rows (take_axis1 q_same i) nmoa).
  set (B := reshape_rows (take_axis2 q_same i) nmoa).
  set (C := reshape_rows (take_axis1 q_cross i) nmoa).
  set (wa := add_scalar (ravel (direct_sum e_oa (neg e_va))) (get1 e_oa i)).
  set (wb := add_scalar (ravel (direct_sum e_ob (neg e_vb))) (get1 e_oa i)).
  assert (HA : dim A 1 = noa * nva)
    by (apply (take_axis1_columns q_same nmoa noa noa nva i Hs H0)).
  assert (HB : dim B 1 = noa * nva)
    by (apply (take_axis2_columns q_same nmoa noa noa nva i Hs H0)).
  assert (HC : dim C 1 = nob * nvb)
    by (apply (take_axis1_columns q_cross nmoa noa nob nvb i Hc H0)).
  assert (EA : forall z l, l < noa * nva ->
                 get2 A z l = get4 q_same z i (l / nva) (l mod nva))
    by (intros z l Hl; apply (direct_block_entry q_same nmoa noa noa nva i z l Hs H0 Hl)).
  assert (EB : forall z l, l < noa * nva ->
                 get2 B z l = get4 q_same z (l / nva) i (l mod nva))
    by (intros z l Hl; apply (exchange_block_entry q_same nmoa noa noa nva i z l Hs H0 Hl)).
  assert (EC : forall z l, l < nob * nvb ->
                 get2 C z l = get4 q_cross z i (l / nvb) (l mod nvb))
    by (intros z l Hl; apply (direct_block_entry q_cross nmoa noa nob nvb i z l Hc H0 Hl)).
  assert (WA : forall l, flat wa l
                 = pole_energy (get1 e_oa i) (get1 e_oa (l / nva)) (get1 e_va (l mod nva)))
    by (intros l; unfold wa; rewrite pole_weight, Hva; reflexivity).
  assert (WB : forall l, flat wb l
                 = pole_energy (get1 e_oa i) (get1 e_ob (l / nvb)) (get1 e_vb (l mod nvb)))
    by (intros l; unfold wb; rewrite pole_weight, Hvb; reflexivity).
  split.
  - rewrite (dot_entry C (transpose C) _ rone rone x y) by (first [exact Hy | reflexivity]).
    rewrite (dot_entry A (transpose B) _ (ropp rone) rone x y)
      by (first [exact Hy | reflexivity]).
    rewrite (dot_entry A (transpose A) vv rone rone x y) by (first [exact Hy | exact Hvv]).
    rewrite (contract_rows nob nvb C C x y
               (fun j a => rmul (get4 q_cross x i j a) (get4 q_cross y i j a)) HC Hy)
      by (intros l Hl; rewrite !EC by exact Hl; reflexivity).
    rewrite (contract_rows noa nva A B x y
               (fun j a => rmul (get4 q_same x i j a) (get4 q_same y j i a)) HA Hy)
      by (intros l Hl; rewrite EA, EB by exact Hl; reflexivity).
    rewrite (contract_rows noa nva A A x y
               (fun j a => rmul (get4 q_same x i j a) (get4 q_same y i j a)) HA Hy)
      by (intros l Hl; rewrite !EA by exact Hl; reflexivity).
    unfold hole_term_V. ring.
  - rewrite (dot_entry (mul_rowvec C wb) (transpose C) _ rone rone x y)
      by (first [exact Hy | reflexivity]).
    rewrite (dot_entry (mul_rowvec A wa) (transpose B) _ (ropp rone) rone x y)
      by (first [exact Hy | reflexivity]).
    rewrite (dot_entry (mul_rowvec A wa) (transpose A) vev rone rone x y)
      by (first [exact Hy | exact Hvev]).
    rewrite (contract_rows nob nvb (mul_rowvec C wb) C x y
               (fun j a =>
                  rmul (rmul (get4 q_cross x i j a)
                             (pole_energy (get1 e_oa i) (get1 e_ob j) (get1 e_vb a)))
                       (get4 q_cross y i j a)) HC Hy)
      by (intros l Hl; rewrite weighted_entry by (rewrite HC; exact Hl);
          rewrite !EC, WB by exact Hl; reflexivity).
    rewrite (contract_rows noa nva (mul_rowvec A wa) B x y
               (fun j a =>
                  rmul (rmul (get4 q_same x i j a)
                             (pole_energy (get1 e_oa i) (get1 e_oa j) (get1 e_va a)))
                       (get4 q_same y j i a)) HA Hy)
      by (intros l Hl; rewrite weighted_entry by (rewrite HA; exact Hl);
          rewrite EA, EB, WA by exact Hl; reflexivity).
    rewrite (contract_rows noa nva (mul_rowvec A wa) A x y
               (fun j a =>
                  rmul (rmul (get4 q_same x i j a)
                             (pole_energy (get1 e_oa i) (get1 e_oa j) (get1 e_va a)))
                       (get4 q_same y i j a)) HA Hy)
      by (intros l Hl; rewrite weighted_entry by (rewrite HA; exact Hl);
          rewrite !EA, WA by exact Hl; reflexivity).
    unfold hole_term_VE. cbv zeta. ring.
Qed.

(** After the passes for the holes below [n], every entry of the two
    moments is the sum of the contributions of those holes. *)
Lemma accumulate_prefix (nmoa noa nva nob nvb : nat)
    (e_oa e_va e_ob e_vb q_same q_cross : ndarray R) (n : nat) :
  shape q_same = [nmoa; noa; noa; nva] ->
  shape q_cross = [nmoa; noa; nob; nvb] ->
  dim e_va 0 = nva -> dim e_vb 0 = nvb ->
  let r := fold_left (moments_step nmoa e_oa (ravel (direct_sum e_oa (neg e_va)))
                                   (ravel (direct_sum e_ob (neg e_vb))) q_same q_cross)
                     (seq 0 n) (zeros [nmoa; nmoa], zeros [nmoa; nmoa]) in
  dim (fst r) 1 = nmoa /\ dim (snd r) 1 = nmoa
  /\ forall x y, x < nmoa -> y < nmoa ->
       get2 (fst r) x y = sum_n n (hole_term_V noa nva nob nvb q_same q_cross x y)
       /\ get2 (snd r) x y
          = sum_n n (hole_term_VE noa nva nob nvb e_oa e_va e_ob e_vb q_same q_cross x y).
Proof.
  intros Hs Hc Hva Hvb. cbv zeta. induction n as [ | n IH].
  - cbn [seq fold_left fst snd]. split; [reflexivity | split; [reflexivity | ] ].
    intros x y _ _. split; reflexivity.
  - rewrite seq_S, fold_left_app. cbn [fold_left Nat.add].
    destruct IH as (Hvv & Hvev & Hentries).
    destruct (fold_left _ (seq 0 n) _) as [vv vev]. cbn [fst snd] in Hvv, Hvev, Hentries.
    split; [reflexivity | split; [reflexivity | ] ].
    intros x y Hx Hy.
    destruct (moments_step_entries nmoa noa nva nob nvb e_oa e_va e_ob e_vb
                q_same q_cross vv vev n x y Hs Hc Hva Hvb Hvv Hvev Hx Hy) as [HV HVE].
    destruct (Hentries x y Hx Hy) as [HV0 HVE0].
    cbv zeta in HV, HVE. rewrite HV, HVE, HV0, HVE0. split; reflexivity.
Qed.

(** C4: for every spin and either build direction, the entries of the
    two moment matrices accumulated by [_build_se_part_spin] from the
    quasi-particle tensors of that spin are those of the specification:
    the zeroth moment sums, over the same-spin holes, the direct term
    minus the exchange term plus the cross-spin direct term, and the
    first moment has the same terms with the block weighted by the
    combined pole energy. *)
Theorem spin_moments_are_the_moments (agf2 : UAGF2 R)
    (gf_occ gf_vir : GreensFunction R * GreensFunction R) (spin : Z)
    (q_same q_cross : ndarray R) (x y : nat) :
  let nmoa := fst (by_spin spin (nmo agf2)) in
  let gfo_a := fst (by_spin spin gf_occ) in
  let gfo_b := snd (by_spin spin gf_occ) in
  let gfv_a := fst (by_spin spin gf_vir) in
  let gfv_b := snd (by_spin spin gf_vir) in
  shape q_same = [nmoa; gf_naux gfo_a; gf_naux gfo_a; gf_naux gfv_a] ->
  shape q_cross = [nmoa; gf_naux gfo_a; gf_naux gfo_b; gf_naux gfv_b] ->
  x < nmoa -> y < nmoa ->
  get2 (fst (spin_moments agf2 gf_occ gf_vir spin q_same q_cross)) x y
  = moment_V (gf_naux gfo_a) (gf_naux gfv_a) (gf_naux gfo_b) (gf_naux gfv_b)
             q_same q_cross x y
  /\ get2 (snd (spin_moments agf2 gf_occ gf_vir spin q_same q_cross)) x y
     = moment_VE (gf_naux gfo_a) (gf_naux gfv_a) (gf_naux gfo_b) (gf_naux gfv_b)
                 (gf_energy gfo_a) (gf_energy gfv_a) (gf_energy gfo_b) (gf_energy gfv_b)
                 q_same q_cross x y.
Proof.
  cbv zeta. unfold spin_moments, accumulate_moments, moment_V, moment_VE.
  destruct (by_spin spin (nmo agf2)) as [nmoa nmob].
  destruct (by_spin spin gf_occ) as [gfo_a gfo_b].
  destruct (by_spin spin gf_vir) as [gfv_a gfv_b].
  cbn [fst snd]. intros Hs Hc Hx Hy.
  destruct (accumulate_prefix nmoa (gf_naux gfo_a) (gf_naux gfv_a) (gf_naux gfo_b)
              (gf_naux gfv_b) (gf_energy gfo_a) (gf_energy gfv_a) (gf_energy gfo_b)
              (gf_energy gfv_b) q_same q_cross (gf_naux gfo_a) Hs Hc eq_refl eq_refl)
    as (_ & _ & Hentries).
  apply (Hentries x y Hx Hy).
Qed.

End MomentProperties.

(** Entry (0, 1) of the two alpha moments of the toy tensors. *)
Lemma spin_moments_are_the_moments_witness :
  get2 (fst (spin_moments (Toy.agf2 20 50) (Toy.occ_a, Toy.occ_b) (Toy.vir_a, Toy.vir_b) 0
                          Toy.q_same Toy.q_cross)) 0 1
  = moment_V 2 2 1 2 Toy.q_same Toy.q_cross 0 1
  /\ get2 (snd (spin_moments (Toy.agf2 20 50) (Toy.occ_a, Toy.occ_b) (Toy.vir_a, Toy.vir_b) 0
                             Toy.q_same Toy.q_cross)) 0 1
     = moment_VE 2 2 1 2 (gf_energy Toy.occ_a) (gf_energy Toy.vir_a)
                 (gf_energy Toy.occ_b) (gf_energy Toy.vir_b) Toy.q_same Toy.q_cross 0 1.
Proof.
  apply (spin_moments_are_the_moments (R := Qc) (Toy.agf2 20 50) (Toy.occ_a, Toy.occ_b)
           (Toy.vir_a, Toy.vir_b) 0 Toy.q_same Toy.q_cross 0 1).
  - reflexivity.
  - reflexivity.
  - cbn. lia.
  - cbn. lia.
Defined.

(** ** Instances of the general statements on the toy system *)

(** The toy run with twenty outer passes returns what its cycles left. *)
Lemma fock_loop_returns_after_cycles_witness :
  match fock_loop_cycles (Toy.agf2 20 50) Toy.eri (Toy.gf_a, Toy.gf_b)
                         (Toy.se_a, Toy.se_b) None (DIIS_new (Toy.agf2 20 50)) with
  | (Ok l, d) =>
    fock_loop (Toy.agf2 20 50) Toy.eri (Toy.gf_a, Toy.gf_b) (Toy.se_a, Toy.se_b) None []
    = (Ok (l_gf l, (l_sea l, l_seb l), l_converged l), [] ++ [d])
  | (Raise _, _) => True
  end.
Proof.
  destruct (fock_loop_cycles (Toy.agf2 20 50) Toy.eri (Toy.gf_a, Toy.gf_b)
                             (Toy.se_a, Toy.se_b) None (DIIS_new (Toy.agf2 20 50)))
    as [[l | e] d] eqn:Hrun.
  - apply (fock_loop_returns_after_cycles (Toy.agf2 20 50)).
    + reflexivity.
    + exact Hrun.
  - exact I.
Defined.

Lemma toy_run_converges :
  match fock_loop_locals (Toy.agf2 20 50) Toy.eri (Toy.gf_a, Toy.gf_b)
                         (Toy.se_a, Toy.se_b) None (DIIS_new (Toy.agf2 20 50)) with
  | (Ok l, _) => l_converged l = true
  | (Raise _, _) => False
  end.
Proof. vm_compute. reflexivity. Qed.

(** The toy run converges, so the larger of its two errors is bounded. *)
Lemma converged_bounds_the_larger_error_witness :
  match fock_loop_locals (Toy.agf2 20 50) Toy.eri (Toy.gf_a, Toy.gf_b)
                         (Toy.se_a, Toy.se_b) None (DIIS_new (Toy.agf2 20 50)) with
  | (Ok l, _) =>
    exists nerra nerrb,
      l_nerra l = Some nerra /\ l_nerrb l = Some nerrb
      /\ rltb (rabs (Py.max2 rltb nerra nerrb)) (conv_tol_nelec (Toy.agf2 20 50)) = true
  | (Raise _, _) => True
  end.
Proof.
  pose proof toy_run_converges as Hconv.
  destruct (fock_loop_locals (Toy.agf2 20 50) Toy.eri (Toy.gf_a, Toy.gf_b)
                             (Toy.se_a, Toy.se_b) None (DIIS_new (Toy.agf2 20 50)))
    as [[l | e] d] eqn:Hrun.
  - apply (converged_bounds_the_larger_error (Toy.agf2 20 50) Toy.eri (Toy.gf_a, Toy.gf_b)
             (Toy.se_a, Toy.se_b) None (DIIS_new (Toy.agf2 20 50)) d l Hrun).
    exact Hconv.
  - exact I.
Defined.

(** The chemical potentials of the symmetric toy system. *)
Lemma init_aux_chempots_witness :
  match init_aux Toy.agf2_symmetric Toy.eri_symmetric false with
  | Ok (gf, _) =>
    gf_chempot (fst gf) = fst (chempot_binsearch (FockMatrix Toy.h1e_b) 2 1 1)
    /\ gf_chempot (snd gf) = snd (chempot_binsearch (FockMatrix Toy.h1e_b) 2 1 1)
  | Raise _ => True
  end.
Proof.
  destruct (init_aux Toy.agf2_symmetric Toy.eri_symmetric false) as [[gf se] | e] eqn:Hrun.
  - apply (init_aux_chempots Toy.agf2_symmetric Toy.eri_symmetric false gf se Hrun).
  - exact I.
Defined.

(** ** Further properties of the Fock loop *)

Section LoopOutcomes.

Context {S L : Type}.

(** A loop whose passes, from states satisfying [P], return into [P] or
    raise within [E], returns into [P] or raises within [E]. *)
Lemma for_each_outcome (P : L -> Prop) (E : Py.exn -> Prop)
    (body : Z -> L -> Py.M S (bool * L)) :
  (forall x l s, P l ->
     match body x l s with
     | (Ok (_, l'), _) => P l'
     | (Raise e, _) => E e
     end) ->
  forall xs l s, P l ->
    match Py.for_each xs body l s with
    | (Ok l', _) => P l'
    | (Raise e, _) => E e
    end.
Proof.
  intros Hbody xs. induction xs as [ | x rest IH]; intros l s HP.
  - exact HP.
  - cbn [Py.for_each]. unfold Py.bindM.
    specialize (Hbody x l s HP).
    destruct (body x l s) as [[[brk l1] | e] s1]; [ | exact Hbody].
    cbn [fst snd]. destruct brk.
    + exact Hbody.
    + apply IH. exact Hbody.
Qed.

End LoopOutcomes.

Section LoopReturns.

Context {R : Type} {SR : Scalar R} {X : Collaborators R}.

(** What one pass of the inner loop leaves besides the error measures:
    the previous density matrices are assigned unless the pass breaks,
    the new Green's functions carry the chemical potentials of the
    self-energies; the pass raises only on a missing previous density
    matrix or on an empty one. *)
Lemma inner_body_outcome (agf2 : UAGF2 R) (eri : _ChemistsERIs R) (n : Z) (l : locals)
    (d : DIIS R) :
  match inner_body agf2 eri n l d with
  | (Ok (brk, l'), _) =>
    chempots_agree l'
    /\ (brk = false -> previous_assigned l')
    /\ (brk = true ->
        l_rdm1a_prev l' = l_rdm1a_prev l /\ l_rdm1b_prev l' = l_rdm1b_prev l)
  | (Raise e, _) => previous_assigned l -> is_value_error e
  end.
Proof.
  unfold inner_body.
  destruct (nocc agf2) as [nalph nbeta].
  destruct (nmo agf2) as [nmoa nmob].
  destruct (aux_eig (l_sea l) (l_focka l) (Some (rlit 0))) as [wa va].
  destruct (aux_eig (l_seb l) (l_fockb l) (Some (rlit 0))) as [wb vb].
  destruct (chempot_binsearch (FockEig wa va) nmoa nalph 1) as [mua nerra].
  destruct (chempot_binsearch (FockEig wb vb) nmob nbeta 1) as [mub nerrb].
  destruct (aux_eig (se_with_chempot (l_sea l) mua) (l_focka l) None) as [wa' va'].
  destruct (aux_eig (se_with_chempot (l_seb l) mub) (l_fockb l) None) as [wb' vb'].
  match goal with |- context [UAGF2_get_fock agf2 eri (Some ?g) None] =>
    destruct (get_fock_gf_returns agf2 eri g None) as [f Hf];
    unfold UAGF2_get_fock; rewrite Hf; set (gf' := g) end.
  destruct (make_rdm1 gf') as [rdm1a rdm1b].
  unfold Py.bindM at 1. unfold Py.lift at 1.
  unfold Py.bindM at 1. unfold diis_step.
  destruct (diis_update d (stack2 (fst f) (snd f))) as [x d'].
  destruct (1 <? n)%Z.
  - cbn [l_rdm1a_prev l_rdm1b_prev].
    unfold Py.bindM, Py.lift.
    destruct (l_rdm1a_prev l) as [pa | ] eqn:Hpa; cbn [load_fast];
      [ | intros [H _]; unfold previous_assigned in *; congruence].
    destruct (max_abs (sub rdm1a pa)) as [derra | e] eqn:Hma;
      [ | intros _; unfold max_abs in Hma; destruct (size (sub rdm1a pa));
          [injection Hma as <-; eexists; reflexivity | discriminate Hma] ].
    destruct (l_rdm1b_prev l) as [pb | ] eqn:Hpb; cbn [load_fast];
      [ | intros [_ H]; congruence].
    destruct (max_abs (sub rdm1b pb)) as [derrb | e] eqn:Hmb;
      [ | intros _; unfold max_abs in Hmb; destruct (size (sub rdm1b pb));
          [injection Hmb as <-; eexists; reflexivity | discriminate Hmb] ].
    destruct (rltb (Py.max2 rltb derra derrb) (conv_tol_rdm1 agf2));
      unfold Py.ret; cbn [fst snd].
    + split; [split; reflexivity | ]. split; [discriminate | ].
      intros _. cbn. split; reflexivity.
    + split; [split; reflexivity | ]. split; [ | discriminate].
      intros _. split; cbn; discriminate.
  - unfold Py.ret; cbn [fst snd].
    split; [split; reflexivity | ]. split; [ | discriminate].
    intros _. split; cbn; discriminate.
Qed.

(** The first pass of an inner loop never breaks and never raises, and
    leaves the previous density matrices assigned. *)
Lemma inner_first_pass (agf2 : UAGF2 R) (eri : _ChemistsERIs R) (l : locals) (d : DIIS R) :
  match inner_body agf2 eri 1 l d with
  | (Ok (brk, l'), _) => brk = false /\ previous_assigned l'
  | (Raise _, _) => False
  end.
Proof.
  pose proof (inner_body_cases agf2 eri 1 l d) as Hc.
  pose proof (inner_body_outcome agf2 eri 1 l d) as Ho.
  destruct (inner_body agf2 eri 1 l d) as [[[brk l'] | e] d']; [ | discriminate Hc].
  destruct Hc as (_ & _ & _ & Hfirst & _). destruct (Hfirst eq_refl) as (-> & _).
  split; [reflexivity | ]. apply Ho. reflexivity.
Qed.

(** A later pass, or any pass once the density-matrix change has a value,
    leaves everything assigned that the logging call reads, and raises
    only on an empty density matrix. *)
Lemma inner_pass_complete (agf2 : UAGF2 R) (eri : _ChemistsERIs R) (n : Z) (l : locals)
    (d : DIIS R) :
  previous_assigned l ->
  (1 <? n)%Z = true \/ l_derr l <> None ->
  match inner_body agf2 eri n l d with
  | (Ok (_, l'), _) => pass_complete l'
  | (Raise e, _) => is_value_error e
  end.
Proof.
  intros Hprev Hn.
  pose proof (inner_body_cases agf2 eri n l d) as Hc.
  pose proof (inner_body_outcome agf2 eri n l d) as Ho.
  destruct (inner_body agf2 eri n l d) as [[[brk l'] | e] d']; [ | apply Ho; exact Hprev].
  destruct Hc as ((a & b & _ & _ & Hnerr) & Hiter & _ & Hfirst & Hlater).
  destruct Ho as (_ & Hkeep & Hbreak).
  split; [ | split; [congruence | split; [congruence | ] ] ].
  - destruct brk.
    + destruct (Hbreak eq_refl) as [Ha Hb]. destruct Hprev as [Hpa Hpb].
      split; congruence.
    + apply Hkeep. reflexivity.
  - destruct (1 <? n)%Z.
    + destruct (Hlater eq_refl) as (a' & b' & _ & _ & Hderr & _). congruence.
    + destruct (Hfirst eq_refl) as (_ & Hderr & _).
      destruct Hn as [Hn | Hn]; [discriminate Hn | congruence].
Qed.

Lemma range1_two (n : Z) :
  (2 <= n)%Z -> exists rest, Py.range1 n = 1%Z :: 2%Z :: rest.
Proof.
  intros Hn. unfold Py.range1.
  destruct (Z.to_nat n) as [ | [ | k] ] eqn:Hk; [lia | lia | ].
  cbn [seq map]. eexists. reflexivity.
Qed.

(** An inner loop of at least two passes leaves everything assigned that
    the logging call reads, and raises only on an empty density matrix. *)
Lemma inner_loop_outcome (agf2 : UAGF2 R) (eri : _ChemistsERIs R) (l : locals) (d : DIIS R) :
  (2 <= max_cycle_inner agf2)%Z ->
  match Py.for_each (Py.range1 (max_cycle_inner agf2)) (inner_body agf2 eri) l d with
  | (Ok l', _) => pass_complete l'
  | (Raise e, _) => is_value_error e
  end.
Proof.
  intros Hinner. destruct (range1_two _ Hinner) as [rest ->].
  cbn [Py.for_each]. unfold Py.bindM at 1.
  pose proof (inner_first_pass agf2 eri l d) as H1.
  destruct (inner_body agf2 eri 1 l d) as [[[brk l1] | e] d1]; [ | contradiction].
  destruct H1 as [-> Hprev1]. cbn [fst snd]. unfold Py.bindM at 1.
  pose proof (inner_pass_complete agf2 eri 2 l1 d1 Hprev1 (or_introl eq_refl)) as H2.
  destruct (inner_body agf2 eri 2 l1 d1) as [[[brk l2] | e] d2]; [ | exact H2].
  cbn [fst snd]. destruct brk; [exact H2 | ].
  apply (for_each_outcome pass_complete is_value_error (inner_body agf2 eri)); [ | exact H2].
  intros x l0 s Hl0. apply inner_pass_complete.
  - apply Hl0.
  - right. apply Hl0.
Qed.

(** With at least two inner passes, an outer pass raises only on an
    empty density matrix. *)
Lemma outer_body_outcome (agf2 : UAGF2 R) (eri : _ChemistsERIs R) (n : Z) (l : locals)
    (d : DIIS R) :
  (2 <= max_cycle_inner agf2)%Z ->
  match outer_body agf2 eri n l d with
  | (Ok (_, _), _) => True
  | (Raise e, _) => is_value_error e
  end.
Proof.
  intros Hinner. unfold outer_body.
  destruct (nocc agf2) as [nalph nbeta].
  unfold Py.bindM at 1.
  match goal with |- context [Py.for_each ?xs ?body ?l0 d] =>
    pose proof (inner_loop_outcome agf2 eri l0 d Hinner) as Hloop;
    destruct (Py.for_each xs body l0 d) as [[l1 | e] d1]; [ | exact Hloop]
  end.
  destruct Hloop as (_ & Hnerr & Hiter & Hderr).
  unfold Py.bindM, Py.lift.
  destruct (l_niter2 l1) as [k | ]; [ | congruence].
  destruct (l_nerr l1) as [nerr | ]; [ | congruence].
  destruct (l_derr l1) as [derr | ]; [ | congruence].
  cbn [load_fast].
  destruct (rltb derr (conv_tol_rdm1 agf2) && rltb (rabs nerr) (conv_tol_nelec agf2));
    exact I.
Qed.

(** Without an inner pass, the loop counter is unassigned when
    [log.debug1] reads it. *)
Lemma outer_body_no_inner_cycle (agf2 : UAGF2 R) (eri : _ChemistsERIs R) (n : Z)
    (l : locals) (d : DIIS R) :
  (max_cycle_inner agf2 <= 0)%Z ->
  l_niter2 l = None ->
  fst (outer_body agf2 eri n l d) = Raise (UnboundLocalError "niter2").
Proof.
  intros Hinner Hiter. unfold outer_body. rewrite (range1_nonpositive _ Hinner).
  destruct (nocc agf2) as [nalph nbeta].
  unfold Py.bindM at 1. cbn [Py.for_each]. unfold Py.ret at 1.
  unfold Py.bindM, Py.lift. cbn [l_niter2]. rewrite Hiter. reflexivity.
Qed.

Lemma locals_at_entry_counter (gf : GreensFunction R * GreensFunction R)
    (se : SelfEnergy R * SelfEnergy R) (f : ndarray R * ndarray R) :
  l_niter2 (locals_at_entry gf se f) = None.
Proof.
  destruct f as [focka fockb]. destruct se as [sea seb]. reflexivity.
Qed.

(** The cycles of [fock_loop]: the entry Fock matrices, then the outer
    loop from the entry locals. *)
Lemma fock_loop_cycles_unfold (agf2 : UAGF2 R) (eri : _ChemistsERIs R)
    (gf : GreensFunction R * GreensFunction R) (se : SelfEnergy R * SelfEnergy R)
    (get_fock_arg : option (_ChemistsERIs R -> GreensFunction R * GreensFunction R ->
                            result (ndarray R * ndarray R)))
    (d : DIIS R) :
  fock_loop_cycles agf2 eri gf se get_fock_arg d
  = match entry_fock agf2 get_fock_arg eri gf with
    | Ok f => Py.for_each (Py.range1 (max_cycle_outer agf2)) (outer_body agf2 eri)
                          (locals_at_entry gf se f) d
    | Raise e => (Raise e, d)
    end.
Proof.
  unfold fock_loop_cycles, entry_fock, Py.bindM, Py.lift.
  destruct get_fock_arg as [g | ].
  - destruct (g eri gf); reflexivity.
  - destruct (UAGF2_get_fock agf2 eri (Some gf) None); reflexivity.
Qed.

(** An exception raised by the cycles leaves [fock_loop]. *)
Lemma fock_loop_cycles_raise (agf2 : UAGF2 R) (eri : _ChemistsERIs R)
    (gf : GreensFunction R * GreensFunction R) (se : SelfEnergy R * SelfEnergy R)
    (get_fock_arg : option (_ChemistsERIs R -> GreensFunction R * GreensFunction R ->
                            result (ndarray R * ndarray R)))
    (w : world) (e : Py.exn) :
  fst (fock_loop_cycles agf2 eri gf se get_fock_arg (DIIS_new agf2)) = Raise e ->
  fst (fock_loop agf2 eri gf se get_fock_arg w) = Raise e.
Proof.
  intros Hrun. unfold fock_loop, fock_loop_locals. unfold Py.bindM at 1.
  destruct (fock_loop_cycles agf2 eri gf se get_fock_arg (DIIS_new agf2))
    as [[l | e'] d]; cbn [fst] in Hrun; [discriminate Hrun | ].
  injection Hrun as ->. reflexivity.
Qed.

(** An exception raised by the first outer pass leaves [fock_loop]. *)
Lemma first_pass_raise (agf2 : UAGF2 R) (eri : _ChemistsERIs R)
    (gf : GreensFunction R * GreensFunction R) (se : SelfEnergy R * SelfEnergy R)
    (get_fock_arg : option (_ChemistsERIs R -> GreensFunction R * GreensFunction R ->
                            result (ndarray R * ndarray R)))
    (w : world) (f : ndarray R * ndarray R) (e : Py.exn) :
  (0 < max_cycle_outer agf2)%Z ->
  entry_fock agf2 get_fock_arg eri gf = Ok f ->
  fst (outer_body agf2 eri 1 (locals_at_entry gf se f) (DIIS_new agf2)) = Raise e ->
  fst (fock_loop agf2 eri gf se get_fock_arg w) = Raise e.
Proof.
  intros Hpos Hf Hraise. apply fock_loop_cycles_raise.
  rewrite fock_loop_cycles_unfold, Hf.
  destruct (range1_positive _ Hpos) as [rest ->].
  cbn [Py.for_each]. unfold Py.bindM.
  destruct (outer_body agf2 eri 1 (locals_at_entry gf se f) (DIIS_new agf2))
    as [[r | e'] d1]; cbn [fst] in Hraise; [discriminate Hraise | ].
  injection Hraise as ->. reflexivity.
Qed.

(** X4: [fock_loop] can return only when it is configured with at least
    one outer pass and at least two inner passes; with any other limits
    it raises, whatever the system. *)
Theorem fock_loop_returns_only_with_passes (agf2 : UAGF2 R) (eri : _ChemistsERIs R)
    (gf : GreensFunction R * GreensFunction R) (se : SelfEnergy R * SelfEnergy R)
    (get_fock_arg : option (_ChemistsERIs R -> GreensFunction R * GreensFunction R ->
                            result (ndarray R * ndarray R)))
    (w : world) :
  Py.returns (fst (fock_loop agf2 eri gf se get_fock_arg w)) = true ->
  (1 <= max_cycle_outer agf2)%Z /\ (2 <= max_cycle_inner agf2)%Z.
Proof.
  intros Hret.
  destruct (entry_fock agf2 get_fock_arg eri gf) as [f | e] eqn:Hf.
  - destruct (Z_lt_le_dec 0 (max_cycle_outer agf2)) as [Hpos | Hnone].
    + split; [lia | ].
      destruct (Z_lt_le_dec 1 (max_cycle_inner agf2)) as [Htwo | Hfew]; [lia | ].
      exfalso.
      destruct (locals_at_entry_unassigned gf se f) as (_ & _ & Hderr & _).
      destruct (Z.eq_dec (max_cycle_inner agf2) 1) as [Hone | Hnot].
      * rewrite (first_pass_raise agf2 eri gf se get_fock_arg w f _ Hpos Hf
                   (outer_body_one_inner_cycle agf2 eri 1 _ _ Hone Hderr)) in Hret.
        discriminate Hret.
      * assert (Hzero : (max_cycle_inner agf2 <= 0)%Z) by lia.
        rewrite (first_pass_raise agf2 eri gf se get_fock_arg w f _ Hpos Hf
                   (outer_body_no_inner_cycle agf2 eri 1 _ _ Hzero
                      (locals_at_entry_counter gf se f))) in Hret.
        discriminate Hret.
    + exfalso.
      assert (Hraise : fst (fock_loop agf2 eri gf se get_fock_arg w)
                       = Raise (UnboundLocalError "nerra")).
      { unfold fock_loop, fock_loop_locals. unfold Py.bindM at 1.
        rewrite fock_loop_cycles_unfold, Hf, (range1_nonpositive _ Hnone).
        cbn [Py.for_each]. unfold Py.ret at 1.
        destruct (locals_at_entry_unassigned gf se f) as (Hnerra & _).
        unfold Py.bindM, Py.lift. rewrite Hnerra. reflexivity. }
      rewrite Hraise in Hret. discriminate Hret.
  - exfalso.
    assert (Hraise : fst (fock_loop agf2 eri gf se get_fock_arg w) = Raise e).
    { apply fock_loop_cycles_raise. rewrite fock_loop_cycles_unfold, Hf. reflexivity. }
    rewrite Hraise in Hret. discriminate Hret.
Qed.

(** X5: configured with at least one outer pass and at least two inner
    passes, [fock_loop] returns, unless [np.max] meets an empty density
    matrix: the only exception left is its [ValueError]. *)
Theorem fock_loop_raises_only_value_error (agf2 : UAGF2 R) (eri : _ChemistsERIs R)
    (gf : GreensFunction R * GreensFunction R) (se : SelfEnergy R * SelfEnergy R)
    (w : world) :
  (1 <= max_cycle_outer agf2)%Z ->
  (2 <= max_cycle_inner agf2)%Z ->
  match fst (fock_loop agf2 eri gf se None w) with
  | Ok _ => True
  | Raise e => is_value_error e
  end.
Proof.
  intros Houter Hinner.
  assert (Hpos : (0 < max_cycle_outer agf2)%Z) by lia.
  pose proof (for_each_outcome (fun _ : locals => True) is_value_error
                (outer_body agf2 eri)
                (fun x l s _ => outer_body_outcome agf2 eri x l s Hinner)) as Hloop.
  destruct (get_fock_gf_returns agf2 eri gf None) as [f Hf].
  specialize (Hloop (Py.range1 (max_cycle_outer agf2)) (locals_at_entry gf se f)
                    (DIIS_new agf2) I).
  assert (Hcyc : fock_loop_cycles agf2 eri gf se None (DIIS_new agf2)
                 = Py.for_each (Py.range1 (max_cycle_outer agf2)) (outer_body agf2 eri)
                               (locals_at_entry gf se f) (DIIS_new agf2)).
  { rewrite fock_loop_cycles_unfold. unfold entry_fock, UAGF2_get_fock. rewrite Hf.
    reflexivity. }
  destruct (fock_loop_cycles agf2 eri gf se None (DIIS_new agf2)) as [[l | e] d] eqn:Hrun.
  - destruct (cycles_returned agf2 eri gf se None _ d l Hpos Hrun)
      as ((Hn & Hd) & nerr & derr & Hnerr & Hderr & _).
    destruct (Hn nerr Hnerr) as (a & b & Ha & Hb & _).
    destruct (Hd derr Hderr) as (a' & b' & Ha' & Hb' & _).
    unfold fock_loop, fock_loop_locals. unfold Py.bindM at 1. rewrite Hrun.
    unfold Py.bindM, Py.lift. rewrite Ha, Ha', Hb, Hb'. exact I.
  - rewrite (fock_loop_cycles_raise agf2 eri gf se None w e)
      by (rewrite Hrun; reflexivity).
    rewrite <- Hcyc in Hloop. exact Hloop.
Qed.

(** A returning [fock_loop] went through cycles that returned the locals
    it answers from. *)
Lemma fock_loop_returned (agf2 : UAGF2 R) (eri : _ChemistsERIs R)
    (gf : GreensFunction R * GreensFunction R) (se : SelfEnergy R * SelfEnergy R)
    (get_fock_arg : option (_ChemistsERIs R -> GreensFunction R * GreensFunction R ->
                            result (ndarray R * ndarray R)))
    (w : world)
    (r : GreensFunction R * GreensFunction R * (SelfEnergy R * SelfEnergy R) * bool) :
  fst (fock_loop agf2 eri gf se get_fock_arg w) = Ok r ->
  exists f l d,
    entry_fock agf2 get_fock_arg eri gf = Ok f
    /\ Py.for_each (Py.range1 (max_cycle_outer agf2)) (outer_body agf2 eri)
                   (locals_at_entry gf se f) (DIIS_new agf2) = (Ok l, d)
    /\ r = fock_loop_return l.
Proof.
  intros Hret. unfold fock_loop, fock_loop_locals in Hret.
  unfold Py.bindM at 1 in Hret. rewrite fock_loop_cycles_unfold in Hret.
  destruct (entry_fock agf2 get_fock_arg eri gf) as [f | e] eqn:Hf;
    [ | discriminate Hret].
  destruct (Py.for_each (Py.range1 (max_cycle_outer agf2)) (outer_body agf2 eri)
                        (locals_at_entry gf se f) (DIIS_new agf2)) as [[l | e] d] eqn:Hloop;
    [ | discriminate Hret].
  exists f, l, d. split; [reflexivity | split; [exact Hloop | ] ].
  unfold Py.bindM, Py.lift, Py.ret in Hret.
  destruct (load_fast "nerra" (l_nerra l)); [ | discriminate Hret].
  destruct (load_fast "derra" (l_derra l)); [ | discriminate Hret].
  destruct (load_fast "nerrb" (l_nerrb l)); [ | discriminate Hret].
  destruct (load_fast "derrb" (l_derrb l)); [ | discriminate Hret].
  cbn [fst Py.bind] in Hret. injection Hret as <-. reflexivity.
Qed.

(** An outer pass with at least one inner pass leaves Green's functions
    and self-energies with equal chemical potentials. *)
Lemma outer_body_chempots (agf2 : UAGF2 R) (eri : _ChemistsERIs R) (n : Z) (l l' : locals)
    (d d' : DIIS R) (brk : bool) :
  (1 <= max_cycle_inner agf2)%Z ->
  outer_body agf2 eri n l d = (Ok (brk, l'), d') ->
  chempots_agree l'.
Proof.
  intros Hinner Hrun. unfold outer_body in Hrun.
  destruct (nocc agf2) as [nalph nbeta].
  unfold Py.bindM at 1 in Hrun.
  destruct (range1_positive (max_cycle_inner agf2)) as [rest Hrange]; [lia | ].
  rewrite Hrange in Hrun.
  match type of Hrun with context [Py.for_each ?ys ?body ?l0 d] =>
    destruct (Py.for_each ys body l0 d) as [[l1 | e] d1] eqn:Hloop;
      [ | discriminate Hrun];
    assert (H1 : chempots_agree l1)
      by (apply (for_each_last (fun _ => True) chempots_agree body ltac:(
            intros x la s brk' lb s' _ Hb;
            pose proof (inner_body_outcome agf2 eri x la s) as Ho; rewrite Hb in Ho;
            split; [apply Ho | intros _; exact I]) ys l0 d l1 d1);
          [ discriminate | exact I | exact Hloop ])
  end.
  unfold Py.bindM, Py.lift in Hrun.
  destruct (l_niter2 l1) as [k | ]; cbn [load_fast] in Hrun; [ | discriminate Hrun].
  destruct (l_nerr l1) as [nerr | ]; cbn [load_fast] in Hrun; [ | discriminate Hrun].
  destruct (l_derr l1) as [derr | ]; cbn [load_fast] in Hrun; [ | discriminate Hrun].
  destruct (rltb derr (conv_tol_rdm1 agf2) && rltb (rabs nerr) (conv_tol_nelec agf2));
    unfold Py.ret in Hrun; injection Hrun as <- <- <-; exact H1.
Qed.

(** X6: when [fock_loop] returns, the Green's function and the
    self-energy it returns for each spin carry the same chemical
    potential. *)
Theorem fock_loop_returns_equal_chempots (agf2 : UAGF2 R) (eri : _ChemistsERIs R)
    (gf gf' : GreensFunction R * GreensFunction R) (se se' : SelfEnergy R * SelfEnergy R)
    (get_fock_arg : option (_ChemistsERIs R -> GreensFunction R * GreensFunction R ->
                            result (ndarray R * ndarray R)))
    (w : world) (converged : bool) :
  fst (fock_loop agf2 eri gf se get_fock_arg w) = Ok (gf', se', converged) ->
  gf_chempot (fst gf') = se_chempot (fst se')
  /\ gf_chempot (snd gf') = se_chempot (snd se').
Proof.
  intros Hret.
  assert (Hpasses : (1 <= max_cycle_outer agf2)%Z /\ (2 <= max_cycle_inner agf2)%Z).
  { destruct (Z_lt_le_dec 0 (max_cycle_outer agf2)) as [Hpos | Hnone];
      destruct (Z_lt_le_dec 1 (max_cycle_inner agf2)) as [Htwo | Hfew];
      try (split; lia); exfalso;
      destruct (fock_loop_returned agf2 eri gf se get_fock_arg w _ Hret)
        as (f & l & d & Hf & Hloop & _).
    - destruct (range1_positive _ Hpos) as [rest Hrange]. rewrite Hrange in Hloop.
      cbn [Py.for_each] in Hloop. unfold Py.bindM in Hloop.
      assert (Hraise : exists e, fst (outer_body agf2 eri 1 (locals_at_entry gf se f)
                                        (DIIS_new agf2)) = Raise e).
      { destruct (Z.eq_dec (max_cycle_inner agf2) 1) as [Hone | Hnot].
        - eexists. apply outer_body_one_inner_cycle; [exact Hone | ].
          apply (locals_at_entry_unassigned gf se f).
        - eexists. apply outer_body_no_inner_cycle; [lia | ].
          apply locals_at_entry_counter. }
      destruct Hraise as [e He].
      destruct (outer_body agf2 eri 1 (locals_at_entry gf se f) (DIIS_new agf2))
        as [[r | e'] d1]; [discriminate He | discriminate Hloop].
    - rewrite (range1_nonpositive _ Hnone) in Hloop. cbn [Py.for_each] in Hloop.
      unfold Py.ret in Hloop. injection Hloop as <- _.
      unfold fock_loop, fock_loop_locals in Hret. unfold Py.bindM at 1 in Hret.
      rewrite fock_loop_cycles_unfold, Hf, (range1_nonpositive _ Hnone) in Hret.
      cbn [Py.for_each] in Hret. unfold Py.ret at 1 in Hret.
      destruct (locals_at_entry_unassigned gf se f) as (Hnerra & _).
      unfold Py.bindM, Py.lift in Hret. rewrite Hnerra in Hret. discriminate Hret.
    - rewrite (range1_nonpositive _ Hnone) in Hloop. cbn [Py.for_each] in Hloop.
      unfold Py.ret in Hloop. injection Hloop as <- _.
      unfold fock_loop, fock_loop_locals in Hret. unfold Py.bindM at 1 in Hret.
      rewrite fock_loop_cycles_unfold, Hf, (range1_nonpositive _ Hnone) in Hret.
      cbn [Py.for_each] in Hret. unfold Py.ret at 1 in Hret.
      destruct (locals_at_entry_unassigned gf se f) as (Hnerra & _).
      unfold Py.bindM, Py.lift in Hret. rewrite Hnerra in Hret. discriminate Hret. }
  destruct Hpasses as [Houter Hinner].
  destruct (fock_loop_returned agf2 eri gf se get_fock_arg w _ Hret)
    as (f & l & d & Hf & Hloop & Hr).
  destruct (range1_positive (max_cycle_outer agf2)) as [rest Hrange]; [lia | ].
  rewrite Hrange in Hloop.
  assert (Hl : chempots_agree l).
  { apply (for_each_last (fun _ => True) chempots_agree (outer_body agf2 eri)) with
      (xs := 1%Z :: rest) (l := locals_at_entry gf se f) (s := DIIS_new agf2) (s' := d).
    - intros x la s brk lb s' _ Hb. split; [ | intros _; exact I].
      apply (outer_body_chempots agf2 eri x la lb s s' brk); [lia | exact Hb].
    - discriminate.
    - exact I.
    - exact Hloop. }
  unfold fock_loop_return in Hr. injection Hr as -> -> _. exact Hl.
Qed.

End LoopReturns.

(** The toy run returns, so its limits allow it to. *)
Lemma fock_loop_returns_only_with_passes_witness :
  (1 <= max_cycle_outer (Toy.agf2 20 50))%Z /\ (2 <= max_cycle_inner (Toy.agf2 20 50))%Z.
Proof.
  apply (fock_loop_returns_only_with_passes (Toy.agf2 20 50) Toy.eri (Toy.gf_a, Toy.gf_b)
           (Toy.se_a, Toy.se_b) None []).
  vm_compute. reflexivity.
Defined.

(** The toy run with one outer pass and two inner passes. *)
Lemma fock_loop_raises_only_value_error_witness :
  match fst (fock_loop (Toy.agf2 1 2) Toy.eri (Toy.gf_a, Toy.gf_b) (Toy.se_a, Toy.se_b)
                       None []) with
  | Ok _ => True
  | Raise e => is_value_error e
  end.
Proof.
  apply (fock_loop_raises_only_value_error (Toy.agf2 1 2)).
  - cbn. discriminate.
  - cbn. discriminate.
Defined.

(** The chemical potentials the toy run returns. *)
Lemma fock_loop_returns_equal_chempots_witness :
  match fst (fock_loop (Toy.agf2 20 50) Toy.eri (Toy.gf_a, Toy.gf_b) (Toy.se_a, Toy.se_b)
                       None []) with
  | Ok (gf', se', _) =>
    gf_chempot (fst gf') = se_chempot (fst se')
    /\ gf_chempot (snd gf') = se_chempot (snd se')
  | Raise _ => True
  end.
Proof.
  destruct (fst (fock_loop (Toy.agf2 20 50) Toy.eri (Toy.gf_a, Toy.gf_b)
                           (Toy.se_a, Toy.se_b) None []))
    as [[[gf' se'] c] | e] eqn:Hrun.
  - apply (fock_loop_returns_equal_chempots (Toy.agf2 20 50) Toy.eri (Toy.gf_a, Toy.gf_b)
             gf' (Toy.se_a, Toy.se_b) se' None [] c Hrun).
  - exact I.
Defined.

(** ** Further properties of the self-energy build *)

Section BuildOutcomes.

Context {R : Type} {SR : Scalar R} {X : Collaborators R}.

(** One spin of the build returns exactly when the memory test passes,
    and otherwise raises the [TypeError] of the streamed call. *)
Lemma build_spin_outcome (agf2 : UAGF2 R) (eri : _ChemistsERIs R)
    (gf_occ gf_vir : GreensFunction R * GreensFunction R) (spin : Z) :
  spin = 0%Z \/ spin = 1%Z ->
  match _build_se_part_spin agf2 eri gf_occ gf_vir spin with
  | Ok _ => incore_fits agf2 gf_occ gf_vir spin = true
  | Raise e =>
    incore_fits agf2 gf_occ gf_vir spin = false
    /\ e = TypeError (UnexpectedKeyword "spin")
  end.
Proof.
  intros Hspin. destruct (incore_fits agf2 gf_occ gf_vir spin) eqn:Hfits.
  - pose proof (build_spin_incore_returns agf2 eri gf_occ gf_vir spin Hspin Hfits) as H.
    destruct (_build_se_part_spin agf2 eri gf_occ gf_vir spin);
      [reflexivity | discriminate H].
  - rewrite (build_spin_outcore_raises agf2 eri gf_occ gf_vir spin Hfits).
    split; reflexivity.
Qed.

(** The two outcomes of [build_se_part]. *)
Lemma build_se_part_cases (agf2 : UAGF2 R) (eri : _ChemistsERIs R)
    (gf_occ gf_vir : GreensFunction R * GreensFunction R) :
  Py.returns (build_se_part agf2 eri gf_occ gf_vir)
  = incore_fits agf2 gf_occ gf_vir 0 && incore_fits agf2 gf_occ gf_vir 1
  /\ (Py.returns (build_se_part agf2 eri gf_occ gf_vir) = false ->
      build_se_part agf2 eri gf_occ gf_vir = Raise (TypeError (UnexpectedKeyword "spin"))).
Proof.
  unfold build_se_part.
  pose proof (build_spin_outcome agf2 eri gf_occ gf_vir 0 (or_introl eq_refl)) as H0.
  pose proof (build_spin_outcome agf2 eri gf_occ gf_vir 1 (or_intror eq_refl)) as H1.
  destruct (_build_se_part_spin agf2 eri gf_occ gf_vir 0) as [se_a | e0].
  - rewrite H0. cbn [Py.bind andb].
    destruct (_build_se_part_spin agf2 eri gf_occ gf_vir 1) as [se_b | e1].
    + rewrite H1. cbn. split; [reflexivity | discriminate].
    + destruct H1 as [-> ->]. cbn. split; reflexivity.
  - destruct H0 as [-> ->]. cbn. split; reflexivity.
Qed.

(** The two outcomes of [build_se]. *)
Lemma build_se_cases (agf2 : UAGF2 R) (eri : _ChemistsERIs R)
    (gf : GreensFunction R * GreensFunction R) :
  let gf_occ := (aux_get_occupied (fst gf), aux_get_occupied (snd gf)) in
  let gf_vir := (aux_get_virtual (fst gf), aux_get_virtual (snd gf)) in
  match build_se agf2 eri gf with
  | Ok se =>
    incore_fits agf2 gf_occ gf_vir 0 && incore_fits agf2 gf_occ gf_vir 1
    && incore_fits agf2 gf_vir gf_occ 0 && incore_fits agf2 gf_vir gf_occ 1 = true
    /\ exists occ vir,
         build_se_part agf2 eri gf_occ gf_vir = Ok occ
         /\ build_se_part agf2 eri gf_vir gf_occ = Ok vir
         /\ se = (aux_combine (fst occ) (fst vir), aux_combine (snd occ) (snd vir))
  | Raise e =>
    incore_fits agf2 gf_occ gf_vir 0 && incore_fits agf2 gf_occ gf_vir 1
    && incore_fits agf2 gf_vir gf_occ 0 && incore_fits agf2 gf_vir gf_occ 1 = false
    /\ e = TypeError (UnexpectedKeyword "spin")
  end.
Proof.
  cbv zeta. unfold build_se.
  set (gf_occ := (aux_get_occupied (fst gf), aux_get_occupied (snd gf))).
  set (gf_vir := (aux_get_virtual (fst gf), aux_get_virtual (snd gf))).
  destruct (build_se_part_cases agf2 eri gf_occ gf_vir) as [Ho Ho'].
  destruct (build_se_part_cases agf2 eri gf_vir gf_occ) as [Hv Hv'].
  rewrite <- andb_assoc, <- Ho, <- Hv.
  destruct (build_se_part agf2 eri gf_occ gf_vir) as [occ | e0].
  - cbn [Py.bind Py.returns andb].
    destruct (build_se_part agf2 eri gf_vir gf_occ) as [vir | e1].
    + cbn [Py.bind Py.returns]. split; [reflexivity | ].
      exists occ, vir. repeat split.
    + cbn [Py.bind Py.returns]. split; [reflexivity | ].
      specialize (Hv' eq_refl). congruence.
  - cbn [Py.bind Py.returns andb]. split; [reflexivity | ].
    specialize (Ho' eq_refl). congruence.
Qed.

(** X7: [build_se_part] returns exactly when the memory test passes for
    both spins; otherwise it raises the [TypeError] of the call to the
    streamed transform, and nothing else. *)
Theorem build_se_part_outcome (agf2 : UAGF2 R) (eri : _ChemistsERIs R)
    (gf_occ gf_vir : GreensFunction R * GreensFunction R) :
  Py.returns (build_se_part agf2 eri gf_occ gf_vir)
  = incore_fits agf2 gf_occ gf_vir 0 && incore_fits agf2 gf_occ gf_vir 1
  /\ (Py.returns (build_se_part agf2 eri gf_occ gf_vir) = false ->
      build_se_part agf2 eri gf_occ gf_vir = Raise (TypeError (UnexpectedKeyword "spin"))).
Proof.
  apply build_se_part_cases.
Qed.

(** X8: [build_se] returns exactly when the memory test passes for both
    spins in both directions (occupied poles built from the occupied and
    virtual parts, and virtual poles from the parts exchanged), and then
    each spin's self-energy is the join of its two parts; otherwise it
    raises the [TypeError] of the streamed call. *)
Theorem build_se_outcome (agf2 : UAGF2 R) (eri : _ChemistsERIs R)
    (gf : GreensFunction R * GreensFunction R) :
  let gf_occ := (aux_get_occupied (fst gf), aux_get_occupied (snd gf)) in
  let gf_vir := (aux_get_virtual (fst gf), aux_get_virtual (snd gf)) in
  match build_se agf2 eri gf with
  | Ok se =>
    incore_fits agf2 gf_occ gf_vir 0 && incore_fits agf2 gf_occ gf_vir 1
    && incore_fits agf2 gf_vir gf_occ 0 && incore_fits agf2 gf_vir gf_occ 1 = true
    /\ exists occ vir,
         build_se_part agf2 eri gf_occ gf_vir = Ok occ
         /\ build_se_part agf2 eri gf_vir gf_occ = Ok vir
         /\ se = (aux_combine (fst occ) (fst vir), aux_combine (snd occ) (snd vir))
  | Raise e =>
    incore_fits agf2 gf_occ gf_vir 0 && incore_fits agf2 gf_occ gf_vir 1
    && incore_fits agf2 gf_vir gf_occ 0 && incore_fits agf2 gf_vir gf_occ 1 = false
    /\ e = TypeError (UnexpectedKeyword "spin")
  end.
Proof.
  apply build_se_cases.
Qed.

End BuildOutcomes.

(** ** Exchange of the two spins

    The module treats the spins by two copies of each statement, or by
    the index [spin] and the slices [as] and [bs].  Exchanging the labels
    alpha and beta in every input exchanges them in the output. *)

Section SpinExchange.

Context {R : Type} {SR : Scalar R} {X : Collaborators R}.

Lemma incore_fits_exchanged (agf2 : UAGF2 R)
    (gf_occ gf_vir : GreensFunction R * GreensFunction R) :
  incore_fits (exchange_spins_agf2 agf2) (swap gf_occ) (swap gf_vir) 0
  = incore_fits agf2 gf_occ gf_vir 1
  /\ incore_fits (exchange_spins_agf2 agf2) (swap gf_occ) (swap gf_vir) 1
     = incore_fits agf2 gf_occ gf_vir 0.
Proof.
  destruct agf2 as [[nmoa nmob] [nocca noccb] [ea eb] ? ? ? ? ? ? ? ?].
  destruct gf_occ as [oa ob]. destruct gf_vir as [va vb].
  split; reflexivity.
Qed.

(** One spin of the build on the exchanged inputs is the other spin of
    the build on the inputs. *)
Lemma build_spin_exchanged (agf2 : UAGF2 R) (eri : _ChemistsERIs R)
    (gf_occ gf_vir : GreensFunction R * GreensFunction R) :
  _build_se_part_spin (exchange_spins_agf2 agf2) (exchange_spins_eri eri)
                      (swap gf_occ) (swap gf_vir) 0
  = _build_se_part_spin agf2 eri gf_occ gf_vir 1
  /\ _build_se_part_spin (exchange_spins_agf2 agf2) (exchange_spins_eri eri)
                         (swap gf_occ) (swap gf_vir) 1
     = _build_se_part_spin agf2 eri gf_occ gf_vir 0.
Proof.
  destruct (incore_fits_exchanged agf2 gf_occ gf_vir) as [H0 H1].
  split.
  - destruct (incore_fits agf2 gf_occ gf_vir 1) eqn:Hfits.
    + unfold _build_se_part_spin. rewrite H0, Hfits.
      destruct agf2 as [[nmoa nmob] [nocca noccb] [ea eb] ? ? ? ? ? ? ? ?].
      destruct gf_occ as [oa ob]. destruct gf_vir as [va vb].
      destruct eri as [[fa fb] [ha hb] eaa eab eba ebb feri].
      reflexivity.
    + rewrite (build_spin_outcore_raises _ _ _ _ _ Hfits).
      apply build_spin_outcore_raises. exact H0.
  - destruct (incore_fits agf2 gf_occ gf_vir 0) eqn:Hfits.
    + unfold _build_se_part_spin. rewrite H1, Hfits.
      destruct agf2 as [[nmoa nmob] [nocca noccb] [ea eb] ? ? ? ? ? ? ? ?].
      destruct gf_occ as [oa ob]. destruct gf_vir as [va vb].
      destruct eri as [[fa fb] [ha hb] eaa eab eba ebb feri].
      reflexivity.
    + rewrite (build_spin_outcore_raises _ _ _ _ _ Hfits).
      apply build_spin_outcore_raises. exact H1.
Qed.

Lemma build_se_part_exchanged (agf2 : UAGF2 R) (eri : _ChemistsERIs R)
    (gf_occ gf_vir : GreensFunction R * GreensFunction R) :
  build_se_part (exchange_spins_agf2 agf2) (exchange_spins_eri eri) (swap gf_occ) (swap gf_vir)
  = map_result swap (build_se_part agf2 eri gf_occ gf_vir).
Proof.
  unfold build_se_part.
  destruct (build_spin_exchanged agf2 eri gf_occ gf_vir) as [-> ->].
  pose proof (build_spin_outcome agf2 eri gf_occ gf_vir 0 (or_introl eq_refl)) as H0.
  pose proof (build_spin_outcome agf2 eri gf_occ gf_vir 1 (or_intror eq_refl)) as H1.
  destruct (_build_se_part_spin agf2 eri gf_occ gf_vir 0) as [se_a | e0];
    destruct (_build_se_part_spin agf2 eri gf_occ gf_vir 1) as [se_b | e1]; cbn.
  - reflexivity.
  - reflexivity.
  - reflexivity.
  - destruct H0 as [_ ->]. destruct H1 as [_ ->]. reflexivity.
Qed.

Lemma get_fock_exchanged (agf2 : UAGF2 R) (eri : _ChemistsERIs R)
    (gf : option (GreensFunction R * GreensFunction R))
    (rdm1 : option (ndarray R * ndarray R)) :
  get_fock (exchange_spins_agf2 agf2) (exchange_spins_eri eri)
           (option_map swap gf) (option_map swap rdm1)
  = map_result swap (get_fock agf2 eri gf rdm1).
Proof.
  unfold get_fock.
  destruct eri as [[fa fb] [ha hb] eaa eab eba ebb feri].
  destruct gf as [[ga gb] | ]; [ | destruct rdm1 as [[da db] | ] ];
    cbn [option_map swap fst snd make_rdm1 exchange_spins_eri eri_aa eri_ab eri_ba eri_bb
         eri_h1e].
  - destruct (ragf2_get_jk eaa (aux_make_rdm1 ga 1) true) as [vj_aa vk_aa].
    destruct (ragf2_get_jk ebb (aux_make_rdm1 gb 1) true) as [vj_bb vk_bb].
    reflexivity.
  - destruct (ragf2_get_jk eaa da true) as [vj_aa vk_aa].
    destruct (ragf2_get_jk ebb db true) as [vj_bb vk_bb].
    reflexivity.
  - reflexivity.
Qed.

(** X9: the Fock matrices of [get_fock] follow an exchange of the spin
    labels: with the integral blocks, the core Hamiltonians and the Green's
    functions (or density matrices) of the two spins exchanged, the
    function returns the two Fock matrices exchanged, and it fails on the
    exchanged arguments exactly when it fails on the given ones. *)
Theorem get_fock_exchanges_spins (agf2 : UAGF2 R) (eri : _ChemistsERIs R)
    (gf : option (GreensFunction R * GreensFunction R))
    (rdm1 : option (ndarray R * ndarray R)) :
  get_fock (exchange_spins_agf2 agf2) (exchange_spins_eri eri)
           (option_map swap gf) (option_map swap rdm1)
  = map_result swap (get_fock agf2 eri gf rdm1).
Proof.
  apply get_fock_exchanged.
Qed.

(** X10: the self-energy build follows an exchange of the spin labels:
    [build_se_part] and [build_se] on the exchanged solver, integrals and
    Green's functions return the two self-energies exchanged, and raise
    the same exception when the build raises. *)
Theorem build_se_exchanges_spins (agf2 : UAGF2 R) (eri : _ChemistsERIs R)
    (gf gf_occ gf_vir : GreensFunction R * GreensFunction R) :
  build_se_part (exchange_spins_agf2 agf2) (exchange_spins_eri eri) (swap gf_occ) (swap gf_vir)
  = map_result swap (build_se_part agf2 eri gf_occ gf_vir)
  /\ build_se (exchange_spins_agf2 agf2) (exchange_spins_eri eri) (swap gf)
     = map_result swap (build_se agf2 eri gf).
Proof.
  split; [apply build_se_part_exchanged | ].
  destruct gf as [ga gb]. unfold build_se. cbv zeta. unfold swap. cbn [fst snd].
  pose proof (build_se_part_exchanged agf2 eri
                (aux_get_occupied ga, aux_get_occupied gb)
                (aux_get_virtual ga, aux_get_virtual gb)) as Ho.
  pose proof (build_se_part_exchanged agf2 eri
                (aux_get_virtual ga, aux_get_virtual gb)
                (aux_get_occupied ga, aux_get_occupied gb)) as Hv.
  unfold swap in Ho, Hv. cbn [fst snd] in Ho, Hv. rewrite Ho, Hv.
  destruct (build_se_part agf2 eri (aux_get_occupied ga, aux_get_occupied gb) _)
    as [occ | e0]; cbn; [ | reflexivity].
  destruct (build_se_part agf2 eri (aux_get_virtual ga, aux_get_virtual gb) _)
    as [vir | e1]; cbn; reflexivity.
Qed.

Section ExactEnergies.

Context {Y : MoreCollaborators R} {EX : ExactScalar R}.

Add Ring scalar_ring_exchange : (@scalar_ring R SR EX).

(** X11: the three energies do not depend on which spin is called alpha:
    [energy_1body], [energy_2body] and [energy_mp2] give the same value
    (and [energy_1body] the same exception) when the two spins are
    exchanged in the solver, the integrals, the Green's functions and the
    self-energies.  Exact arithmetic. *)
Theorem energies_ignore_spin_labels (agf2 : UAGF2 R) (eri : _ChemistsERIs R)
    (gf : GreensFunction R * GreensFunction R) (se : SelfEnergy R * SelfEnergy R) :
  energy_1body (exchange_spins_agf2 agf2) (exchange_spins_eri eri) (swap gf)
  = energy_1body agf2 eri gf
  /\ energy_2body (exchange_spins_agf2 agf2) (swap gf) (swap se) = energy_2body agf2 gf se
  /\ energy_mp2 (exchange_spins_agf2 agf2) (swap gf) (swap se) = energy_mp2 agf2 gf se.
Proof.
  split; [ | split ].
  - unfold energy_1body, UAGF2_get_fock.
    pose proof (get_fock_exchanged agf2 eri (Some gf) None) as H.
    cbn [option_map] in H. rewrite H.
    destruct (get_fock agf2 eri (Some gf) None) as [[fa fb] | e]; [ | reflexivity].
    destruct gf as [ga gb]. destruct eri as [fock [ha hb] eaa eab eba ebb feri].
    cbn. f_equal. ring.
  - unfold energy_2body. destruct gf as [ga gb]. destruct se as [sa sb].
    cbn [swap fst snd]. ring.
  - unfold energy_mp2. destruct gf as [ga gb]. destruct se as [sa sb].
    cbn [swap fst snd]. ring.
Qed.

End ExactEnergies.

End SpinExchange.

(** On the toy system the one-body energy is -3/10 under both
    labellings. *)
Lemma energies_ignore_spin_labels_witness :
  energy_1body (exchange_spins_agf2 (Toy.agf2 20 50)) (exchange_spins_eri Toy.eri)
               (swap (Toy.gf_a, Toy.gf_b))
  = energy_1body (Toy.agf2 20 50) Toy.eri (Toy.gf_a, Toy.gf_b)
  /\ energy_2body (exchange_spins_agf2 (Toy.agf2 20 50)) (swap (Toy.gf_a, Toy.gf_b))
                  (swap (Toy.se_a, Toy.se_b))
     = energy_2body (Toy.agf2 20 50) (Toy.gf_a, Toy.gf_b) (Toy.se_a, Toy.se_b)
  /\ energy_mp2 (exchange_spins_agf2 (Toy.agf2 20 50)) (swap (Toy.gf_a, Toy.gf_b))
                (swap (Toy.se_a, Toy.se_b))
     = energy_mp2 (Toy.agf2 20 50) (Toy.gf_a, Toy.gf_b) (Toy.se_a, Toy.se_b).
Proof.
  apply (energies_ignore_spin_labels (R := Qc)).
Defined.

(** ** Symmetry of the moments *)

Section MomentSymmetry.

Context {R : Type} {SR : Scalar R} {EX : ExactScalar R}.

Add Ring scalar_ring_symmetry : (@scalar_ring R SR EX).

Lemma sum_n_add (n : nat) (f g : nat -> R) :
  sum_n n (fun k => radd (f k) (g k)) = radd (sum_n n f) (sum_n n g).
Proof.
  induction n as [ | n IH]; simpl.
  - ring.
  - rewrite IH. ring.
Qed.

Lemma sum_n_sub (n : nat) (f g : nat -> R) :
  sum_n n (fun k => rsub (f k) (g k)) = rsub (sum_n n f) (sum_n n g).
Proof.
  induction n as [ | n IH]; simpl.
  - ring.
  - rewrite IH. ring.
Qed.

Lemma sum_n_zero (n : nat) : sum_n n (fun _ => rzero) = rzero :> R.
Proof.
  induction n as [ | n IH]; simpl.
  - reflexivity.
  - rewrite IH. ring.
Qed.

(** Two nested sums may be taken in either order. *)
Lemma sum_n_swap (n m : nat) (f : nat -> nat -> R) :
  sum_n n (fun i => sum_n m (fun j => f i j)) = sum_n m (fun j => sum_n n (fun i => f i j)).
Proof.
  induction n as [ | n IH]; simpl.
  - rewrite sum_n_zero. reflexivity.
  - rewrite IH, <- sum_n_add. reflexivity.
Qed.

(** The exchange term summed over two holes [i] and [j] of one range is
    the same with the two physical indices exchanged. *)
Lemma exchange_sum_symmetric (no nv : nat) (w : nat -> nat -> nat -> R)
    (q : ndarray R) (x y : nat) :
  (forall i j a, w i j a = w j i a) ->
  sum_n no (fun i => pole_sum no nv (fun j a =>
    rmul (rmul (get4 q x i j a) (w i j a)) (get4 q y j i a)))
  = sum_n no (fun i => pole_sum no nv (fun j a =>
      rmul (rmul (get4 q y i j a) (w i j a)) (get4 q x j i a))).
Proof.
  intros Hw. unfold pole_sum. rewrite sum_n_swap.
  apply sum_n_ext. intros i _. apply sum_n_ext. intros j _.
  apply sum_n_ext. intros a _. rewrite (Hw j i a). ring.
Qed.

Lemma direct_sum_symmetric (no n nv : nat) (w : nat -> nat -> nat -> R)
    (q : ndarray R) (x y : nat) :
  sum_n no (fun i => pole_sum n nv (fun j a =>
    rmul (rmul (get4 q x i j a) (w i j a)) (get4 q y i j a)))
  = sum_n no (fun i => pole_sum n nv (fun j a =>
      rmul (rmul (get4 q y i j a) (w i j a)) (get4 q x i j a))).
Proof.
  unfold pole_sum. apply sum_n_ext. intros i _. apply sum_n_ext. intros j _.
  apply sum_n_ext. intros a _. ring.
Qed.

Lemma moment_VE_symmetric (noa nva nob nvb : nat) (e_oa e_va e_ob e_vb : ndarray R)
    (q_same q_cross : ndarray R) (x y : nat) :
  moment_VE noa nva nob nvb e_oa e_va e_ob e_vb q_same q_cross x y
  = moment_VE noa nva nob nvb e_oa e_va e_ob e_vb q_same q_cross y x.
Proof.
  unfold moment_VE, hole_term_VE. cbv zeta.
  rewrite !sum_n_add, !sum_n_sub.
  rewrite (direct_sum_symmetric noa noa nva
             (fun i j a => pole_energy (get1 e_oa i) (get1 e_oa j) (get1 e_va a))
             q_same x y).
  rewrite (direct_sum_symmetric noa nob nvb
             (fun i j a => pole_energy (get1 e_oa i) (get1 e_ob j) (get1 e_vb a))
             q_cross x y).
  rewrite (exchange_sum_symmetric noa nva
             (fun i j a => pole_energy (get1 e_oa i) (get1 e_oa j) (get1 e_va a))
             q_same x y)
    by (intros i j a; unfold pole_energy; ring).
  reflexivity.
Qed.

Lemma exchange_term_symmetric (no nv : nat) (q : ndarray R) (x y : nat) :
  sum_n no (fun i => pole_sum no nv (fun j a => rmul (get4 q x i j a) (get4 q y j i a)))
  = sum_n no (fun i => pole_sum no nv (fun j a => rmul (get4 q y i j a) (get4 q x j i a))).
Proof.
  unfold pole_sum. rewrite sum_n_swap.
  apply sum_n_ext. intros i _. apply sum_n_ext. intros j _.
  apply sum_n_ext. intros a _. ring.
Qed.

Lemma direct_term_symmetric (no n nv : nat) (q : ndarray R) (x y : nat) :
  sum_n no (fun i => pole_sum n nv (fun j a => rmul (get4 q x i j a) (get4 q y i j a)))
  = sum_n no (fun i => pole_sum n nv (fun j a => rmul (get4 q y i j a) (get4 q x i j a))).
Proof.
  unfold pole_sum. apply sum_n_ext. intros i _. apply sum_n_ext. intros j _.
  apply sum_n_ext. intros a _. ring.
Qed.

Lemma moment_V_symmetric (noa nva nob nvb : nat) (q_same q_cross : ndarray R) (x y : nat) :
  moment_V noa nva nob nvb q_same q_cross x y = moment_V noa nva nob nvb q_same q_cross y x.
Proof.
  unfold moment_V, hole_term_V.
  rewrite !sum_n_add, !sum_n_sub.
  rewrite (direct_term_symmetric noa noa nva q_same x y).
  rewrite (direct_term_symmetric noa nob nvb q_cross x y).
  rewrite (exchange_term_symmetric noa nva q_same x y).
  reflexivity.
Qed.

(** X16: the two moment matrices that [_build_se_part_spin] accumulates
    are symmetric, for every spin, either build direction and any
    quasi-particle tensors of the right shapes: entry [(x, y)] equals entry
    [(y, x)] in the zeroth and in the first moment.  Exact arithmetic. *)
Theorem spin_moments_are_symmetric (agf2 : UAGF2 R)
    (gf_occ gf_vir : GreensFunction R * GreensFunction R) (spin : Z)
    (q_same q_cross : ndarray R) (x y : nat) :
  let nmoa := fst (by_spin spin (nmo agf2)) in
  let gfo_a := fst (by_spin spin gf_occ) in
  let gfo_b := snd (by_spin spin gf_occ) in
  let gfv_a := fst (by_spin spin gf_vir) in
  let gfv_b := snd (by_spin spin gf_vir) in
  shape q_same = [nmoa; gf_naux gfo_a; gf_naux gfo_a; gf_naux gfv_a] ->
  shape q_cross = [nmoa; gf_naux gfo_a; gf_naux gfo_b; gf_naux gfv_b] ->
  x < nmoa -> y < nmoa ->
  get2 (fst (spin_moments agf2 gf_occ gf_vir spin q_same q_cross)) x y
  = get2 (fst (spin_moments agf2 gf_occ gf_vir spin q_same q_cross)) y x
  /\ get2 (snd (spin_moments agf2 gf_occ gf_vir spin q_same q_cross)) x y
     = get2 (snd (spin_moments agf2 gf_occ gf_vir spin q_same q_cross)) y x.
Proof.
  cbv zeta. unfold spin_moments, accumulate_moments.
  destruct (by_spin spin (nmo agf2)) as [nmoa nmob].
  destruct (by_spin spin gf_occ) as [gfo_a gfo_b].
  destruct (by_spin spin gf_vir) as [gfv_a gfv_b].
  cbn [fst snd]. intros Hs Hc Hx Hy.
  destruct (accumulate_prefix nmoa (gf_naux gfo_a) (gf_naux gfv_a) (gf_naux gfo_b)
              (gf_naux gfv_b) (gf_energy gfo_a) (gf_energy gfv_a) (gf_energy gfo_b)
              (gf_energy gfv_b) q_same q_cross (gf_naux gfo_a) Hs Hc eq_refl eq_refl)
    as (_ & _ & Hentries).
  destruct (Hentries x y Hx Hy) as [HV HVE].
  destruct (Hentries y x Hy Hx) as [HV' HVE'].
  rewrite HV, HV', HVE, HVE'. split.
  - apply moment_V_symmetric.
  - apply moment_VE_symmetric.
Qed.

End MomentSymmetry.

(** Entries (0, 1) and (1, 0) of the two alpha moments of the toy
    tensors. *)
Lemma spin_moments_are_symmetric_witness :
  get2 (fst (spin_moments (Toy.agf2 20 50) (Toy.occ_a, Toy.occ_b) (Toy.vir_a, Toy.vir_b) 0
                          Toy.q_same Toy.q_cross)) 0 1
  = get2 (fst (spin_moments (Toy.agf2 20 50) (Toy.occ_a, Toy.occ_b) (Toy.vir_a, Toy.vir_b) 0
                            Toy.q_same Toy.q_cross)) 1 0
  /\ get2 (snd (spin_moments (Toy.agf2 20 50) (Toy.occ_a, Toy.occ_b) (Toy.vir_a, Toy.vir_b) 0
                             Toy.q_same Toy.q_cross)) 0 1
     = get2 (snd (spin_moments (Toy.agf2 20 50) (Toy.occ_a, Toy.occ_b) (Toy.vir_a, Toy.vir_b) 0
                               Toy.q_same Toy.q_cross)) 1 0.
Proof.
  apply (spin_moments_are_symmetric (R := Qc) (Toy.agf2 20 50) (Toy.occ_a, Toy.occ_b)
           (Toy.vir_a, Toy.vir_b) 0 Toy.q_same Toy.q_cross 0 1).
  - reflexivity.
  - reflexivity.
  - cbn. lia.
  - cbn. lia.
Defined.

(** ** Ionization potentials and electron affinities *)

Lemma slice_bound_nonneg (n : nat) (i : Z) :
  (0 <= i)%Z -> slice_bound n i = Nat.min (Z.to_nat i) n.
Proof.
  intros Hi. unfold slice_bound.
  destruct (Z.ltb_spec i 0) as [Hlt | _]; lia.
Qed.

Lemma slice_bound_from_end (n : nat) (i : Z) :
  (1 <= i)%Z -> slice_bound n (- i) = n - Nat.min (Z.to_nat i) n.
Proof.
  intros Hi. unfold slice_bound.
  destruct (Z.ltb_spec (- i) 0) as [_ | Hge]; lia.
Qed.

Lemma nth_map_seq {A : Type} (f : nat -> A) (n k : nat) (d : A) :
  k < n -> nth k (map f (seq 0 n)) d = f k.
Proof.
  intros Hk. rewrite (nth_indep _ d (f 0)) by (rewrite length_map, length_seq; exact Hk).
  rewrite (map_nth f (seq 0 n) 0 k), seq_nth by exact Hk. reflexivity.
Qed.

Section ExcitationProperties.

Context {R : Type} {SR : Scalar R} {X : Collaborators R} {Y : MoreCollaborators R}.

Lemma entries_list_length (a : ndarray R) : List.length (entries_list a) = dim a 0.
Proof.
  unfold entries_list. rewrite length_map, length_seq. reflexivity.
Qed.

Lemma rows_list_length (a : ndarray R) : List.length (rows_list a) = dim a 0.
Proof.
  unfold rows_list. rewrite length_map, length_seq. reflexivity.
Qed.

(** Entry [j] of row [r] of a matrix. *)
Lemma row_entry (a : ndarray R) (d0 d1 r j : nat) :
  shape a = [d0; d1] -> get1 (row a r) j = get2 a r j.
Proof.
  intros Hs. unfold get1, get2, row, dim. rewrite Hs. cbn [tl fold_right nth flat].
  rewrite Nat.mul_1_r. reflexivity.
Qed.

(** X12: [get_ea] pairs each energy with its vector.  For [nroots >= 0]
    and a joined virtual Green's function with one coupling column per
    pole, it returns [min(nroots, n)] energies and as many vectors; energy
    [k] is the [k]-th pole energy and vector [k] is the [k]-th column of
    the couplings, one entry per physical orbital. *)
Theorem get_ea_pairs_energies_and_vectors (agf2 : UAGF2 R)
    (gf : GreensFunction R * GreensFunction R) (nroots : Z) :
  let gf_vir := aux_combine_gf (aux_get_virtual (fst gf)) (aux_get_virtual (snd gf)) in
  let n := dim (gf_energy gf_vir) 0 in
  let nphys := dim (gf_coupling gf_vir) 0 in
  let m := Nat.min (Z.to_nat nroots) n in
  (0 <= nroots)%Z ->
  dim (gf_coupling gf_vir) 1 = n ->
  List.length (fst (get_ea agf2 gf nroots)) = m
  /\ List.length (snd (get_ea agf2 gf nroots)) = m
  /\ forall k, k < m ->
       nth k (fst (get_ea agf2 gf nroots)) rzero = get1 (gf_energy gf_vir) k
       /\ shape (nth k (snd (get_ea agf2 gf nroots)) (zeros [])) = [nphys]
       /\ forall x, x < nphys ->
            get1 (nth k (snd (get_ea agf2 gf nroots)) (zeros [])) x
            = get2 (gf_coupling gf_vir) x k.
Proof.
  cbv zeta. unfold get_ea. cbn [fst snd].
  set (g := aux_combine_gf (aux_get_virtual (fst gf)) (aux_get_virtual (snd gf))).
  intros Hn Hc. rewrite Hc, (slice_bound_nonneg _ _ Hn).
  set (m := Nat.min (Z.to_nat nroots) (dim (gf_energy g) 0)).
  rewrite entries_list_length, rows_list_length.
  split; [unfold slice1, dim; cbn; lia | ].
  split; [unfold transpose, slice_columns, dim; cbn; lia | ].
  intros k Hk. split; [ | split ].
  - unfold entries_list. rewrite nth_map_seq by (unfold slice1, dim; cbn; lia).
    reflexivity.
  - unfold rows_list. rewrite nth_map_seq by (unfold transpose, slice_columns, dim; cbn; lia).
    reflexivity.
  - intros x Hx.
    unfold rows_list. rewrite nth_map_seq by (unfold transpose, slice_columns, dim; cbn; lia).
    set (sl := slice_columns (gf_coupling g) 0 m).
    assert (HS0 : dim sl 0 = dim (gf_coupling g) 0) by reflexivity.
    assert (HS1 : dim sl 1 = m) by (unfold sl, slice_columns, dim; cbn; lia).
    rewrite (row_entry (transpose sl) (dim sl 1) (dim sl 0) k x) by reflexivity.
    rewrite transpose_entry by (rewrite HS0; exact Hx).
    unfold get2 at 1. rewrite HS1. unfold sl, slice_columns. cbn [flat].
    rewrite Nat.sub_0_r.
    destruct (flat_index x k m Hk) as [-> ->]. reflexivity.
Qed.

(** X13: the energies of [get_ip].  For [nroots >= 1] it returns
    [min(nroots, n)] values, the [k]-th being minus the [k]-th pole energy
    counted from the last one.  For [nroots = 0] the slice [-0:] is the
    whole array: it returns all [n] occupied poles, where [get_ea] returns
    none. *)
Theorem get_ip_energies (agf2 : UAGF2 R)
    (gf : GreensFunction R * GreensFunction R) (nroots : Z) :
  let gf_occ := aux_combine_gf (aux_get_occupied (fst gf)) (aux_get_occupied (snd gf)) in
  let n := dim (gf_energy gf_occ) 0 in
  let m := if Z.eqb nroots 0 then n else Nat.min (Z.to_nat nroots) n in
  (0 <= nroots)%Z ->
  List.length (fst (get_ip agf2 gf nroots)) = m
  /\ (forall k, k < m ->
        nth k (fst (get_ip agf2 gf nroots)) rzero = ropp (get1 (gf_energy gf_occ) (n - 1 - k)))
  /\ fst (get_ea agf2 gf 0) = [].
Proof.
  cbv zeta. unfold get_ip, get_ea. cbn [fst snd].
  set (g := aux_combine_gf (aux_get_occupied (fst gf)) (aux_get_occupied (snd gf))).
  set (n := dim (gf_energy g) 0).
  intros Hn.
  assert (Hstart : n - slice_bound n (- nroots)
                   = if Z.eqb nroots 0 then n else Nat.min (Z.to_nat nroots) n).
  { destruct (Z.eqb_spec nroots 0) as [-> | Hne].
    - unfold slice_bound. cbn. lia.
    - rewrite slice_bound_from_end by lia. lia. }
  assert (Hlen : List.length
                   (entries_list (neg (slice1 (gf_energy g) (slice_bound n (- nroots)) n)))
                 = n - slice_bound n (- nroots)).
  { rewrite entries_list_length. reflexivity. }
  split; [ | split ].
  - rewrite length_rev, Hlen. exact Hstart.
  - intros k Hk. rewrite <- Hstart in Hk.
    rewrite rev_nth by (rewrite Hlen; exact Hk). rewrite Hlen.
    unfold entries_list. rewrite nth_map_seq by (unfold neg, slice1, dim; cbn; lia).
    unfold neg, slice1, get1. cbn [flat]. f_equal. f_equal.
    assert (Hb : slice_bound n (- nroots) <= n).
    { unfold slice_bound. destruct (Z.ltb_spec (- nroots) 0); lia. }
    lia.
  - unfold slice_bound. cbn. unfold entries_list, slice1, dim. cbn.
    destruct (Z.to_nat (Z.min 0 _)) eqn:Hz; [reflexivity | lia].
Qed.

(** X14: the vectors of [get_ip] follow the physical orbitals, not the
    roots.  [list] iterates over the rows of the sliced couplings, so for
    [nroots >= 1] there are as many vectors as physical orbitals, whatever
    [nroots]; vector [r] belongs to the orbital [nphys - 1 - r] and holds
    its couplings to the last [min(nroots, n)] poles in ascending pole
    order. *)
Theorem get_ip_vectors_follow_orbitals (agf2 : UAGF2 R)
    (gf : GreensFunction R * GreensFunction R) (nroots : Z) :
  let gf_occ := aux_combine_gf (aux_get_occupied (fst gf)) (aux_get_occupied (snd gf)) in
  let n := dim (gf_coupling gf_occ) 1 in
  let nphys := dim (gf_coupling gf_occ) 0 in
  let m := Nat.min (Z.to_nat nroots) n in
  (1 <= nroots)%Z ->
  List.length (snd (get_ip agf2 gf nroots)) = nphys
  /\ forall r, r < nphys ->
       shape (nth r (snd (get_ip agf2 gf nroots)) (zeros [])) = [m]
       /\ forall j, j < m ->
            get1 (nth r (snd (get_ip agf2 gf nroots)) (zeros [])) j
            = get2 (gf_coupling gf_occ) (nphys - 1 - r) (n - m + j).
Proof.
  cbv zeta. unfold get_ip. cbn [fst snd].
  set (g := aux_combine_gf (aux_get_occupied (fst gf)) (aux_get_occupied (snd gf))).
  set (n := dim (gf_coupling g) 1).
  intros Hn. rewrite (slice_bound_from_end n nroots Hn).
  set (m := Nat.min (Z.to_nat nroots) n).
  assert (Hw : n - (n - m) = m) by lia.
  set (sl := slice_columns (gf_coupling g) (n - m) n).
  assert (HS : shape sl = [dim (gf_coupling g) 0; m]).
  { unfold sl, slice_columns. cbn [shape]. rewrite Hw. reflexivity. }
  assert (Hd0 : dim sl 0 = dim (gf_coupling g) 0) by reflexivity.
  assert (Hrows : List.length (rows_list sl) = dim (gf_coupling g) 0).
  { rewrite rows_list_length. exact Hd0. }
  split.
  - rewrite length_rev. exact Hrows.
  - intros r Hr.
    rewrite rev_nth by (rewrite Hrows; exact Hr). rewrite Hrows.
    unfold rows_list.
    rewrite nth_map_seq by (rewrite Hd0; lia).
    replace (dim (gf_coupling g) 0 - Datatypes.S r) with (dim (gf_coupling g) 0 - 1 - r) by lia.
    split.
    + unfold row. cbn [shape]. rewrite HS. reflexivity.
    + intros j Hj.
      rewrite (row_entry sl (dim (gf_coupling g) 0) m _ j HS).
      assert (Hd1 : dim sl 1 = m) by (unfold dim; rewrite HS; reflexivity).
      unfold get2 at 1. rewrite Hd1.
      unfold sl, slice_columns. cbn [flat]. rewrite Hw.
      destruct (flat_index (dim (gf_coupling g) 0 - 1 - r) j m Hj) as [-> ->].
      reflexivity.
Qed.

End ExcitationProperties.

(** The toy Green's functions have one occupied and one virtual pole per
    spin: the joined functions have two poles on two physical orbitals. *)
Lemma get_ea_pairs_energies_and_vectors_witness :
  List.length (fst (get_ea (Toy.agf2 20 50) (Toy.gf_a, Toy.gf_b) 1)) = 1
  /\ List.length (snd (get_ea (Toy.agf2 20 50) (Toy.gf_a, Toy.gf_b) 1)) = 1.
Proof.
  destruct (get_ea_pairs_energies_and_vectors (Toy.agf2 20 50) (Toy.gf_a, Toy.gf_b) 1)
    as (He & Hv & _).
  - lia.
  - vm_compute. reflexivity.
  - split; [exact He | exact Hv].
Defined.

Lemma get_ip_energies_witness :
  List.length (fst (get_ip (Toy.agf2 20 50) (Toy.gf_a, Toy.gf_b) 0)) = 2
  /\ fst (get_ea (Toy.agf2 20 50) (Toy.gf_a, Toy.gf_b) 0) = [].
Proof.
  destruct (get_ip_energies (Toy.agf2 20 50) (Toy.gf_a, Toy.gf_b) 0) as (He & _ & Ha).
  - lia.
  - split; [exact He | exact Ha].
Defined.

(** One root is asked for, and two vectors come back, one per orbital. *)
Lemma get_ip_vectors_follow_orbitals_witness :
  List.length (fst (get_ip (Toy.agf2 20 50) (Toy.gf_a, Toy.gf_b) 1)) = 1
  /\ List.length (snd (get_ip (Toy.agf2 20 50) (Toy.gf_a, Toy.gf_b) 1)) = 2.
Proof.
  destruct (get_ip_vectors_follow_orbitals (Toy.agf2 20 50) (Toy.gf_a, Toy.gf_b) 1)
    as (Hv & _).
  - lia.
  - split; [vm_compute; reflexivity | exact Hv].
Defined.

(** ** Green's functions from the Dyson equation *)

Section GreensFunctionProperties.

Context {R : Type} {SR : Scalar R} {X : Collaborators R} {Y : MoreCollaborators R}.



End GreensFunctionProperties.

(** ** Molecular-orbital integrals *)

Lemma pairs_even (n : nat) : exists p, n * (n + 1) = 2 * p.
Proof.
  induction n as [ | n [p Hp]].
  - exists 0. reflexivity.
  - exists (p + n + 1). lia.
Qed.

(** The count asserted for the rows of the cross-spin block,
    [n*(m+1)//2], is the number of pairs [n*(n+1)//2] only for [m = n],
    or for one orbital against two. *)
Lemma asserted_pairs (n m : nat) :
  0 < n -> n * (m + 1) / 2 = n * (n + 1) / 2 -> m = n \/ (n = 1 /\ m = 2).
Proof.
  intros Hn H. destruct (pairs_even n) as [p Hp].
  rewrite Hp in H. rewrite (Nat.mul_comm 2 p), Nat.div_mul in H by lia.
  pose proof (Nat.div_mod_eq (n * (m + 1)) 2) as Hd.
  pose proof (Nat.mod_upper_bound (n * (m + 1)) 2) as Hm.
  rewrite H in Hd.
  assert (Hlo : n * (n + 1) <= n * (m + 1)) by lia.
  assert (Hhi : n * (m + 1) < n * (n + 1) + 2) by lia.
  assert (Hnm : n <= m) by nia.
  assert (Hdiff : n * (m - n) < 2) by nia.
  destruct (Nat.eq_dec m n) as [-> | Hne]; [left; reflexivity | right].
  assert (m - n >= 1) by lia.
  assert (n = 1) by nia. subst n. split; [reflexivity | nia].
Qed.

Lemma shape_eqb_eq (s t : list nat) : shape_eqb s t = true -> s = t.
Proof.
  revert t. induction s as [ | n s IH]; intros [ | m t] H; cbn in H; try discriminate.
  - reflexivity.
  - apply andb_prop in H. destruct H as [Hn Hs].
    apply Nat.eqb_eq in Hn. rewrite Hn, (IH t Hs). reflexivity.
Qed.

Section MoIntegralProperties.

Context {R : Type} {SR : Scalar R} {X : Collaborators R} {Y : MoreCollaborators R}.

Lemma select_columns_returned (a : ndarray R) (mask : list bool) (c : ndarray R) :
  select_columns a mask = Return c ->
  shape c = [dim a 0; List.length (mask_indices mask 0)].
Proof.
  unfold select_columns. destruct (List.length mask =? dim a 1); [ | discriminate].
  intros H. injection H as <-. reflexivity.
Qed.

Lemma np_dot_returned (a b c : ndarray R) :
  np_dot a b = Ok c -> shape c = [dim a 0; dim b 1].
Proof.
  unfold np_dot. destruct (dim a 1 =? dim b 0); [ | discriminate].
  intros H. injection H as <-. reflexivity.
Qed.

(** A matrix in the basis of [n] orbitals is [n] by [n]. *)
Lemma to_mo_basis_returned (c m f : ndarray R) :
  to_mo_basis c m = Ok f -> shape f = [dim c 1; dim c 1].
Proof.
  unfold to_mo_basis. destruct (np_dot (transpose c) m) as [t | e] eqn:Ht; [ | discriminate].
  cbn [Py.bind]. intros Hf.
  rewrite (np_dot_returned _ _ _ Hf). unfold dim at 1.
  rewrite (np_dot_returned _ _ _ Ht). reflexivity.
Qed.

Lemma min_all_returned (a : ndarray R) (r : R) : min_all a = Ok r -> 0 < size a.
Proof.
  unfold min_all. destruct (size a); [discriminate | lia].
Qed.

(** The table of gaps is empty unless there is an occupied and a virtual
    orbital. *)
Lemma gap_table_not_empty (e : ndarray R) (nocc : nat) :
  0 < size (gap_table e nocc) -> 0 < nocc /\ nocc < dim e 0.
Proof.
  unfold gap_table, size. cbn [shape fold_right]. intros H.
  assert (H1 : 0 < Nat.min nocc (dim e 0)) by nia.
  assert (H2 : 0 < dim e 0 - Nat.min nocc (dim e 0)) by nia.
  lia.
Qed.

(** What [_common_init_] has checked and stored when it returns. *)
Lemma common_init_returned (agf2 : UAGF2 R) (orbitals : UAGF2_orbitals R)
    (mo_coeff : option (ndarray R * ndarray R)) (c : common_eris) (w : list R) :
  _common_init_ agf2 orbitals mo_coeff = Return (c, w) ->
  let nmoa := dim (fst (ce_mo_coeff c)) 1 in
  let nmob := dim (snd (ce_mo_coeff c)) 1 in
  (0 < fst (nocc agf2) /\ fst (nocc agf2) < nmoa)
  /\ (0 < snd (nocc agf2) /\ snd (nocc agf2) < nmob)
  /\ shape (fst (ce_fock c)) = [nmoa; nmoa]
  /\ shape (snd (ce_fock c)) = [nmob; nmob]
  /\ ce_nocc c = nocc agf2.
Proof.
  unfold _common_init_.
  destruct (_mo_without_core agf2 _) as [[moa mob] | e]; [ | discriminate].
  cbn [PyMore.and_then fst snd].
  destruct (to_mo_basis moa (scf_get_hcore _)) as [h1e_a | e]; [ | discriminate].
  destruct (to_mo_basis mob (scf_get_hcore _)) as [h1e_b | e]; [ | discriminate].
  cbn [PyMore.and_then PyMore.of_result].
  destruct (to_mo_basis moa _) as [fock_a | e] eqn:Hfa; [ | discriminate].
  destruct (to_mo_basis mob _) as [fock_b | e] eqn:Hfb; [ | discriminate].
  cbn [PyMore.and_then PyMore.of_result].
  destruct (nocc agf2) as [nocca noccb] eqn:Hnocc.
  cbn [fst snd].
  destruct (min_all (gap_table (diagonal fock_a) nocca)) as [gap_a | e] eqn:Hga;
    [ | discriminate].
  destruct (min_all (gap_table (diagonal fock_b) noccb)) as [gap_b | e] eqn:Hgb;
    [ | discriminate].
  cbn [PyMore.and_then PyMore.of_result].
  intros H. injection H as <- _. cbn [ce_mo_coeff ce_fock ce_nocc fst snd]. cbv zeta.
  pose proof (to_mo_basis_returned _ _ _ Hfa) as Sa.
  pose proof (to_mo_basis_returned _ _ _ Hfb) as Sb.
  pose proof (gap_table_not_empty _ _ (min_all_returned _ _ Hga)) as Ga.
  pose proof (gap_table_not_empty _ _ (min_all_returned _ _ Hgb)) as Gb.
  assert (Da : dim (diagonal fock_a) 0 = dim moa 1).
  { unfold diagonal, dim at 1. cbn [shape nth]. unfold dim at 1 2. rewrite Sa. cbn [nth].
    apply Nat.min_id. }
  assert (Db : dim (diagonal fock_b) 0 = dim mob 1).
  { unfold diagonal, dim at 1. cbn [shape nth]. unfold dim at 1 2. rewrite Sb. cbn [nth].
    apply Nat.min_id. }
  rewrite Da in Ga. rewrite Db in Gb.
  split; [exact Ga | ]. split; [exact Gb | ]. split; [exact Sa | ]. split; [exact Sb | ].
  reflexivity.
Qed.

(** X17: the integral container is set up only for a system with an
    occupied and a virtual orbital in each spin.  When [_common_init_]
    returns, each spin's number of occupied orbitals is at least one and
    below the number of orbitals kept by the frozen mask; otherwise the
    minimum over an empty table of gaps raises.  The Fock matrices stored
    are square in the kept orbitals. *)
Theorem common_init_needs_occupied_and_virtual (agf2 : UAGF2 R)
    (orbitals : UAGF2_orbitals R) (mo_coeff : option (ndarray R * ndarray R))
    (c : common_eris) (w : list R) :
  _common_init_ agf2 orbitals mo_coeff = Return (c, w) ->
  let nmoa := dim (fst (ce_mo_coeff c)) 1 in
  let nmob := dim (snd (ce_mo_coeff c)) 1 in
  (0 < fst (nocc agf2) /\ fst (nocc agf2) < nmoa)
  /\ (0 < snd (nocc agf2) /\ snd (nocc agf2) < nmob)
  /\ shape (fst (ce_fock c)) = [nmoa; nmoa]
  /\ shape (snd (ce_fock c)) = [nmob; nmob]
  /\ ce_nocc c = nocc agf2.
Proof.
  apply common_init_returned.
Qed.

(** The outcome of [_make_mo_eris_outcore]: the exception of
    [_common_init_], or that of the lookup of [np.asarary]. *)
Lemma outcore_integrals_cases (agf2 : UAGF2 R) (orbitals : UAGF2_orbitals R)
    (mo_coeff : option (ndarray R * ndarray R)) :
  match _common_init_ agf2 orbitals mo_coeff with
  | Return _ =>
    _make_mo_eris_outcore agf2 orbitals mo_coeff = Throw (AttributeError "numpy" "asarary")
  | Throw e => _make_mo_eris_outcore agf2 orbitals mo_coeff = Throw e
  end.
Proof.
  unfold _make_mo_eris_outcore.
  destruct (_common_init_ agf2 orbitals mo_coeff) as [[c w] | e]; reflexivity.
Qed.

(** X18: [_make_mo_eris_outcore] never returns an integral container.
    When [_common_init_] returns, the lookup of [np.asarary] raises
    [AttributeError]; when it raises, that exception propagates. *)
Theorem make_mo_eris_outcore_never_returns (agf2 : UAGF2 R)
    (orbitals : UAGF2_orbitals R) (mo_coeff : option (ndarray R * ndarray R)) :
  returned (_make_mo_eris_outcore agf2 orbitals mo_coeff) = false
  /\ match _common_init_ agf2 orbitals mo_coeff with
     | Return _ =>
       _make_mo_eris_outcore agf2 orbitals mo_coeff
       = Throw (AttributeError "numpy" "asarary")
     | Throw e => _make_mo_eris_outcore agf2 orbitals mo_coeff = Throw e
     end.
Proof.
  pose proof (outcore_integrals_cases agf2 orbitals mo_coeff) as H.
  split; [ | exact H].
  destruct (_common_init_ agf2 orbitals mo_coeff) as [cw | e]; rewrite H; reflexivity.
Qed.

(** X19: [UAGF2.ao2mo] returns integrals only from the in-core
    transformation: the mean field must hold its integrals in memory
    ([_scf._eri] is not [None]) and the memory test must pass, since the
    other branch calls [_make_mo_eris_outcore].  The orbitals passed as
    [mo_coeff] play no part. *)
Theorem ao2mo_returns_only_in_core (agf2 : UAGF2 R) (orbitals : UAGF2_orbitals R)
    (mo_coeff : option (ndarray R * ndarray R)) :
  returned (ao2mo agf2 orbitals mo_coeff) = true ->
  scf_eri (agf2_scf orbitals) <> None
  /\ ao2mo_incore_chosen agf2 orbitals = true
  /\ ao2mo agf2 orbitals mo_coeff = _make_mo_eris_incore agf2 orbitals None.
Proof.
  unfold ao2mo. destruct (ao2mo_incore_chosen agf2 orbitals) eqn:Hchosen.
  - intros _. split; [ | split; reflexivity].
    unfold ao2mo_incore_chosen in Hchosen.
    destruct (scf_eri (agf2_scf orbitals)); [discriminate | discriminate Hchosen].
  - pose proof (outcore_integrals_cases agf2 orbitals None) as H.
    destruct (_common_init_ agf2 orbitals None) as [cw | e]; rewrite H; discriminate.
Qed.

(** X20: the container of [_make_mo_eris_incore].  When the function
    returns, the block [eri_ba] is the transpose of [eri_ab], no store is
    attached, and [eri_ab] has the rows that the assertion counts,
    [nmoa*(nmob+1)//2].  If [eri_ab] has one row per pair of alpha
    orbitals, [nmoa*(nmoa+1)//2], the two spins have the same number of
    orbitals, or one and two: with other numbers of kept orbitals the
    assertion fails. *)
Theorem make_mo_eris_incore_container (agf2 : UAGF2 R) (orbitals : UAGF2_orbitals R)
    (mo_coeff : option (ndarray R * ndarray R)) (eris : _ChemistsERIs R) (w : list R) :
  _make_mo_eris_incore agf2 orbitals mo_coeff = Return (eris, w) ->
  exists nmoa nmob,
    shape (fst (eri_fock eris)) = [nmoa; nmoa]
    /\ shape (snd (eri_fock eris)) = [nmob; nmob]
    /\ shape (eri_ab eris) = [nmoa * (nmob + 1) / 2; nmob * (nmob + 1) / 2]
    /\ eri_ba eris = transpose (eri_ab eris)
    /\ eri_feri eris = None
    /\ (dim (eri_ab eris) 0 = nmoa * (nmoa + 1) / 2 ->
        nmob = nmoa \/ (nmoa = 1 /\ nmob = 2)).
Proof.
  unfold _make_mo_eris_incore.
  destruct (_common_init_ agf2 orbitals mo_coeff) as [[c w'] | e] eqn:Hc; [ | discriminate].
  pose proof (common_init_returned agf2 orbitals mo_coeff c w' Hc) as Hret.
  cbv zeta in Hret. destruct Hret as ([Hoa Hoa'] & _ & Sa & Sb & _).
  cbn [PyMore.and_then]. destruct (ce_mo_coeff c) as [moa mob]. cbn [fst snd] in *.
  destruct (ao2mo_incore_full _ moa) as [aa | e]; [ | discriminate].
  destruct (ao2mo_incore_full _ mob) as [bb | e]; [ | discriminate].
  cbn [PyMore.and_then].
  destruct (ao2mo_restore_s4 aa _) as [aa' | e]; [ | discriminate].
  destruct (ao2mo_restore_s4 bb _) as [bb' | e]; [ | discriminate].
  cbn [PyMore.and_then].
  destruct (ao2mo_incore_general_pairs _ _) as [ab | e]; [ | discriminate].
  cbn [PyMore.and_then].
  destruct (shape_eqb (shape ab) _) eqn:Hshape; [ | discriminate].
  intros H. injection H as <- _.
  cbn [eri_fock eri_ab eri_ba eri_feri].
  assert (Hs : shape ab
               = [dim moa 1 * (dim mob 1 + 1) / 2; dim mob 1 * (dim mob 1 + 1) / 2]).
  { apply shape_eqb_eq. exact Hshape. }
  exists (dim moa 1), (dim mob 1).
  split; [exact Sa | ]. split; [exact Sb | ]. split; [exact Hs | ].
  split; [reflexivity | ]. split; [reflexivity | ].
  unfold dim at 1. rewrite Hs. cbn [nth]. intros Hpairs.
  apply asserted_pairs; [lia | exact Hpairs].
Qed.

End MoIntegralProperties.

Lemma returned_inv {A : Type} (c : outcome A) :
  returned c = true -> exists a, c = Return a.
Proof.
  destruct c as [a | e]; [intros _; exists a; reflexivity | discriminate].
Defined.

(** The toy mean field: two orbitals and one electron per spin, the
    integrals held in memory. *)
Lemma common_init_needs_occupied_and_virtual_witness :
  exists c w,
    _common_init_ (Toy.agf2 20 50) (ToyOrbitals.orbitals (Some ToyOrbitals.ao_integrals)) None
    = Return (c, w)
    /\ (0 < 1 /\ 1 < dim (fst (ce_mo_coeff c)) 1)
    /\ (0 < 1 /\ 1 < dim (snd (ce_mo_coeff c)) 1)
    /\ shape (fst (ce_fock c)) = [dim (fst (ce_mo_coeff c)) 1; dim (fst (ce_mo_coeff c)) 1]
    /\ shape (snd (ce_fock c)) = [dim (snd (ce_mo_coeff c)) 1; dim (snd (ce_mo_coeff c)) 1]
    /\ ce_nocc c = (1, 1).
Proof.
  destruct (returned_inv
              (_common_init_ (Toy.agf2 20 50)
                             (ToyOrbitals.orbitals (Some ToyOrbitals.ao_integrals)) None))
    as [[c w] H].
  { vm_compute. reflexivity. }
  exists c, w. split; [exact H | ].
  apply (common_init_needs_occupied_and_virtual (R := Qc) _ _ _ c w H).
Defined.

Lemma ao2mo_returns_only_in_core_witness :
  scf_eri (agf2_scf (ToyOrbitals.orbitals (Some ToyOrbitals.ao_integrals))) <> None
  /\ ao2mo_incore_chosen (Toy.agf2 20 50)
                         (ToyOrbitals.orbitals (Some ToyOrbitals.ao_integrals)) = true
  /\ ao2mo (Toy.agf2 20 50) (ToyOrbitals.orbitals (Some ToyOrbitals.ao_integrals)) None
     = _make_mo_eris_incore (Toy.agf2 20 50)
                            (ToyOrbitals.orbitals (Some ToyOrbitals.ao_integrals)) None.
Proof.
  apply (ao2mo_returns_only_in_core (R := Qc)). vm_compute. reflexivity.
Defined.

Lemma make_mo_eris_incore_container_witness :
  exists eris w,
    _make_mo_eris_incore (Toy.agf2 20 50)
                         (ToyOrbitals.orbitals (Some ToyOrbitals.ao_integrals)) None
    = Return (eris, w)
    /\ exists nmoa nmob,
         shape (fst (eri_fock eris)) = [nmoa; nmoa]
         /\ shape (snd (eri_fock eris)) = [nmob; nmob]
         /\ shape (eri_ab eris) = [nmoa * (nmob + 1) / 2; nmob * (nmob + 1) / 2]
         /\ eri_ba eris = transpose (eri_ab eris)
         /\ eri_feri eris = None
         /\ (dim (eri_ab eris) 0 = nmoa * (nmoa + 1) / 2 ->
             nmob = nmoa \/ (nmoa = 1 /\ nmob = 2)).
Proof.
  destruct (returned_inv
              (_make_mo_eris_incore (Toy.agf2 20 50)
                                    (ToyOrbitals.orbitals (Some ToyOrbitals.ao_integrals))
                                    None))
    as [[eris w] H].
  { vm_compute. reflexivity. }
  exists eris, w. split; [exact H | ].
  apply (make_mo_eris_incore_container (R := Qc) _ _ _ eris w H).
Defined.

(** The toy system whose beta channel has no electron: the container
    cannot be set up, and [ao2mo] raises the [ValueError] of the empty
    minimum. *)
Example toy_no_beta_electron :
  ao2mo (mkUAGF2 (2, 2) (1, 0) (mo_energy (Toy.agf2 20 50)) (Q2Qc 1000)
                 (Q2Qc (1 # 100000000000)) (Q2Qc (1 # 1000000)) (Q2Qc (1 # 1000000))
                 20 50 6 1)
        (ToyOrbitals.orbitals (Some ToyOrbitals.ao_integrals)) None
  = Throw (Base (ValueError "zero-size array to reduction operation minimum")).
Proof.
  vm_compute. reflexivity.
Qed.

(** ** The spins of the materialized transform *)

Section TransformSpins.

Context {R : Type} {SR : Scalar R} {X : Collaborators R}.

(** X21: the three modes of [_make_qmo_eris_incore] agree.  Called
    without [spin] it returns the four tensors [((aa, ab), (ba, bb))];
    called with [spin=0] it returns the pair [(aa, ab)] and with [spin=1]
    the pair [(bb, ba)] of the same tensors, each of the shape
    (orbitals, occupied poles, occupied poles, virtual poles) of its spin
    pair; any other [spin] leaves [qeri] unassigned and raises
    [UnboundLocalError]. *)
Theorem make_qmo_eris_incore_by_spin (agf2 : UAGF2 R) (eri : _ChemistsERIs R)
    (gf_occ gf_vir : GreensFunction R * GreensFunction R) :
  exists aa ab ba bb,
    _make_qmo_eris_incore call_positional agf2 eri gf_occ gf_vir None
    = Ok (QmoAll aa ab ba bb)
    /\ _make_qmo_eris_incore call_with_spin agf2 eri gf_occ gf_vir (Some 0%Z)
       = Ok (QmoSpin aa ab)
    /\ _make_qmo_eris_incore call_with_spin agf2 eri gf_occ gf_vir (Some 1%Z)
       = Ok (QmoSpin bb ba)
    /\ shape aa = [fst (nmo agf2); gf_naux (fst gf_occ); gf_naux (fst gf_occ);
                   gf_naux (fst gf_vir)]
    /\ shape ab = [fst (nmo agf2); gf_naux (fst gf_occ); gf_naux (snd gf_occ);
                   gf_naux (snd gf_vir)]
    /\ shape ba = [snd (nmo agf2); gf_naux (snd gf_occ); gf_naux (fst gf_occ);
                   gf_naux (fst gf_vir)]
    /\ shape bb = [snd (nmo agf2); gf_naux (snd gf_occ); gf_naux (snd gf_occ);
                   gf_naux (snd gf_vir)]
    /\ forall spin : Z, spin <> 0%Z -> spin <> 1%Z ->
         _make_qmo_eris_incore call_with_spin agf2 eri gf_occ gf_vir (Some spin)
         = Raise (UnboundLocalError "qeri").
Proof.
  unfold _make_qmo_eris_incore.
  change (Py.bind_arguments sig_make_qmo_eris_incore call_with_spin) with (@Ok unit tt).
  change (Py.bind_arguments sig_make_qmo_eris_incore call_positional) with (@Ok unit tt).
  cbn [Py.bind]. destruct (nmo agf2) as [nmoa nmob]. cbn [fst snd].
  do 4 eexists.
  split; [cbn; reflexivity | ].
  split; [cbn; reflexivity | ].
  split; [cbn; reflexivity | ].
  split; [reflexivity | ]. split; [reflexivity | ].
  split; [reflexivity | ]. split; [reflexivity | ].
  intros spin H0 H1. unfold spin_selects, select_qeri.
  destruct (Z.eqb_spec spin 0) as [E0 | _]; [contradiction | ].
  destruct (Z.eqb_spec spin 1) as [E1 | _]; [contradiction | ].
  reflexivity.
Qed.

End TransformSpins.

(** ** The Fock loop on a store of objects *)

Section Simulation.

Context {S1 L1 S2 L2 : Type}.

Variable rel : S1 -> L1 -> S2 -> L2 -> Prop.
Variable relE : S1 -> Prop.

(** Two runs of a loop body end alike: both continue or break with
    related locals, or both raise the same exception. *)
Definition alike (r1 : result (bool * L1) * S1) (r2 : result (bool * L2) * S2) : Prop :=
  match r1, r2 with
  | (Ok (b1, l1), s1), (Ok (b2, l2), s2) => b1 = b2 /\ rel s1 l1 s2 l2
  | (Raise e1, s1), (Raise e2, _) => e1 = e2 /\ relE s1
  | _, _ => False
  end.

Lemma for_each_simulation (xs : list Z) (body1 : Z -> L1 -> Py.M S1 (bool * L1))
    (body2 : Z -> L2 -> Py.M S2 (bool * L2)) :
  (forall x l1 s1 l2 s2, rel s1 l1 s2 l2 -> alike (body1 x l1 s1) (body2 x l2 s2)) ->
  forall l1 s1 l2 s2, rel s1 l1 s2 l2 ->
  match Py.for_each xs body1 l1 s1, Py.for_each xs body2 l2 s2 with
  | (Ok l1', s1'), (Ok l2', s2') => rel s1' l1' s2' l2'
  | (Raise e1, s1'), (Raise e2, _) => e1 = e2 /\ relE s1'
  | _, _ => False
  end.
Proof.
  intros Hbody. induction xs as [ | x xs IH]; intros l1 s1 l2 s2 Hrel.
  - exact Hrel.
  - cbn [Py.for_each]. unfold Py.bindM.
    specialize (Hbody x l1 s1 l2 s2 Hrel). unfold alike in Hbody.
    destruct (body1 x l1 s1) as [[[b1 l1'] | e1] s1'];
      destruct (body2 x l2 s2) as [[[b2 l2'] | e2] s2']; try contradiction.
    + destruct Hbody as [<- Hrel']. cbn [fst snd].
      destruct b1; [exact Hrel' | apply IH; exact Hrel'].
    + exact Hbody.
Qed.

End Simulation.

Section StoreSimulation.

Context {R : Type} {SR : Scalar R} {X : Collaborators R}.

Lemma upd_same {A : Type} (f : nat -> A) (a : nat) (v : A) : upd f a v a = v.
Proof.
  unfold upd. rewrite Nat.eqb_refl. reflexivity.
Qed.

Lemma upd_other {A : Type} (f : nat -> A) (a b : nat) (v : A) : b <> a -> upd f a v b = f b.
Proof.
  intros H. unfold upd. destruct (Nat.eqb_spec b a); [contradiction | reflexivity].
Qed.

(** The locals of the value-level loop read off the store. *)
Definition values_of (h : @store R) (l : @slots R) : @locals R :=
  mkLocals (self_energies h (s_sea l)) (self_energies h (s_seb l)) (s_gf l)
           (s_focka l) (s_fockb l) (s_nerra l) (s_nerrb l) (s_nerr l)
           (s_derra l) (s_derrb l) (s_derr l) (s_rdm1a_prev l) (s_rdm1b_prev l)
           (s_niter2 l) (s_converged l).

(** The names [sea] and [seb] are bound to two different objects, each
    one passed by the caller or created during the call; [diis] is the
    object created at entry. *)
Definition owned (h0 : @store R) (sea0 seb0 diis : nat) (h : @store R) (l : @slots R) : Prop :=
  s_sea l <> s_seb l
  /\ (s_sea l = sea0 \/ se_allocated h0 <= s_sea l) /\ s_sea l < se_allocated h
  /\ (s_seb l = seb0 \/ se_allocated h0 <= s_seb l) /\ s_seb l < se_allocated h
  /\ diis = diis_allocated h0
  /\ call_footprint h0 sea0 seb0 h.

Definition simulates (h0 : @store R) (sea0 seb0 diis : nat)
    (h : @store R) (l : @slots R) (d : DIIS R) (v : @locals R) : Prop :=
  values_of h l = v /\ extrapolations h diis = d /\ owned h0 sea0 seb0 diis h l.

Lemma footprint_set_se (h0 h : @store R) (sea0 seb0 a : nat) (s : SelfEnergy R) :
  call_footprint h0 sea0 seb0 h ->
  a = sea0 \/ a = seb0 \/ se_allocated h0 <= a ->
  call_footprint h0 sea0 seb0
    (mkStore (upd (self_energies h) a s) (se_allocated h) (extrapolations h)
             (diis_allocated h)).
Proof.
  intros (Hd & Hold & Hn & Hse) Ha. unfold call_footprint. cbn.
  split; [exact Hd | ]. split; [exact Hold | ]. split; [exact Hn | ].
  intros b Hb Hb1 Hb2. rewrite upd_other by (destruct Ha as [-> | [-> | Ha]]; lia).
  apply Hse; assumption.
Qed.

Lemma footprint_new_se (h0 h : @store R) (sea0 seb0 : nat) (s : SelfEnergy R) :
  call_footprint h0 sea0 seb0 h ->
  call_footprint h0 sea0 seb0
    (mkStore (upd (self_energies h) (se_allocated h) s) (S (se_allocated h))
             (extrapolations h) (diis_allocated h)).
Proof.
  intros (Hd & Hold & Hn & Hse). unfold call_footprint. cbn.
  split; [exact Hd | ]. split; [exact Hold | ]. split; [lia | ].
  intros b Hb Hb1 Hb2. rewrite upd_other by lia. apply Hse; assumption.
Qed.

Lemma footprint_set_diis (h0 h : @store R) (sea0 seb0 : nat) (d : DIIS R) :
  call_footprint h0 sea0 seb0 h ->
  call_footprint h0 sea0 seb0
    (mkStore (self_energies h) (se_allocated h)
             (upd (extrapolations h) (diis_allocated h0) d) (diis_allocated h)).
Proof.
  intros (Hd & Hold & Hn & Hse). unfold call_footprint. cbn.
  split; [exact Hd | ]. split; [ | split; [exact Hn | exact Hse] ].
  intros b Hb. rewrite upd_other by lia. apply Hold. exact Hb.
Qed.

Lemma owned_address (h0 : @store R) (a sea0 seb0 : nat) :
  a = sea0 \/ se_allocated h0 <= a -> a = sea0 \/ a = seb0 \/ se_allocated h0 <= a.
Proof.
  intros [H | H]; [left; exact H | right; right; exact H].
Qed.

Lemma owned_address' (h0 : @store R) (b sea0 seb0 : nat) :
  b = seb0 \/ se_allocated h0 <= b -> b = sea0 \/ b = seb0 \/ se_allocated h0 <= b.
Proof.
  intros [H | H]; [right; left; exact H | right; right; exact H].
Qed.

Ltac store_step :=
  cbn [Py.bindM Py.ret Py.lift set_chempot get_se set_se new_se get_diis set_diis new_diis
       diis_step_on_store fst snd self_energies se_allocated extrapolations diis_allocated
       s_sea s_seb s_gf s_focka s_fockb s_nerra s_nerrb s_nerr s_derra s_derrb s_derr
       s_rdm1a_prev s_rdm1b_prev s_niter2 s_converged
       l_sea l_seb l_gf l_focka l_fockb l_nerra l_nerrb l_nerr l_derra l_derrb l_derr
       l_rdm1a_prev l_rdm1b_prev l_niter2 l_converged Py.load_fast].

Ltac store_read := repeat first [rewrite upd_same | rewrite upd_other by assumption].

Lemma inner_body_simulation (agf2 : UAGF2 R) (eri : _ChemistsERIs R)
    (h0 : @store R) (sea0 seb0 diis : nat) (niter2 : Z)
    (l : @slots R) (h : @store R) (v : @locals R) (d : DIIS R) :
  simulates h0 sea0 seb0 diis h l d v ->
  alike (simulates h0 sea0 seb0 diis) (call_footprint h0 sea0 seb0)
        (inner_body_on_store agf2 eri diis niter2 l h) (inner_body agf2 eri niter2 v d).
Proof.
  intros (Hv & Hd & Hne & Ha & Ha' & Hb & Hb' & Hdiis & Hfoot). subst v d.
  assert (Hne' : s_seb l <> s_sea l) by (intros E; apply Hne; symmetry; exact E).
  unfold inner_body_on_store, inner_body.
  destruct (nocc agf2) as [nalph nbeta]. destruct (nmo agf2) as [nmoa nmob].
  cbn [values_of l_sea l_seb l_focka l_fockb l_gf l_nerra l_nerrb l_nerr l_derra l_derrb l_derr
       l_rdm1a_prev l_rdm1b_prev l_niter2 l_converged].
  store_step.
  destruct (aux_eig (self_energies h (s_sea l)) (s_focka l) (Some (rlit 0))) as [wa va].
  store_step.
  destruct (aux_eig (self_energies h (s_seb l)) (s_fockb l) (Some (rlit 0))) as [wb vb].
  destruct (chempot_binsearch (FockEig wa va) nmoa nalph 1) as [mua nerra].
  destruct (chempot_binsearch (FockEig wb vb) nmob nbeta 1) as [mub nerrb].
  store_step. store_read.
  set (sea' := se_with_chempot (self_energies h (s_sea l)) mua).
  set (seb' := se_with_chempot (self_energies h (s_seb l)) mub).
  destruct (aux_eig sea' (s_focka l) None) as [wa' va'].
  store_step. store_read.
  destruct (aux_eig seb' (s_fockb l) None) as [wb' vb'].
  store_step. store_read.
  set (gf' := (mkGF wa' (take_rows va' nmoa) (se_chempot sea'),
               mkGF wb' (take_rows vb' nmob) (se_chempot seb'))).
  assert (Hfoot' : call_footprint h0 sea0 seb0
            (mkStore (upd (upd (self_energies h) (s_sea l) sea') (s_seb l) seb')
                     (se_allocated h) (extrapolations h) (diis_allocated h))).
  { apply (footprint_set_se h0 (mkStore (upd (self_energies h) (s_sea l) sea')
                                        (se_allocated h) (extrapolations h)
                                        (diis_allocated h)));
      [ | apply owned_address'; exact Hb].
    apply footprint_set_se; [exact Hfoot | apply owned_address; exact Ha]. }
  destruct (UAGF2_get_fock agf2 eri (Some gf') None) as [f | e];
    [ | split; [reflexivity | exact Hfoot'] ].
  destruct (make_rdm1 gf') as [rdm1a rdm1b].
  unfold diis_step_on_store, diis_step. unfold Py.bindM. store_step. cbv beta.
  destruct (diis_update (extrapolations h diis) (stack2 (fst f) (snd f))) as [x d'].
  store_step.
  set (hf := mkStore (upd (upd (self_energies h) (s_sea l) sea') (s_seb l) seb')
                     (se_allocated h) (upd (extrapolations h) diis d') (diis_allocated h)).
  assert (Hfoot'' : call_footprint h0 sea0 seb0 hf).
  { unfold hf. rewrite Hdiis.
    apply (footprint_set_diis h0
             (mkStore (upd (upd (self_energies h) (s_sea l) sea') (s_seb l) seb')
                      (se_allocated h) (extrapolations h) (diis_allocated h))).
    exact Hfoot'. }
  assert (Hsim : forall lf : @slots R,
             s_sea lf = s_sea l -> s_seb lf = s_seb l ->
             forall vf : @locals R,
             vf = mkLocals sea' seb' (s_gf lf) (s_focka lf) (s_fockb lf) (s_nerra lf)
                           (s_nerrb lf) (s_nerr lf) (s_derra lf) (s_derrb lf) (s_derr lf)
                           (s_rdm1a_prev lf) (s_rdm1b_prev lf) (s_niter2 lf) (s_converged lf) ->
             simulates h0 sea0 seb0 diis hf lf d' vf).
  { intros lf Ea Eb vf ->. split; [ | split ].
    - unfold values_of. rewrite Ea, Eb. unfold hf. store_step. store_read. reflexivity.
    - unfold hf. store_step. apply upd_same.
    - unfold owned. rewrite Ea, Eb.
      split; [exact Hne | ]. split; [exact Ha | ]. split; [exact Ha' | ].
      split; [exact Hb | ]. split; [exact Hb' | ]. split; [exact Hdiis | exact Hfoot'']. }
  destruct (Z.ltb 1 niter2).
  - store_step.
    destruct (s_rdm1a_prev l) as [pa | ]; store_step;
      [ | unfold alike; split; [reflexivity | exact Hfoot''] ].
    destruct (max_abs (sub rdm1a pa)) as [derra | e]; store_step;
      [ | unfold alike; split; [reflexivity | exact Hfoot''] ].
    destruct (s_rdm1b_prev l) as [pb | ]; store_step;
      [ | unfold alike; split; [reflexivity | exact Hfoot''] ].
    destruct (max_abs (sub rdm1b pb)) as [derrb | e]; store_step;
      [ | unfold alike; split; [reflexivity | exact Hfoot''] ].
    destruct (rltb (Py.max2 rltb derra derrb) (conv_tol_rdm1 agf2)); store_step;
      (unfold alike; split; [reflexivity | apply Hsim; reflexivity]).
  - store_step. unfold alike. split; [reflexivity | apply Hsim; reflexivity].
Qed.

(** One call of [minimize_chempot]: the name is bound to an object
    holding the minimized self-energy, the one passed or a new one, and
    no other object of the store changes. *)
Lemma minimize_step (in_place : bool) (h0 h : @store R) (sea0 seb0 a : nat)
    (fock : ndarray R) (nelec : nat) (tol : R) (maxiter : Z) :
  call_footprint h0 sea0 seb0 h ->
  a < se_allocated h ->
  a = sea0 \/ a = seb0 \/ se_allocated h0 <= a ->
  exists (a' : nat) (h' : @store R),
    minimize_chempot_on_store in_place a fock nelec tol maxiter h = (Ok a', h')
    /\ self_energies h' a'
       = chempot_minimize (self_energies h a) fock nelec (se_chempot (self_energies h a)) 1
                          tol maxiter
    /\ (forall b, b < se_allocated h -> b <> a -> self_energies h' b = self_energies h b)
    /\ extrapolations h' = extrapolations h
    /\ a' < se_allocated h'
    /\ se_allocated h <= se_allocated h'
    /\ (a' = a \/ se_allocated h <= a')
    /\ call_footprint h0 sea0 seb0 h'.
Proof.
  intros Hfoot Ha Hown. unfold minimize_chempot_on_store.
  destruct in_place; store_step.
  - eexists. eexists. split; [reflexivity | ]. store_step.
    split; [apply upd_same | ].
    split; [intros b _ Hb; apply upd_other; exact Hb | ].
    split; [reflexivity | ]. split; [exact Ha | ]. split; [lia | ].
    split; [left; reflexivity | ].
    apply footprint_set_se; assumption.
  - eexists. eexists. split; [reflexivity | ]. store_step.
    split; [apply upd_same | ].
    split; [intros b Hb _; apply upd_other; lia | ].
    split; [reflexivity | ]. split; [lia | ]. split; [lia | ].
    split; [right; lia | ].
    apply footprint_new_se; assumption.
Qed.

Lemma outer_body_simulation (in_place : bool) (agf2 : UAGF2 R) (eri : _ChemistsERIs R)
    (h0 : @store R) (sea0 seb0 diis : nat) (niter1 : Z)
    (l : @slots R) (h : @store R) (v : @locals R) (d : DIIS R) :
  simulates h0 sea0 seb0 diis h l d v ->
  alike (simulates h0 sea0 seb0 diis) (call_footprint h0 sea0 seb0)
        (outer_body_on_store in_place agf2 eri diis niter1 l h) (outer_body agf2 eri niter1 v d).
Proof.
  intros (Hv & Hd & Hne & Ha & Ha' & Hb & Hb' & Hdiis & Hfoot). subst v d.
  assert (Hgrow : se_allocated h0 <= se_allocated h) by (destruct Hfoot as (_ & _ & G & _); exact G).
  unfold outer_body_on_store, outer_body.
  destruct (nocc agf2) as [nalph nbeta].
  cbv zeta.
  cbn [values_of l_sea l_seb l_focka l_fockb l_gf l_nerra l_nerrb l_nerr l_derra l_derrb l_derr
       l_rdm1a_prev l_rdm1b_prev l_niter2 l_converged].
  destruct (minimize_step in_place h0 h sea0 seb0 (s_sea l) (s_focka l) nalph
              (conv_tol_nelec agf2) (max_cycle_inner agf2) Hfoot Ha'
              (owned_address h0 _ _ seb0 Ha))
    as (a1 & h1 & Erun1 & Eval1 & Eframe1 & Ediis1 & Ea1 & Egrow1 & Enew1 & Hfoot1).
  assert (Hb1 : s_seb l < se_allocated h1) by lia.
  destruct (minimize_step in_place h0 h1 sea0 seb0 (s_seb l) (s_fockb l) nbeta
              (conv_tol_nelec agf2) (max_cycle_inner agf2) Hfoot1 Hb1
              (owned_address' h0 _ sea0 _ Hb))
    as (b1 & h2 & Erun2 & Eval2 & Eframe2 & Ediis2 & Eb1 & Egrow2 & Enew2 & Hfoot2).
  unfold Py.bindM at 1. rewrite Erun1. unfold Py.bindM at 1. rewrite Erun2.
  assert (Ea1b : a1 <> s_seb l) by (destruct Enew1 as [-> | G]; [exact Hne | lia]).
  assert (Estart : simulates h0 sea0 seb0 diis h2
            (mkSlots a1 b1 (s_gf l) (s_focka l) (s_fockb l) (s_nerra l) (s_nerrb l)
                     (s_nerr l) (s_derra l) (s_derrb l) (s_derr l) (s_rdm1a_prev l)
                     (s_rdm1b_prev l) (s_niter2 l) (s_converged l))
            (extrapolations h diis)
            (mkLocals
               (chempot_minimize (self_energies h (s_sea l)) (s_focka l) nalph
                  (se_chempot (self_energies h (s_sea l))) 1 (conv_tol_nelec agf2)
                  (max_cycle_inner agf2))
               (chempot_minimize (self_energies h (s_seb l)) (s_fockb l) nbeta
                  (se_chempot (self_energies h (s_seb l))) 1 (conv_tol_nelec agf2)
                  (max_cycle_inner agf2))
               (s_gf l) (s_focka l) (s_fockb l) (s_nerra l) (s_nerrb l)
               (s_nerr l) (s_derra l) (s_derrb l) (s_derr l) (s_rdm1a_prev l)
               (s_rdm1b_prev l) (s_niter2 l) (s_converged l))).
  { split; [ | split ].
    - unfold values_of. store_step.
      rewrite (Eframe2 a1 Ea1 Ea1b), Eval1, Eval2.
      rewrite (Eframe1 (s_seb l) Hb' (fun E => Hne (eq_sym E))). reflexivity.
    - rewrite Ediis2, Ediis1. reflexivity.
    - unfold owned. store_step.
      split; [destruct Enew2 as [-> | G]; [exact Ea1b | lia] | ].
      split; [destruct Enew1 as [-> | G]; [exact Ha | right; lia] | ].
      split; [lia | ].
      split; [destruct Enew2 as [-> | G]; [exact Hb | right; lia] | ].
      split; [exact Eb1 | ]. split; [exact Hdiis | exact Hfoot2]. }
  unfold Py.bindM.
  pose proof (for_each_simulation (simulates h0 sea0 seb0 diis) (call_footprint h0 sea0 seb0)
                (Py.range1 (max_cycle_inner agf2))
                (inner_body_on_store agf2 eri diis) (inner_body agf2 eri)
                (fun x l1 s1 l2 s2 => inner_body_simulation agf2 eri h0 sea0 seb0 diis x l1 s1 l2 s2)
                _ _ _ _ Estart) as Hloop.
  destruct (Py.for_each (Py.range1 (max_cycle_inner agf2)) (inner_body_on_store agf2 eri diis)
              _ h2) as [[l1 | e1] hs];
    destruct (Py.for_each (Py.range1 (max_cycle_inner agf2)) (inner_body agf2 eri) _
                (extrapolations h diis)) as [[l2 | e2] ds]; try contradiction.
  - destruct Hloop as (Hv2 & Hd2 & Hown2). subst l2 ds.
    unfold Py.bindM. store_step.
    cbn [values_of l_sea l_seb l_focka l_fockb l_gf l_nerra l_nerrb l_nerr l_derra l_derrb
         l_derr l_rdm1a_prev l_rdm1b_prev l_niter2 l_converged].
    assert (Hfoot3 : call_footprint h0 sea0 seb0 hs)
      by (destruct Hown2 as (_ & _ & _ & _ & _ & _ & F); exact F).
    destruct (s_niter2 l1) as [n2 | ]; store_step;
      [ | unfold alike; split; [reflexivity | exact Hfoot3] ].
    destruct (s_nerr l1) as [nerr | ]; store_step;
      [ | unfold alike; split; [reflexivity | exact Hfoot3] ].
    destruct (s_derr l1) as [derr | ]; store_step;
      [ | unfold alike; split; [reflexivity | exact Hfoot3] ].
    destruct (rltb derr (conv_tol_rdm1 agf2) && rltb (rabs nerr) (conv_tol_nelec agf2));
      store_step; unfold alike; (split; [reflexivity | ]).
    + split; [reflexivity | split; [reflexivity | exact Hown2] ].
    + split; [reflexivity | split; [reflexivity | exact Hown2] ].
  - destruct Hloop as [-> Hf]. unfold Py.bindM. unfold alike. split; [reflexivity | exact Hf].
Qed.

(** The call on a store returns to its caller what the function of the
    values returns on the attributes of the two objects passed, and
    leaves the footprint of one call. *)
Lemma fock_loop_on_store_simulation (in_place : bool) (agf2 : UAGF2 R)
    (eri : _ChemistsERIs R) (gf : GreensFunction R * GreensFunction R) (se : nat * nat)
    (get_fock_arg : option (_ChemistsERIs R -> GreensFunction R * GreensFunction R ->
                            result (ndarray R * ndarray R)))
    (h : @store R) :
  fst se <> snd se -> fst se < se_allocated h -> snd se < se_allocated h ->
  observed (fock_loop_on_store in_place agf2 eri gf se get_fock_arg h)
  = (l <- fst (fock_loop_locals agf2 eri gf
                 (self_energies h (fst se), self_energies h (snd se)) get_fock_arg
                 (DIIS_new agf2)) ;;
     Ok (fock_loop_return l))
  /\ call_footprint h (fst se) (snd se)
       (snd (fock_loop_on_store in_place agf2 eri gf se get_fock_arg h)).
Proof.
  destruct se as [sea seb]. cbn [fst snd]. intros Hne Ha Hb.
  unfold fock_loop_on_store, fock_loop_locals, fock_loop_cycles, observed.
  unfold Py.bindM. store_step.
  set (get_fock := match get_fock_arg with
                   | Some f => f
                   | None => fun e g => UAGF2_get_fock agf2 e (Some g) None
                   end).
  set (h1 := mkStore (self_energies h) (se_allocated h)
                     (upd (extrapolations h) (diis_allocated h) (DIIS_new agf2))
                     (S (diis_allocated h))).
  assert (Hfoot1 : call_footprint h sea seb h1).
  { unfold call_footprint, h1. cbn.
    split; [reflexivity | ]. split; [intros a Hlt; apply upd_other; lia | ].
    split; [lia | ]. intros; reflexivity. }
  destruct (get_fock eri gf) as [[focka fockb] | e]; store_step;
    [ | split; [reflexivity | exact Hfoot1] ].
  unfold locals_at_entry.
  pose proof (for_each_simulation (simulates h sea seb (diis_allocated h))
                (call_footprint h sea seb)
                (Py.range1 (max_cycle_outer agf2))
                (outer_body_on_store in_place agf2 eri (diis_allocated h))
                (outer_body agf2 eri)
                (fun x l1 s1 l2 s2 =>
                   outer_body_simulation in_place agf2 eri h sea seb (diis_allocated h)
                                         x l1 s1 l2 s2)
                (mkSlots sea seb gf focka fockb None None None None None None None None None
                         false)
                h1
                (mkLocals (self_energies h sea) (self_energies h seb) gf focka fockb
                          None None None None None None None None None false)
                (DIIS_new agf2)) as Hloop.
  assert (Hstart : simulates h sea seb (diis_allocated h) h1
            (mkSlots sea seb gf focka fockb None None None None None None None None None
                     false)
            (DIIS_new agf2)
            (mkLocals (self_energies h sea) (self_energies h seb) gf focka fockb
                      None None None None None None None None None false)).
  { split; [reflexivity | ]. split; [unfold h1; cbn; apply upd_same | ].
    unfold owned. store_step.
    split; [exact Hne | ]. split; [left; reflexivity | ]. split; [exact Ha | ].
    split; [left; reflexivity | ]. split; [exact Hb | ].
    split; [reflexivity | exact Hfoot1]. }
  specialize (Hloop Hstart).
  destruct (Py.for_each (Py.range1 (max_cycle_outer agf2))
              (outer_body_on_store in_place agf2 eri (diis_allocated h)) _ h1)
    as [[l1 | e1] hs];
    destruct (Py.for_each (Py.range1 (max_cycle_outer agf2)) (outer_body agf2 eri) _
                (DIIS_new agf2)) as [[l2 | e2] ds]; try contradiction.
  - destruct Hloop as (Hv & Hd & Hown). subst l2 ds.
    assert (Hfoot2 : call_footprint h sea seb hs)
      by (destruct Hown as (_ & _ & _ & _ & _ & _ & F); exact F).
    store_step.
    cbn [values_of l_sea l_seb l_focka l_fockb l_gf l_nerra l_nerrb l_nerr l_derra l_derrb
         l_derr l_rdm1a_prev l_rdm1b_prev l_niter2 l_converged].
    destruct (s_nerra l1); store_step; [ | split; [reflexivity | exact Hfoot2] ].
    destruct (s_derra l1); store_step; [ | split; [reflexivity | exact Hfoot2] ].
    destruct (s_nerrb l1); store_step; [ | split; [reflexivity | exact Hfoot2] ].
    destruct (s_derrb l1); store_step; [ | split; [reflexivity | exact Hfoot2] ].
    split; [reflexivity | exact Hfoot2].
  - destruct Hloop as [-> Hf]. store_step. split; [reflexivity | exact Hf].
Qed.

(** C7: [fock_loop] is a function of the values it is given, and keeps no
    state between invocations.  Two calls with equal integrals, Green's
    functions and settings, on self-energy objects with equal attributes,
    hand the same result to their callers (the same Green's functions,
    self-energy attributes and flag, or the same exception), in whatever
    stores they run: at other addresses, and with whatever extrapolation
    objects earlier calls have left.  That result is the one of the
    function of the values, [fock_loop].  Each call creates its own
    extrapolation object and leaves those that existed as they were; of
    the self-energy objects that existed it changes at most the two it
    was passed. *)
Theorem fock_loop_is_stateless (in_place : bool) (agf2 : UAGF2 R) (eri : _ChemistsERIs R)
    (gf : GreensFunction R * GreensFunction R) (se1 se2 : nat * nat)
    (get_fock_arg : option (_ChemistsERIs R -> GreensFunction R * GreensFunction R ->
                            result (ndarray R * ndarray R)))
    (h1 h2 : @store R) (w : world) :
  fst se1 <> snd se1 -> fst se1 < se_allocated h1 -> snd se1 < se_allocated h1 ->
  fst se2 <> snd se2 -> fst se2 < se_allocated h2 -> snd se2 < se_allocated h2 ->
  self_energies h1 (fst se1) = self_energies h2 (fst se2) ->
  self_energies h1 (snd se1) = self_energies h2 (snd se2) ->
  observed (fock_loop_on_store in_place agf2 eri gf se1 get_fock_arg h1)
  = observed (fock_loop_on_store in_place agf2 eri gf se2 get_fock_arg h2)
  /\ observed (fock_loop_on_store in_place agf2 eri gf se1 get_fock_arg h1)
     = fst (fock_loop agf2 eri gf (self_energies h1 (fst se1), self_energies h1 (snd se1))
                      get_fock_arg w)
  /\ call_footprint h1 (fst se1) (snd se1)
       (snd (fock_loop_on_store in_place agf2 eri gf se1 get_fock_arg h1))
  /\ call_footprint h2 (fst se2) (snd se2)
       (snd (fock_loop_on_store in_place agf2 eri gf se2 get_fock_arg h2)).
Proof.
  intros Hne1 Ha1 Hb1 Hne2 Ha2 Hb2 Ea Eb.
  destruct (fock_loop_on_store_simulation in_place agf2 eri gf se1 get_fock_arg h1
              Hne1 Ha1 Hb1) as [E1 F1].
  destruct (fock_loop_on_store_simulation in_place agf2 eri gf se2 get_fock_arg h2
              Hne2 Ha2 Hb2) as [E2 F2].
  split; [rewrite E1, E2, Ea, Eb; reflexivity | ].
  split; [ | split; [exact F1 | exact F2] ].
  rewrite E1. unfold fock_loop.
  destruct (fock_loop_locals agf2 eri gf _ get_fock_arg (DIIS_new agf2)) as [r d].
  reflexivity.
Qed.

End StoreSimulation.

(** Two processes: the first holds the toy self-energies at the addresses
    0 and 1 and three extrapolation objects with a history, the second
    holds them at 5 and 2 and no extrapolation object. *)
Lemma fock_loop_is_stateless_witness :
  observed (fock_loop_on_store true (Toy.agf2 20 50) Toy.eri (Toy.gf_a, Toy.gf_b) (0, 1) None
                               ToyStores.first)
  = observed (fock_loop_on_store true (Toy.agf2 20 50) Toy.eri (Toy.gf_a, Toy.gf_b) (5, 2)
                                 None ToyStores.second)
  /\ observed (fock_loop_on_store true (Toy.agf2 20 50) Toy.eri (Toy.gf_a, Toy.gf_b) (0, 1)
                                  None ToyStores.first)
     = fst (fock_loop (Toy.agf2 20 50) Toy.eri (Toy.gf_a, Toy.gf_b)
                      (self_energies ToyStores.first 0, self_energies ToyStores.first 1)
                      None [])
  /\ call_footprint ToyStores.first 0 1
       (snd (fock_loop_on_store true (Toy.agf2 20 50) Toy.eri (Toy.gf_a, Toy.gf_b) (0, 1)
                                None ToyStores.first))
  /\ call_footprint ToyStores.second 5 2
       (snd (fock_loop_on_store true (Toy.agf2 20 50) Toy.eri (Toy.gf_a, Toy.gf_b) (5, 2)
                                None ToyStores.second)).
Proof.
  apply (fock_loop_is_stateless (R := Qc) true (Toy.agf2 20 50) Toy.eri
           (Toy.gf_a, Toy.gf_b) (0, 1) (5, 2) None ToyStores.first ToyStores.second []).
  - cbn. lia.
  - cbn. lia.
  - cbn. lia.
  - cbn. lia.
  - cbn. lia.
  - cbn. lia.
  - reflexivity.
  - reflexivity.
Defined.

(** What the caller of the toy run finds afterwards.  When
    [minimize_chempot] updates its argument, the run returns the objects
    it was passed, and the first of them carries the chemical potential
    -1/2 where it carried 0.  When [minimize_chempot] returns new
    objects, the run returns the objects 2 and 3 and the object 0 is as
    it was.  Either way the extrapolation object of the call, the fourth
    of the store, has seen two Fock matrices, and the third still has its
    one. *)
Example toy_run_on_store :
  let run := fock_loop_on_store true (Toy.agf2 20 50) Toy.eri (Toy.gf_a, Toy.gf_b) (0, 1) None
                                ToyStores.first in
  let run' := fock_loop_on_store false (Toy.agf2 20 50) Toy.eri (Toy.gf_a, Toy.gf_b) (0, 1)
                                 None ToyStores.first in
  se_chempot (self_energies ToyStores.first 0) = Q2Qc 0
  /\ (exists gf, fst run = Ok (gf, (0, 1), true))
  /\ se_chempot (self_energies (snd run) 0) = Q2Qc (-1 # 2)
  /\ (exists gf, fst run' = Ok (gf, (2, 3), true))
  /\ se_chempot (self_energies (snd run') 0) = Q2Qc 0
  /\ List.length (history (extrapolations (snd run) 3)) = 2
  /\ List.length (history (extrapolations (snd run) 2)) = 1.
Proof.
  cbv zeta.
  split; [apply Qc_is_canon; vm_compute; reflexivity | ].
  split.
  { destruct (fst (fock_loop_on_store true (Toy.agf2 20 50) Toy.eri (Toy.gf_a, Toy.gf_b)
                                      (0, 1) None ToyStores.first))
      as [[[gf se] c] | e] eqn:Hrun.
    - exists gf.
      assert (Hse : (se, c) = ((0, 1), true)).
      { change (se, c) with (let '(g, s, b) := (gf, se, c) in (s, b)).
        change (let '(g, s, b) := (gf, se, c) in (s, b))
          with (match Ok (gf, se, c) with
                | Ok (_, s, b) => (s, b)
                | Raise _ => ((0, 0), false)
                end).
        rewrite <- Hrun. vm_compute. reflexivity. }
      injection Hse as -> ->. reflexivity.
    - exfalso.
      assert (Hret : Py.returns (Raise e : result (GreensFunction Qc * GreensFunction Qc
                                                   * (nat * nat) * bool)) = true).
      { rewrite <- Hrun. vm_compute. reflexivity. }
      discriminate Hret. }
  split; [apply Qc_is_canon; vm_compute; reflexivity | ].
  split.
  { destruct (fst (fock_loop_on_store false (Toy.agf2 20 50) Toy.eri (Toy.gf_a, Toy.gf_b)
                                      (0, 1) None ToyStores.first))
      as [[[gf se] c] | e] eqn:Hrun.
    - exists gf.
      assert (Hse : (se, c) = ((2, 3), true)).
      { change (se, c)
          with (match Ok (gf, se, c) with
                | Ok (_, s, b) => (s, b)
                | Raise _ => ((0, 0), false)
                end).
        rewrite <- Hrun. vm_compute. reflexivity. }
      injection Hse as -> ->. reflexivity.
    - exfalso.
      assert (Hret : Py.returns (Raise e : result (GreensFunction Qc * GreensFunction Qc
                                                   * (nat * nat) * bool)) = true).
      { rewrite <- Hrun. vm_compute. reflexivity. }
      discriminate Hret. }
  split; [apply Qc_is_canon; vm_compute; reflexivity | ].
  split; vm_compute; reflexivity.
Qed.
